(** * analyize-coin: indicator engine, breakout detector, criticality
      classifier, orchestrator, fetch and alert ledger

    A shallow embedding of [src/analyzer.py], [config/config.py] and the
    alert ledger of [main.py].

    Numbers.  The program computes on IEEE doubles held in pandas Series.
    Here a double is a [float]: not-a-number, an infinity, or a finite
    value carried as an exact rational.  Comparisons with [NaN] are false,
    division by zero yields an infinity or [NaN], as numpy does; rounding
    is not modelled and zero carries no sign (a zero divisor is taken as
    [+0.0], which is what a rolling mean of non-negative numbers gives). *)

From Stdlib Require Import QArith Qabs Qminmax Lqa ZArith Bool Lia.
From stdpp Require Import base option list gmap strings.

Local Open Scope Q_scope.

(** ** Floating-point values *)

Inductive float : Type :=
| NaN
| Inf (negative : bool)
| Fin (q : Q).

Definition Qlt_bool (x y : Q) : bool := negb (Qle_bool y x).

Definition Qneg_bool (x : Q) : bool := Qlt_bool x 0.

Definition fneg (x : float) : float :=
  match x with
  | NaN => NaN
  | Inf s => Inf (negb s)
  | Fin q => Fin (- q)
  end.

Definition fabs (x : float) : float :=
  match x with
  | NaN => NaN
  | Inf _ => Inf false
  | Fin q => Fin (Qabs q)
  end.

Definition fadd (x y : float) : float :=
  match x, y with
  | NaN, _ | _, NaN => NaN
  | Inf s, Inf s' => if eqb s s' then Inf s else NaN
  | Inf s, Fin _ | Fin _, Inf s => Inf s
  | Fin a, Fin b => Fin (a + b)
  end.

Definition fsub (x y : float) : float := fadd x (fneg y).

Definition fmul (x y : float) : float :=
  match x, y with
  | NaN, _ | _, NaN => NaN
  | Inf s, Inf s' => Inf (xorb s s')
  | Inf s, Fin q | Fin q, Inf s =>
      if Qeq_bool q 0 then NaN else Inf (xorb s (Qneg_bool q))
  | Fin a, Fin b => Fin (a * b)
  end.

Definition fdiv (x y : float) : float :=
  match x, y with
  | NaN, _ | _, NaN => NaN
  | Inf _, Inf _ => NaN
  | Inf s, Fin q => Inf (xorb s (Qneg_bool q))
  | Fin _, Inf _ => Fin 0
  | Fin a, Fin b =>
      if Qeq_bool b 0
      then (if Qeq_bool a 0 then NaN else Inf (Qneg_bool a))
      else Fin (a / b)
  end.

(** [x < y]; false as soon as one side is [NaN]. *)
Definition fltb (x y : float) : bool :=
  match x, y with
  | NaN, _ | _, NaN => false
  | Inf s, Inf s' => s && negb s'
  | Inf s, Fin _ => s
  | Fin _, Inf s => negb s
  | Fin a, Fin b => Qlt_bool a b
  end.

(** [x <= y]. *)
Definition fleb (x y : float) : bool :=
  match x, y with
  | NaN, _ | _, NaN => false
  | Inf s, Inf s' => s || negb s'
  | Inf s, Fin _ => s
  | Fin _, Inf s => negb s
  | Fin a, Fin b => Qle_bool a b
  end.

Definition fgtb (x y : float) : bool := fltb y x.
Definition fgeb (x y : float) : bool := fleb y x.

(** [x == y] on doubles. *)
Definition feqb (x y : float) : bool :=
  match x, y with
  | Inf s, Inf s' => eqb s s'
  | Fin a, Fin b => Qeq_bool a b
  | _, _ => false
  end.

(** Python truthiness of a double: only zero is falsy ([bool(nan)] is
    [True]). *)
Definition truthy (x : float) : bool :=
  match x with
  | Fin q => negb (Qeq_bool q 0)
  | _ => true
  end.

(** Truthiness of a value that may also be [None]. *)
Definition truthy_opt (x : option float) : bool :=
  match x with
  | None => false
  | Some v => truthy v
  end.

Definition is_nan (x : float) : bool :=
  match x with NaN => true | _ => false end.

Definition is_fin (x : float) : bool :=
  match x with Fin _ => true | _ => false end.

(** ** Series: a pandas column *)

Abbreviation Series := (list float).

(** [s.iloc[-k]]: the [k]-th element from the end, [None] (an
    [IndexError]) when the column is shorter than [k]. *)
Definition iloc_neg {A} (k : nat) (s : list A) : option A :=
  if (k =? 0)%nat then None
  else if (length s <? k)%nat then None
  else s !! (length s - k)%nat.

(** [s.shift(1)] *)
Definition shift1 (s : Series) : Series :=
  take (length s) (NaN :: s).

(** [s.diff()] *)
Definition diff (s : Series) : Series :=
  zip_with fsub s (shift1 s).

(** [s.where(cond, other)] with a scalar [other]. *)
Definition where_ (s : Series) (cond : list bool) (other : float) : Series :=
  zip_with (fun x (c : bool) => if c then x else other) s cond.

(** [s[mask] = v] *)
Definition mask_assign (s : Series) (mask : list bool) (v : float) : Series :=
  zip_with (fun x (m : bool) => if m then v else x) s mask.

(** [pd.Series(index=idx, dtype=float)]: an all-NaN column. *)
Definition nan_series (n : nat) : Series := replicate n NaN.

(** *** Rolling windows

    [s.rolling(window=p)] with pandas' default [min_periods = p]: the
    statistic at index [i] is computed on the [p] entries ending at [i];
    it is [NaN] while fewer than [p] entries are available or when one
    of them is [NaN]. *)

Definition window (p i : nat) (s : Series) : Series :=
  take p (drop (i + 1 - p) s).

Definition rolling (p : nat) (f : Series -> float) (s : Series) : Series :=
  map (fun i =>
         if (p <=? i + 1)%nat && forallb (fun x => negb (is_nan x)) (window p i s)
         then f (window p i s)
         else NaN)
      (seq 0 (length s)).

Definition fsum (w : Series) : float := foldr fadd (Fin 0) w.

Definition fmean (w : Series) : float :=
  fdiv (fsum w) (Fin (inject_Z (Z.of_nat (length w)))).

Definition fmin2 (x y : float) : float := if fltb y x then y else x.
Definition fmax2 (x y : float) : float := if fltb x y then y else x.

Definition fminimum (w : Series) : float :=
  match w with
  | [] => NaN
  | x :: w' => foldl fmin2 x w'
  end.

Definition fmaximum (w : Series) : float :=
  match w with
  | [] => NaN
  | x :: w' => foldl fmax2 x w'
  end.

(** ** Configuration ([config/config.py])

    [Config()] takes no argument: its fields are the constants below
    (only the fields the modelled code reads). *)

Module Config.

Definition SYMBOLS_TO_MONITOR : list string :=
  ["BTCUSDT"; "ETHUSDT"; "SOLUSDT"]%string.

Definition TIMEFRAMES_default : string := "1d".


Definition ANALYSIS_default_days : Z := 30.
Definition ANALYSIS_max_days : Z := 365.

Definition MA_periods : list nat := [5; 10; 20; 50; 100; 200]%nat.
Definition MA_default_period : nat := 20.
Definition RSI_period : nat := 14.
Definition Bollinger_period : nat := 20.
Definition Bollinger_std_dev : Q := 2.

Definition TREND_min_points : nat := 5.
Definition TREND_breakout_threshold : Q := 2 # 100.


(** [Config.is_valid_symbol] *)
Definition is_valid_symbol (symbol : string) : bool :=
  bool_decide (symbol ∈ SYMBOLS_TO_MONITOR).

(** [Config.get_ma_periods], on a period that is absent or a natural
    number. *)
Definition get_ma_periods (period : option nat) : nat :=
  match period with
  | Some p =>
      if negb (p =? 0)%nat && bool_decide (p ∈ MA_periods)
      then p else MA_default_period
  | None => MA_default_period
  end.

End Config.

(** ** Candles and the data frame *)

Record Candle : Type := mkCandle {
  timestamp : Z;
  open : Q;
  high : Q;
  low : Q;
  close : Q;
  volume : Q
}.

(** The frame built by [calculate_technical_indicators]: the candle
    columns, one row per timestamp, and the derived columns. *)
Record DataFrame : Type := mkDataFrame {
  rows : list Candle;
  MA : list (nat * Series);
  trend_line : Series;
  support : Series;
  resistance : Series;
  BB_middle : Series;
  BB_upper : Series;
  BB_lower : Series;
  RSI : Series;
  trend_break : Series
}.

Definition col (f : Candle -> Q) (cs : list Candle) : Series :=
  map (fun c => Fin (f c)) cs.

(** [len(df)] *)
Definition len (df : DataFrame) : nat := length (rows df).

(** [df['trend_break'] = s] *)
Definition set_trend_break (s : Series) (df : DataFrame) : DataFrame :=
  mkDataFrame (rows df) (MA df) (trend_line df) (support df) (resistance df)
              (BB_middle df) (BB_upper df) (BB_lower df) (RSI df) s.

(** ** Indicator engine *)

Section Engine.

(** The square root used by pandas' rolling standard deviation. *)
Variable sqrtQ : Q -> Q.

Definition fsqrt (x : float) : float :=
  match x with
  | NaN => NaN
  | Inf s => if s then NaN else Inf false
  | Fin q => if Qneg_bool q then NaN else Fin (sqrtQ q)
  end.

(** Sample standard deviation ([ddof = 1]) of a window. *)
Definition fstd (w : Series) : float :=
  let m := fmean w in
  let sq := map (fun x => fmul (fsub x m) (fsub x m)) w in
  fsqrt (fdiv (fsum sq) (Fin (inject_Z (Z.of_nat (length w)) - 1))).

(** [x = np.arange(n)] *)
Definition arange (n : nat) : Series :=
  map (fun i => Fin (inject_Z (Z.of_nat i))) (seq 0 n).

(** [np.polyfit(x, y, 1)]: the least-squares line, as (slope, intercept). *)
Definition polyfit1 (x y : Series) : float * float :=
  let n := Fin (inject_Z (Z.of_nat (length x))) in
  let sx := fsum x in
  let sy := fsum y in
  let sxy := fsum (zip_with fmul x y) in
  let sxx := fsum (zip_with fmul x x) in
  let slope :=
    fdiv (fsub (fmul n sxy) (fmul sx sy)) (fsub (fmul n sxx) (fmul sx sx)) in
  let intercept := fdiv (fsub sy (fmul slope sx)) n in
  (slope, intercept).

Definition _calculate_trend_line (prices : Series) : Series :=
  if (length prices <? Config.TREND_min_points)%nat
  then nan_series (length prices)
  else
    let x := arange (length prices) in
    let coefficients := polyfit1 x prices in
    map (fun xi => fadd (fmul (fst coefficients) xi) (snd coefficients)) x.

Definition _calculate_support_resistance (cs : list Candle) : Series * Series :=
  let period := Config.MA_default_period in
  let support := rolling period fminimum (col low cs) in
  let resistance := rolling period fmaximum (col high cs) in
  (support, resistance).

Definition up_break (df : DataFrame) : list bool :=
  let breakout_threshold := Config.TREND_breakout_threshold in
  zip_with andb
    (zip_with fgtb (col close (rows df))
       (map (fun r => fmul r (Fin (1 + breakout_threshold)))
            (shift1 (resistance df))))
    (zip_with fleb (shift1 (col close (rows df))) (shift1 (resistance df))).

Definition down_break (df : DataFrame) : list bool :=
  let breakout_threshold := Config.TREND_breakout_threshold in
  zip_with andb
    (zip_with fltb (col close (rows df))
       (map (fun s => fmul s (Fin (1 - breakout_threshold)))
            (shift1 (support df))))
    (zip_with fgeb (shift1 (col close (rows df))) (shift1 (support df))).

Definition _detect_trend_breaks (df : DataFrame) : Series :=
  let breaks := nan_series (len df) in
  let breaks := mask_assign breaks (up_break df) (Fin 1) in
  let breaks := mask_assign breaks (down_break df) (Fin (-1)) in
  breaks.

(** [delta.where(delta > 0, 0)] and [-delta.where(delta < 0, 0)] for
    [delta = close.diff()]. *)
Definition gains (close : Series) : Series :=
  let delta := diff close in
  where_ delta (map (fun d => fgtb d (Fin 0)) delta) (Fin 0).

Definition losses (close : Series) : Series :=
  let delta := diff close in
  map fneg (where_ delta (map (fun d => fltb d (Fin 0)) delta) (Fin 0)).

(** The two rolling means behind the RSI. *)
Definition rsi_gain (cs : list Candle) : Series :=
  rolling Config.RSI_period fmean (gains (col close cs)).

Definition rsi_loss (cs : list Candle) : Series :=
  rolling Config.RSI_period fmean (losses (col close cs)).

Definition rsi_of_rs (rs : float) : float :=
  fsub (Fin 100) (fdiv (Fin 100) (fadd (Fin 1) rs)).

Definition calculate_technical_indicators (cs : list Candle) : DataFrame :=
  let ma :=
    map (fun period => (period, rolling period fmean (col close cs)))
        Config.MA_periods in
  let trend := _calculate_trend_line (col close cs) in
  let sr := _calculate_support_resistance cs in
  let bb_period := Config.Bollinger_period in
  let bb_std := Config.Bollinger_std_dev in
  let bb_middle := rolling bb_period fmean (col close cs) in
  let std := rolling bb_period fstd (col close cs) in
  let bb_upper := zip_with fadd bb_middle (map (fun s => fmul s (Fin bb_std)) std) in
  let bb_lower := zip_with fsub bb_middle (map (fun s => fmul s (Fin bb_std)) std) in
  let gain := rsi_gain cs in
  let loss := rsi_loss cs in
  let rs := zip_with fdiv gain loss in
  let rsi := map rsi_of_rs rs in
  let df :=
    mkDataFrame cs ma trend (fst sr) (snd sr) bb_middle bb_upper bb_lower rsi [] in
  set_trend_break (_detect_trend_breaks df) df.

End Engine.

(** ** Breakout detector and criticality classifier

    Both methods run inside [try: ... except Exception: return False].
    The bodies below are written in the option monad, [None] standing
    for a raised exception (an out-of-range [iloc]); the methods
    themselves turn it into [False]. *)

Definition _check_fake_breakout_body (df : DataFrame) : option bool :=
  if (len df <? 3)%nat then Some false
  else
    let last_three := drop (len df - 3) (rows df) in
    resistance ← iloc_neg 3 (resistance df);
    h0 ← col high last_three !! 0%nat;
    c1 ← col close last_three !! 1%nat;
    c2 ← col close last_three !! 2%nat;
    if fgtb h0 resistance && fgtb c1 resistance && fltb c2 resistance
    then Some true
    else
      support ← iloc_neg 3 (support df);
      l0 ← col low last_three !! 0%nat;
      if fltb l0 support && fltb c1 support && fgtb c2 support
      then Some true
      else Some false.

Definition _check_fake_breakout (df : DataFrame) : bool :=
  default false (_check_fake_breakout_body df).

(** The first three clauses read only the scalar arguments. *)
Definition trend_break_clause (current_price : float) (trend_line : option float) : bool :=
  match trend_line with
  | Some tl =>
      if truthy tl
      then fgtb (fdiv (fabs (fsub current_price tl)) tl)
                (Fin Config.TREND_breakout_threshold)
      else false
  | None => false
  end.

Definition support_resistance_clause
    (current_price : float) (support resistance : option float) : bool :=
  match support, resistance with
  | Some s, Some r =>
      if truthy s && truthy r
      then
        let price_threshold := fmul (fsub r s) (Fin (2 # 100)) in
        fltb (fabs (fsub current_price s)) price_threshold
        || fltb (fabs (fsub current_price r)) price_threshold
      else false
  | _, _ => false
  end.

Definition rsi_clause (rsi : option float) : bool :=
  match rsi with
  | Some r => fgeb r (Fin 70) || fleb r (Fin 30)
  | None => false
  end.

Definition volume_clause_body (df : DataFrame) : option bool :=
  let vol := col volume (rows df) in
  match vol with
  | [] => Some false
  | _ =>
      let avg_volume := rolling 20 fmean vol in
      current_volume ← iloc_neg 1 vol;
      avg ← iloc_neg 1 avg_volume;
      Some (fgtb current_volume (fmul avg (Fin 2)))
  end.

Definition _is_critical_moment_body
    (df : DataFrame) (current_price : float)
    (trend_line support resistance rsi : option float) : option bool :=
  let trend_break := trend_break_clause current_price trend_line in
  let support_resistance_break :=
    support_resistance_clause current_price support resistance in
  let rsi_extreme := rsi_clause rsi in
  volume_spike ← volume_clause_body df;
  let fake_breakout := _check_fake_breakout df in
  Some (trend_break || support_resistance_break || rsi_extreme
        || volume_spike || fake_breakout).

Definition _is_critical_moment
    (df : DataFrame) (current_price : float)
    (trend_line support resistance rsi : option float) : bool :=
  default false
    (_is_critical_moment_body df current_price trend_line support resistance rsi).

(** ** Fetch and orchestration *)

(** Values held by the [technical_data] dictionary. *)
Inductive pyval : Type :=
| PyNone
| PyFloat (x : float)
| PyStr (s : string)
| PyBool (b : bool).

Record AnalysisResult : Type := mkAnalysisResult {
  technical_data : gmap string pyval;
  analysis : string
}.

(** What a call leaves behind besides its result. *)
Inductive Event : Type :=
| NetworkRequest (symbol interval : string) (start_str : Z)
| Printed (line : string)
| Logged (line : string).

Inductive Exn : Type :=
| ValueError (msg : string)
| OtherError (msg : string).

Definition exn_str (e : Exn) : string :=
  match e with
  | ValueError msg => msg
  | OtherError msg => msg
  end.

(** [technical_data.get('is_critical', False)], the way [main.py] reads
    the verdict. *)
Definition get_is_critical (td : gmap string pyval) : pyval :=
  default (PyBool false) (td !! "is_critical"%string).

Section Analyzer.

Variable sqrtQ : Q -> Q.

(** [datetime.now()], in epoch milliseconds. *)
Variable now : Z.

(** The exchange client ([get_historical_klines]) followed by the
    construction of the frame; [inl msg] is any exception raised there. *)
Variable get_historical_klines : string -> string -> Z -> string + list Candle.

(** [_perform_ai_analysis] up to its fallback: prompt construction and
    the language-model call, [None] when either raises. *)
Variable ai_generate : string -> gmap string pyval -> DataFrame -> option string.

(** [f"{x:.1f}"], [f"{x:.2f}"] and [str(x)] on doubles. *)
Variable fmt1 : float -> string.
Variable fmt2 : float -> string.
Variable repr_float : float -> string.

Definition ms_per_day : Z := 86400000.

(** The body of [get_historical_data]'s [try]. *)
Definition get_historical_data_body
    (symbol : string) (interval : option string) (days : option Z)
  : (Exn + list Candle) * list Event :=
  let interval :=
    match interval with
    | Some i => if String.eqb i EmptyString then Config.TIMEFRAMES_default else i
    | None => Config.TIMEFRAMES_default
    end in
  let days :=
    match days with
    | Some d => if (d =? 0)%Z then Config.ANALYSIS_default_days else d
    | None => Config.ANALYSIS_default_days
    end in
  let days :=
    if (days >? Config.ANALYSIS_max_days)%Z then Config.ANALYSIS_max_days else days in
  let start_time := (now - days * ms_per_day)%Z in
  if negb (Config.is_valid_symbol symbol)
  then (inl (ValueError ("無效的交易對: " +:+ symbol)), [])
  else
    match get_historical_klines symbol interval start_time with
    | inl msg => (inl (OtherError msg), [NetworkRequest symbol interval start_time])
    | inr klines => (inr klines, [NetworkRequest symbol interval start_time])
    end.

Definition get_historical_data
    (symbol : string) (interval : option string) (days : option Z)
  : option (list Candle) * list Event :=
  match get_historical_data_body symbol interval days with
  | (inr df, ev) => (Some df, ev)
  | (inl e, ev) =>
      (None, ev ++ [Printed ("Error fetching historical data: " +:+ exn_str e)])
  end.

Definition py_str (v : pyval) : string :=
  match v with
  | PyNone => "None"
  | PyFloat x => repr_float x
  | PyStr s => s
  | PyBool b => if b then "True" else "False"
  end.

Definition truthy_val (v : pyval) : bool :=
  match v with
  | PyNone => false
  | PyFloat x => truthy x
  | PyStr s => negb (String.eqb s EmptyString)
  | PyBool b => b
  end.

Definition join_lines (ls : list string) : string :=
  match ls with
  | [] => EmptyString
  | l :: ls' => foldl (fun acc x => acc +:+ String (Ascii.ascii_of_nat 10) EmptyString +:+ x) l ls'
  end.

(** The body of [_generate_basic_analysis]; [None] is a raised
    [KeyError] or [TypeError].  The dictionary it is given holds a
    double or [None] under ['rsi'], ['support'] and ['resistance']. *)
Definition _generate_basic_analysis_body (td : gmap string pyval) : option string :=
  trend ← td !! "break_analysis"%string;
  rsi ← td !! "rsi"%string;
  _ ← td !! "current_price"%string;
  r ← (match rsi with PyFloat r => Some r | _ => None end);
  let analysis := ["當前趨勢: " +:+ py_str trend] in
  let analysis :=
    analysis ++
    [if fgeb r (Fin 70)
     then "RSI (" +:+ fmt1 r +:+ ") 顯示市場處於超買狀態"
     else if fleb r (Fin 30)
     then "RSI (" +:+ fmt1 r +:+ ") 顯示市場處於超賣狀態"
     else "RSI (" +:+ fmt1 r +:+ ") 處於正常區間"] in
  support ← td !! "support"%string;
  resistance ← td !! "resistance"%string;
  let analysis :=
    match support, resistance with
    | PyFloat s, PyFloat r' =>
        if truthy s && truthy r'
        then analysis ++ ["支撐位: $" +:+ fmt2 s; "阻力位: $" +:+ fmt2 r']
        else analysis
    | _, _ => analysis
    end in
  Some (join_lines analysis).

Definition _generate_basic_analysis (td : gmap string pyval) : string :=
  default "無法生成分析"%string (_generate_basic_analysis_body td).

Definition _perform_ai_analysis
    (symbol : string) (td : gmap string pyval) (df : DataFrame) : string :=
  match ai_generate symbol td df with
  | Some text => text
  | None => _generate_basic_analysis td
  end.

(** The snapshot returned when [get_historical_data] gave [None]. *)
Definition unavailable_result : AnalysisResult :=
  mkAnalysisResult
    (<["break_analysis" := PyStr "N/A"]>
     (<["current_price" := PyNone]>
      (<["trend_line" := PyNone]>
       (<["support" := PyNone]>
        (<["resistance" := PyNone]>
         (<["rsi" := PyNone]> ∅))))))%string
    "無法獲取市場數據".

(** The snapshot returned by the [except] branch. *)
Definition error_result (e : string) : AnalysisResult :=
  mkAnalysisResult
    (<["break_analysis" := PyStr "Error"]>
     (<["current_price" := PyNone]>
      (<["trend_line" := PyNone]>
       (<["support" := PyNone]>
        (<["resistance" := PyNone]>
         (<["rsi" := PyNone]>
          (<["is_critical" := PyBool false]> ∅)))))))%string
    ("分析錯誤: " +:+ e).

(** [df['trend_break'].dropna()[-5:]] *)
Definition recent_breaks (df : DataFrame) : Series :=
  let kept := filter (fun x => is_nan x = false) (trend_break df) in
  drop (length kept - 5) kept.

Definition break_analysis_of (df : DataFrame) : string :=
  if existsb (fun x => feqb x (Fin 1)) (recent_breaks df)
  then "最近出現向上突破"
  else if existsb (fun x => feqb x (Fin (-1))) (recent_breaks df)
  then "最近出現向下突破"
  else "無明顯突破".

(** The part of [analyze_trends] after a successful fetch; [inl msg]
    is an exception, caught by the enclosing [try]. *)
Definition analyze_frame (symbol : string) (cs : list Candle) : string + AnalysisResult :=
  let df := calculate_technical_indicators sqrtQ cs in
  let oob := "single positional indexer is out-of-bounds"%string in
  match iloc_neg 1 (col close (rows df)), iloc_neg 1 (trend_line df),
        iloc_neg 1 (support df), iloc_neg 1 (resistance df), iloc_neg 1 (RSI df) with
  | Some current_price, Some trend_line_value, Some support, Some resistance, Some rsi =>
      let is_critical :=
        _is_critical_moment df current_price (Some trend_line_value)
                            (Some support) (Some resistance) (Some rsi) in
      let break_analysis := break_analysis_of df in
      let td : gmap string pyval :=
        (<["current_price" := PyFloat current_price]>
         (<["trend_line" := PyFloat trend_line_value]>
          (<["support" := PyFloat support]>
           (<["resistance" := PyFloat resistance]>
            (<["rsi" := PyFloat rsi]>
             (<["break_analysis" := PyStr break_analysis]>
              (<["is_critical" := PyBool is_critical]> ∅)))))))%string in
      let analysis_text :=
        if is_critical
        then _perform_ai_analysis symbol td df
        else _generate_basic_analysis td in
      inr (mkAnalysisResult td analysis_text)
  | _, _, _, _, _ => inl oob
  end.

Definition analyze_trends (symbol interval : string) (days : Z)
  : AnalysisResult * list Event :=
  match get_historical_data symbol (Some interval) (Some days) with
  | (None, ev) => (unavailable_result, ev)
  | (Some cs, ev) =>
      match analyze_frame symbol cs with
      | inr res => (res, ev)
      | inl e => (error_result e, ev ++ [Logged ("分析過程出錯: " +:+ e)])
      end
  end.

End Analyzer.

(** ** Alert ledger ([CryptoRealtimeAgent.add_alert], [main.py]) *)

Module Agent.

Record Alert : Type := mkAlert {
  message : string;
  timestamp : Z;
  id : string
}.

(** The two attributes [add_alert] reads and updates. *)
Record State : Type := mkState {
  alerts : list Alert;
  processed_alerts : gset string
}.

(** The attributes as [__init__] leaves them. *)
Definition init : State := mkState [] ∅.

(** [add_alert(message, alert_id)], run at clock reading [now]. *)
Definition add_alert (now : Z) (message alert_id : string) (st : State) : State :=
  if bool_decide (alert_id ∈ processed_alerts st) then st
  else
    let new_alert := mkAlert message now alert_id in
    let alerts := alerts st ++ [new_alert] in
    let processed := {[alert_id]} ∪ processed_alerts st in
    let alerts :=
      if (5 <? length alerts)%nat then drop (length alerts - 5) alerts else alerts in
    let processed :=
      if (1000 <? size processed)%nat
      then list_to_set (map id alerts)
      else processed in
    mkState alerts processed.

(** One call: clock reading, message, alert id. *)
Definition Call : Type := Z * string * string.

Definition step (st : State) (c : Call) : State :=
  add_alert c.1.1 c.1.2 c.2 st.

Definition run (calls : list Call) (st : State) : State :=
  foldl step st calls.



(** [xs[-5:]] *)
Definition last5 {A} (xs : list A) : list A := drop (length xs - 5) xs.

(** What every reachable state of the ledger satisfies. *)
Definition ledger_inv (st : State) : Prop :=
  (length (alerts st) <= 5)%nat
  /\ NoDup (id <$> alerts st)
  /\ (forall x, x ∈ id <$> alerts st -> x ∈ processed_alerts st)
  /\ (size (processed_alerts st) <= 1000)%nat.

End Agent.


(** ** Vocabulary of the statements *)

Definition Qsum (l : list Q) : Q := foldr Qplus 0 l.

(** The candles under the window ending at row [i]. *)
Definition window_rows (p i : nat) (cs : list Candle) : list Candle :=
  take p (drop (i + 1 - p) cs).

(** Number of leading undefined entries of a column. *)
Fixpoint leading_nan (s : Series) : nat :=
  match s with
  | x :: s' => if is_nan x then S (leading_nan s') else 0%nat
  | [] => 0%nat
  end.

(** A column of finite values. *)
Definition fins (qs : list Q) : Series := Fin <$> qs.


(** DataFrame invariant: the columns read by the detector share the
    index of the frame. *)
Definition aligned (df : DataFrame) : Prop :=
  length (support df) = len df /\ length (resistance df) = len df.

(** The two trigger conditions of the breakout detector at row [t],
    read row by row: [close[t] > resistance[t-1] * (1 + threshold)] and
    [close[t-1] <= resistance[t-1]] for an up-break,
    [close[t] < support[t-1] * (1 - threshold)] and
    [close[t-1] >= support[t-1]] for a down-break.  Row 0 has no prior
    row and triggers nothing. *)
Definition up_trigger (df : DataFrame) (t : nat) : bool :=
  match t with
  | O => false
  | S t' =>
      match rows df !! t, rows df !! t', resistance df !! t' with
      | Some c, Some c', Some r =>
          fgtb (Fin (close c)) (fmul r (Fin (1 + Config.TREND_breakout_threshold)))
          && fleb (Fin (close c')) r
      | _, _, _ => false
      end
  end.

Definition down_trigger (df : DataFrame) (t : nat) : bool :=
  match t with
  | O => false
  | S t' =>
      match rows df !! t, rows df !! t', support df !! t' with
      | Some c, Some c', Some s =>
          fltb (Fin (close c)) (fmul s (Fin (1 - Config.TREND_breakout_threshold)))
          && fgeb (Fin (close c')) s
      | _, _, _ => false
      end
  end.


(** The fake-breakout pattern on the last three rows [b0; b1; b2],
    against the resistance and the support recorded at the row of [b0]
    (three rows back): the high of [b0] above the resistance, the close
    of [b1] still above it, the close of [b2] back below it; or the
    mirror image against the support. *)
Definition fake_breakout_pattern (df : DataFrame) : Prop :=
  exists pre b0 b1 b2,
    rows df = pre ++ [b0; b1; b2] /\
    ((exists r, resistance df !! length pre = Some (Fin r) /\
                r < high b0 /\ r < close b1 /\ close b2 < r)
     \/ (exists s, support df !! length pre = Some (Fin s) /\
                   low b0 < s /\ close b1 < s /\ s < close b2)).






Definition volume_fires (df : DataFrame) : Prop :=
  let vs := volume <$> rows df in
  exists v, last vs = Some v /\ (20 <= length vs)%nat /\
            Qsum (drop (length vs - 20) vs) / 20 * 2 < v.


(** ** Concrete inputs used by the examples *)

(** Any function will do as the square root where an example evaluates
    the engine: none of the facts checked there reads a Bollinger band. *)
Definition sqrt_any : Q -> Q := fun q => q.

(** A candle with the given low, high and close (open as close, volume
    1000). *)
Definition bar (t : Z) (l h c : Q) : Candle := mkCandle t c h l c 1000.

(** Three rows: shorter than every configured rolling window. *)
Definition three_candles : list Candle :=
  [bar 0 9 11 10; bar 1 10 12 11; bar 2 11 13 12].

(** Fifteen rows with the same close: no gain and no loss. *)
Definition flat_candles : list Candle :=
  (fun i => bar (Z.of_nat i) 99 101 100) <$> seq 0 15.

(** Fifteen rows rising by one each day: gains and no loss. *)
Definition rising_candles : list Candle :=
  (fun i => bar (Z.of_nat i) (99 + inject_Z (Z.of_nat i))
                (101 + inject_Z (Z.of_nat i)) (100 + inject_Z (Z.of_nat i)))
  <$> seq 0 15.

(** Twenty rows of one and the same candle. *)
Definition twenty_candles : list Candle := replicate 20 (bar 0 1 2 1).


(** Twenty quiet rows (low 1, high 2, close 1.5) followed by a close at
    3, above the resistance of 2 by more than the threshold. *)
Definition breakout_candles : list Candle :=
  replicate 20 (bar 0 1 2 (3 # 2)) ++ [bar 20 2 4 3].

(** A hand-built frame whose last three rows show an up-fake against a
    resistance of 10: high 11, close 10.5, close 9. *)
Definition fake_frame : DataFrame :=
  mkDataFrame [bar 0 9 11 10; bar 1 10 11 (21 # 2); bar 2 8 10 9]
              [] [] [NaN; NaN; NaN] [Fin 10; Fin 10; Fin 10] [] [] [] [] [].

(** An exchange that answers every request with an empty series, and one
    that always fails. *)
Definition empty_exchange : string -> string -> Z -> string + list Candle :=
  fun _ _ _ => inr [].

Definition failing_exchange : string -> string -> Z -> string + list Candle :=
  fun _ _ _ => inl "connection refused"%string.


(** ** Further vocabulary *)


(** The dictionary [analyze_trends] assembles on its success path. *)
Definition snapshot (cp tl s r rsi : float) (ba : string) (crit : bool)
  : gmap string pyval :=
  (<["current_price" := PyFloat cp]>
   (<["trend_line" := PyFloat tl]>
    (<["support" := PyFloat s]>
     (<["resistance" := PyFloat r]>
      (<["rsi" := PyFloat rsi]>
       (<["break_analysis" := PyStr ba]>
        (<["is_critical" := PyBool crit]> ∅)))))))%string.

(** Exchanges answering every request with a fixed series. *)
Definition rising_exchange : string -> string -> Z -> string + list Candle :=
  fun _ _ _ => inr rising_candles.

Definition quiet_exchange : string -> string -> Z -> string + list Candle :=
  fun _ _ _ => inr three_candles.

(** A generator that always fails and formatters that print nothing. *)
Definition no_generator : string -> gmap string pyval -> DataFrame -> option string :=
  fun _ _ _ => None.

Definition fmt_blank : float -> string := fun _ => EmptyString.

(** ** The monitoring agent ([CryptoRealtimeAgent], [main.py])

    The agent's remaining state and the methods that update it between
    two refreshes of the display.  Logging and printing are left out.  Each reading of
    the wall clock a method makes is an argument of its model. *)

Module Monitor.

(** An entry of [current_prices]; the price is a double, or [None] for
    the string ['N/A']. *)
Record PriceEntry : Type := mkPriceEntry {
  price : option float;
  timestamp : Z
}.

Record Dashboard : Type := mkDashboard {
  current_prices : gmap string PriceEntry;
  price_changes : gmap string string;
  last_analysis : gmap string AnalysisResult;
  ledger : Agent.State
}.

(** The attributes as [__init__] leaves them. *)
Definition init : Dashboard := mkDashboard ∅ ∅ ∅ Agent.init.

Definition set_ledger (l : Agent.State) (st : Dashboard) : Dashboard :=
  mkDashboard (current_prices st) (price_changes st) (last_analysis st) l.

Definition set_last_analysis (m : gmap string AnalysisResult) (st : Dashboard)
  : Dashboard :=
  mkDashboard (current_prices st) (price_changes st) m (ledger st).

(** [_get_default_analysis] *)
Definition _get_default_analysis : AnalysisResult :=
  mkAnalysisResult
    (<["break_analysis" := PyStr "N/A"]>
     (<["current_price" := PyNone]>
      (<["trend_line" := PyNone]>
       (<["support" := PyNone]>
        (<["resistance" := PyNone]>
         (<["rsi" := PyNone]>
          (<["is_critical" := PyBool false]> ∅)))))))%string
    "No analysis available".

Definition newline : string := String (Ascii.ascii_of_nat 10) EmptyString.

Section Methods.

Variable sqrtQ : Q -> Q.
Variable get_historical_klines : string -> string -> Z -> string + list Candle.
Variable ai_generate : string -> gmap string pyval -> DataFrame -> option string.
Variables fmt1 fmt2 repr_float : float -> string.

(** The exchange's ticker followed by [float(ticker['price'])]; [inl] is
    any exception raised there. *)
Variable get_symbol_ticker : string -> string + float.

(** [f"{x:,.2f}"] and [f"{x:+.2f}"] on doubles, [float(f"{x:.1f}")], and
    [strftime] with the patterns ['%Y%m%d_%H%M'] and ['%H:%M:%S']. *)
Variable fmt_price : float -> string.
Variable fmt_change : float -> string.
Variable round1 : float -> float.
Variable minute_stamp : Z -> string.
Variable clock_time : Z -> string.

(** [CryptoTrendAnalyzer.get_realtime_price] *)
Definition get_realtime_price (symbol : string) : option float :=
  if negb (Config.is_valid_symbol symbol) then None
  else
    match get_symbol_ticker symbol with
    | inr p => Some p
    | inl _ => None
    end.

(** [check_price_alerts(symbol, current_price)].  The dictionary holds a
    double or [None] under ['trend_line']. *)
Definition check_price_alerts
    (now_id now_alert : Z) (symbol : string) (current_price : float)
    (st : Dashboard) : Dashboard :=
  match last_analysis st !! symbol with
  | None => st
  | Some analysis =>
      let technical_data := technical_data analysis in
      if truthy_val (get_is_critical technical_data) then st
      else
        let alert_id := symbol +:+ "_" +:+ minute_stamp now_id in
        match technical_data !! "trend_line"%string with
        | Some (PyFloat trend_line) =>
            if truthy trend_line
            then
              let threshold := Config.TREND_breakout_threshold in
              if fgtb current_price (fmul trend_line (Fin (1 + threshold)))
                 && negb (bool_decide
                            (alert_id ∈ Agent.processed_alerts (ledger st)))
              then
                set_ledger
                  (Agent.add_alert now_alert
                     ("🔔 " +:+ symbol +:+ " 向上突破趨勢線！當前價格: $"
                      +:+ fmt_price current_price)
                     alert_id (ledger st)) st
              else if fltb current_price (fmul trend_line (Fin (1 - threshold)))
                      && negb (bool_decide
                                 (alert_id ∈ Agent.processed_alerts (ledger st)))
              then
                set_ledger
                  (Agent.add_alert now_alert
                     ("⚠️ " +:+ symbol +:+ " 向下突破趨勢線！當前價格: $"
                      +:+ fmt_price current_price)
                     alert_id (ledger st)) st
              else st
            else st
        | _ => st
        end
  end.

(** One iteration of [update_prices].  The only operation that can
    raise is the subtraction from a cached price ['N/A']; the handler
    then finds the symbol already cached and leaves the state as it
    is. *)
Definition update_price
    (now_price now_id now_alert : Z) (st : Dashboard) (symbol : string)
  : Dashboard :=
  match get_realtime_price symbol with
  | Some price =>
      if truthy price
      then
        match current_prices st !! symbol with
        | Some (mkPriceEntry None _) => st
        | old =>
            let change :=
              match old with
              | Some (mkPriceEntry (Some old_price) _) =>
                  if truthy old_price
                  then fmul (fdiv (fsub price old_price) old_price) (Fin 100)
                  else Fin 0
              | _ => Fin 0
              end in
            let st :=
              mkDashboard
                (<[symbol := mkPriceEntry (Some price) now_price]> (current_prices st))
                (<[symbol := fmt_change change]> (price_changes st))
                (last_analysis st) (ledger st) in
            check_price_alerts now_id now_alert symbol price st
        end
      else st
  | None => st
  end.

(** [update_prices]; [clock symbol] gives the three clock readings of the
    symbol's iteration. *)
Definition update_prices (clock : string -> Z * Z * Z) (st : Dashboard)
  : Dashboard :=
  foldl (fun st symbol =>
           update_price (clock symbol).1.1 (clock symbol).1.2 (clock symbol).2
                        st symbol)
        st Config.SYMBOLS_TO_MONITOR.

(** One iteration of [perform_analysis]; [analyze_trends] always returns
    a dictionary and raises nothing. *)
Definition perform_analysis_symbol
    (now_fetch now_id now_alert : Z) (st : Dashboard) (symbol : string)
  : Dashboard :=
  let result :=
    (analyze_trends sqrtQ now_fetch get_historical_klines ai_generate
                    fmt1 fmt2 repr_float symbol "1d" 30).1 in
  let st := set_last_analysis (<[symbol := result]> (last_analysis st)) st in
  if truthy_val (get_is_critical (technical_data result))
  then
    let alert_id := symbol +:+ "_critical_" +:+ minute_stamp now_id in
    set_ledger
      (Agent.add_alert now_alert
         ("⚠️ " +:+ symbol +:+ " 出現重要信號！" +:+ newline +:+ analysis result)
         alert_id (ledger st)) st
  else st.

Definition perform_analysis (clock : string -> Z * Z * Z) (st : Dashboard)
  : Dashboard :=
  foldl (fun st symbol =>
           perform_analysis_symbol (clock symbol).1.1 (clock symbol).1.2
                                   (clock symbol).2 st symbol)
        st Config.SYMBOLS_TO_MONITOR.

(** The cells of one row of [generate_display]; [None] is an exception
    raised while the row is built.  The dictionary holds a double or
    [None] under ['rsi']. *)
Definition display_row_body (now : Z) (st : Dashboard) (symbol : string)
  : option (list string) :=
  let price_data := current_prices st !! symbol in
  let technical_data :=
    match last_analysis st !! symbol with
    | Some analysis => technical_data analysis
    | None => ∅
    end in
  let current_price :=
    match price_data with
    | Some (mkPriceEntry (Some p) _) => "$" +:+ fmt_price p
    | _ => "N/A"
    end in
  let change :=
    match price_changes st !! symbol with
    | Some change =>
        if String.eqb change "N/A" then "N/A"
        else
          let change_style :=
            if String.prefix "+" change then "green" else "red" in
          "[" +:+ change_style +:+ "]" +:+ change +:+ "%[/]"
    | None => "N/A"
    end in
  let trend :=
    py_str repr_float
      (default (PyStr "N/A") (technical_data !! "break_analysis"%string)) in
  let trend :=
    if truthy_val (get_is_critical technical_data)
    then "[bold red]❗" +:+ trend +:+ "[/]"
    else trend in
  rsi ← match default (PyStr "N/A") (technical_data !! "rsi"%string) with
        | PyStr s => if String.eqb s "N/A" then Some "N/A" else None
        | PyFloat x =>
            let rsi := fmt1 x in
            Some (if fgtb (round1 x) (Fin 70) then "[red]" +:+ rsi +:+ "[/]"
                  else if fltb (round1 x) (Fin 30) then "[green]" +:+ rsi +:+ "[/]"
                  else rsi)
        | _ => None
        end;
  let update_time :=
    clock_time (match price_data with
                | Some e => timestamp e
                | None => now
                end) in
  Some [symbol; current_price; change; trend; rsi; update_time].

Definition error_row (now_err : Z) (symbol : string) : list string :=
  [symbol; "Error"; "Error"; "Error"; "Error"; clock_time now_err].

Definition display_row (now now_err : Z) (st : Dashboard) (symbol : string)
  : list string :=
  default (error_row now_err symbol) (display_row_body now st symbol).

End Methods.

(** The two calls of the loop of [start] that change the agent's state,
    each with what the outside world answers during the call. *)
Inductive Tick : Type :=
| UpdatePrices (get_symbol_ticker : string -> string + float)
               (clock : string -> Z * Z * Z)
| PerformAnalysis
    (get_historical_klines : string -> string -> Z -> string + list Candle)
    (ai_generate : string -> gmap string pyval -> DataFrame -> option string)
    (clock : string -> Z * Z * Z).

Section Loop.

Variable sqrtQ : Q -> Q.
Variables fmt1 fmt2 repr_float fmt_price fmt_change : float -> string.
Variable minute_stamp : Z -> string.

Definition tick (st : Dashboard) (t : Tick) : Dashboard :=
  match t with
  | UpdatePrices get_symbol_ticker clock =>
      update_prices get_symbol_ticker fmt_price fmt_change minute_stamp clock st
  | PerformAnalysis get_historical_klines ai_generate clock =>
      perform_analysis sqrtQ get_historical_klines ai_generate
                       fmt1 fmt2 repr_float minute_stamp clock st
  end.

(** The state after a sequence of such calls. *)
Definition run (ticks : list Tick) (st : Dashboard) : Dashboard :=
  foldl tick st ticks.

End Loop.

End Monitor.

(** ** Concrete inputs for the examples of the monitoring agent *)

(** A non-critical analysis with the trend line at 100. *)
Definition calm_analysis : AnalysisResult :=
  mkAnalysisResult
    (snapshot (Fin 100) (Fin 100) (Fin 90) (Fin 110) (Fin 50) "無明顯突破" false)
    EmptyString.

Definition calm_dashboard : Monitor.Dashboard :=
  Monitor.mkDashboard ∅ ∅ {["BTCUSDT"%string := calm_analysis]} Agent.init.

(** A cached price of 100 beside the snapshot of a failed fetch. *)
Definition outage_dashboard : Monitor.Dashboard :=
  Monitor.mkDashboard
    {["BTCUSDT"%string := Monitor.mkPriceEntry (Some (Fin 100)) 0]} ∅
    {["BTCUSDT"%string := unavailable_result]} Agent.init.

(** A clock whose readings all print as the same minute. *)
Definition stamp_any : Z -> string := fun _ => "m"%string.

Definition clock_zero : string -> Z * Z * Z := fun _ => (0%Z, 0%Z, 0%Z).

Definition steady_ticker : string -> string + float := fun _ => inr (Fin 103).
(** * Properties *)

(** ** Rational comparisons and sums *)

Lemma Qlt_bool_iff (x y : Q) : Qlt_bool x y = true <-> x < y.
Proof.
  unfold Qlt_bool. rewrite negb_true_iff.
  split.
  - intros H. apply Qnot_le_lt. intros Hle.
    apply Qle_bool_iff in Hle. congruence.
  - intros H. destruct (Qle_bool y x) eqn:E; [|reflexivity].
    apply Qle_bool_iff in E. exfalso. apply (Qlt_not_le _ _ H E).
Qed.

Lemma Qlt_bool_false_iff (x y : Q) : Qlt_bool x y = false <-> y <= x.
Proof.
  unfold Qlt_bool. rewrite negb_false_iff. apply Qle_bool_iff.
Qed.

Lemma Qeq_bool_false_iff (x y : Q) : Qeq_bool x y = false <-> ~ x == y.
Proof.
  split.
  - apply Qeq_bool_neq.
  - intros H. destruct (Qeq_bool x y) eqn:E; [|reflexivity].
    apply Qeq_bool_iff in E. contradiction.
Qed.

Lemma map_fmap {A B} (f : A -> B) (l : list A) : map f l = f <$> l.
Proof. reflexivity. Qed.

Lemma inject_nat_pos (n : nat) : (0 < n)%nat -> 0 < inject_Z (Z.of_nat n).
Proof.
  intros H. change 0 with (inject_Z 0). rewrite <- Zlt_Qlt. lia.
Qed.

Lemma inject_nat_nonzero (n : nat) :
  (0 < n)%nat -> Qeq_bool (inject_Z (Z.of_nat n)) 0 = false.
Proof.
  intros H. apply Qeq_bool_false_iff. intros E.
  pose proof (inject_nat_pos n H) as Hp. rewrite E in Hp.
  apply (Qlt_irrefl 0 Hp).
Qed.

(** ** Columns and rolling windows *)

Lemma length_col (f : Candle -> Q) (cs : list Candle) : length (col f cs) = length cs.
Proof. unfold col. apply length_map. Qed.

Lemma lookup_col (f : Candle -> Q) (cs : list Candle) (i : nat) :
  col f cs !! i = (fun c => Fin (f c)) <$> cs !! i.
Proof. unfold col. rewrite map_fmap. apply list_lookup_fmap. Qed.

Lemma col_take_drop (f : Candle -> Q) (cs : list Candle) (p k : nat) :
  take p (drop k (col f cs)) = col f (take p (drop k cs)).
Proof. unfold col. rewrite !map_fmap, fmap_take, fmap_drop. reflexivity. Qed.

Lemma col_no_nan (f : Candle -> Q) (cs : list Candle) :
  forallb (fun x => negb (is_nan x)) (col f cs) = true.
Proof. induction cs as [|c cs IH]; simpl; auto. Qed.

Lemma length_rolling (p : nat) (f : Series -> float) (s : Series) :
  length (rolling p f s) = length s.
Proof. unfold rolling. rewrite length_map, length_seq. reflexivity. Qed.

Lemma lookup_rolling (p : nat) (f : Series -> float) (s : Series) (i : nat) :
  (i < length s)%nat ->
  rolling p f s !! i =
  Some (if (p <=? i + 1)%nat && forallb (fun x => negb (is_nan x)) (window p i s)
        then f (window p i s) else NaN).
Proof.
  intros Hi. unfold rolling. rewrite map_fmap, list_lookup_fmap.
  rewrite lookup_seq_lt by assumption. reflexivity.
Qed.

Lemma length_window (p i : nat) (s : Series) :
  (p <= i + 1)%nat -> (i < length s)%nat -> length (window p i s) = p.
Proof.
  intros Hp Hi. unfold window. rewrite length_take, length_drop. lia.
Qed.

Lemma length_window_rows (p i : nat) (cs : list Candle) :
  (p <= i + 1)%nat -> (i < length cs)%nat -> length (window_rows p i cs) = p.
Proof.
  intros Hp Hi. unfold window_rows. rewrite length_take, length_drop. lia.
Qed.

Lemma window_rows_last (p i : nat) (cs : list Candle) (c : Candle) :
  (1 <= p)%nat -> (p <= i + 1)%nat -> cs !! i = Some c ->
  window_rows p i cs !! (p - 1)%nat = Some c.
Proof.
  intros H1 Hp Hc. unfold window_rows.
  rewrite lookup_take_lt by lia. rewrite lookup_drop.
  replace (i + 1 - p + (p - 1))%nat with i by lia. exact Hc.
Qed.

(** On a candle column the rolling statistic is undefined exactly
    while the window is not yet full. *)
Lemma lookup_rolling_col (p : nat) (F : Series -> float) (f : Candle -> Q)
      (cs : list Candle) (i : nat) :
  (i < length cs)%nat ->
  rolling p F (col f cs) !! i =
  Some (if (p <=? i + 1)%nat then F (col f (window_rows p i cs)) else NaN).
Proof.
  intros Hi. rewrite lookup_rolling by (rewrite length_col; exact Hi).
  unfold window, window_rows. rewrite col_take_drop, col_no_nan.
  rewrite andb_true_r. reflexivity.
Qed.

Lemma fsum_col (f : Candle -> Q) (w : list Candle) :
  fsum (col f w) = Fin (Qsum (map f w)).
Proof.
  induction w as [|c w IH]; [reflexivity|].
  unfold fsum, col in *. simpl. rewrite IH. reflexivity.
Qed.

Lemma fmean_col (f : Candle -> Q) (w : list Candle) :
  w <> [] ->
  fmean (col f w) = Fin (Qsum (map f w) / inject_Z (Z.of_nat (length w))).
Proof.
  intros Hw. unfold fmean. rewrite fsum_col, length_col. simpl.
  rewrite inject_nat_nonzero; [reflexivity|].
  destruct w; [congruence|simpl; lia].
Qed.

(** ** Rolling minimum and maximum *)

Lemma foldl_fmin2_col (f : Candle -> Q) (w : list Candle) (a : Q) :
  exists m, foldl fmin2 (Fin a) (col f w) = Fin m /\ m <= a /\
            Forall (fun c => m <= f c) w.
Proof.
  revert a. induction w as [|c w IH]; intros a.
  - exists a. split; [reflexivity|]. split; [apply Qle_refl|constructor].
  - simpl. unfold fmin2 at 2. simpl.
    destruct (Qlt_bool (f c) a) eqn:E.
    + apply Qlt_bool_iff in E.
      destruct (IH (f c)) as (m & Hm & Hle & Hall).
      exists m. split; [exact Hm|]. split; [lra|].
      constructor; [exact Hle|exact Hall].
    + apply Qlt_bool_false_iff in E.
      destruct (IH a) as (m & Hm & Hle & Hall).
      exists m. split; [exact Hm|]. split; [exact Hle|].
      constructor; [lra|exact Hall].
Qed.

Lemma foldl_fmax2_col (f : Candle -> Q) (w : list Candle) (a : Q) :
  exists m, foldl fmax2 (Fin a) (col f w) = Fin m /\ a <= m /\
            Forall (fun c => f c <= m) w.
Proof.
  revert a. induction w as [|c w IH]; intros a.
  - exists a. split; [reflexivity|]. split; [apply Qle_refl|constructor].
  - simpl. unfold fmax2 at 2. simpl.
    destruct (Qlt_bool a (f c)) eqn:E.
    + apply Qlt_bool_iff in E.
      destruct (IH (f c)) as (m & Hm & Hle & Hall).
      exists m. split; [exact Hm|]. split; [lra|].
      constructor; [exact Hle|exact Hall].
    + apply Qlt_bool_false_iff in E.
      destruct (IH a) as (m & Hm & Hle & Hall).
      exists m. split; [exact Hm|]. split; [exact Hle|].
      constructor; [lra|exact Hall].
Qed.

Lemma fminimum_col (f : Candle -> Q) (w : list Candle) :
  w <> [] ->
  exists m, fminimum (col f w) = Fin m /\ Forall (fun c => m <= f c) w.
Proof.
  destruct w as [|c w]; [congruence|]. intros _. simpl.
  destruct (foldl_fmin2_col f w (f c)) as (m & Hm & Hle & Hall).
  exists m. split; [exact Hm|]. constructor; assumption.
Qed.

Lemma fmaximum_col (f : Candle -> Q) (w : list Candle) :
  w <> [] ->
  exists m, fmaximum (col f w) = Fin m /\ Forall (fun c => f c <= m) w.
Proof.
  destruct w as [|c w]; [congruence|]. intros _. simpl.
  destruct (foldl_fmax2_col f w (f c)) as (m & Hm & Hle & Hall).
  exists m. split; [exact Hm|]. constructor; assumption.
Qed.

Lemma support_calc (sqrtQ : Q -> Q) (cs : list Candle) :
  support (calculate_technical_indicators sqrtQ cs) =
  rolling Config.MA_default_period fminimum (col low cs).
Proof. reflexivity. Qed.

Lemma resistance_calc (sqrtQ : Q -> Q) (cs : list Candle) :
  resistance (calculate_technical_indicators sqrtQ cs) =
  rolling Config.MA_default_period fmaximum (col high cs).
Proof. reflexivity. Qed.

Lemma rows_calc (sqrtQ : Q -> Q) (cs : list Candle) :
  rows (calculate_technical_indicators sqrtQ cs) = cs.
Proof. reflexivity. Qed.

(** A defined support is a lower bound of the lows of its window, and
    the window ends at the row itself. *)
Lemma support_defined (cs : list Candle) (t : nat) (s : Q) :
  rolling Config.MA_default_period fminimum (col low cs) !! t = Some (Fin s) ->
  (Config.MA_default_period <= t + 1)%nat /\
  Forall (fun c => s <= low c) (window_rows Config.MA_default_period t cs).
Proof.
  intros H.
  assert (Ht : (t < length cs)%nat).
  { apply lookup_lt_Some in H. rewrite length_rolling, length_col in H. exact H. }
  rewrite lookup_rolling_col in H by exact Ht.
  destruct (Config.MA_default_period <=? t + 1)%nat eqn:E; [|discriminate].
  apply Nat.leb_le in E. split; [exact E|].
  destruct (fminimum_col low (window_rows Config.MA_default_period t cs))
    as (m & Hm & Hall).
  { intros Hnil. apply (f_equal length) in Hnil.
    rewrite length_window_rows in Hnil by assumption. discriminate. }
  rewrite Hm in H. injection H as ->. exact Hall.
Qed.

Lemma resistance_defined (cs : list Candle) (t : nat) (r : Q) :
  rolling Config.MA_default_period fmaximum (col high cs) !! t = Some (Fin r) ->
  (Config.MA_default_period <= t + 1)%nat /\
  Forall (fun c => high c <= r) (window_rows Config.MA_default_period t cs).
Proof.
  intros H.
  assert (Ht : (t < length cs)%nat).
  { apply lookup_lt_Some in H. rewrite length_rolling, length_col in H. exact H. }
  rewrite lookup_rolling_col in H by exact Ht.
  destruct (Config.MA_default_period <=? t + 1)%nat eqn:E; [|discriminate].
  apply Nat.leb_le in E. split; [exact E|].
  destruct (fmaximum_col high (window_rows Config.MA_default_period t cs))
    as (m & Hm & Hall).
  { intros Hnil. apply (f_equal length) in Hnil.
    rewrite length_window_rows in Hnil by assumption. discriminate. }
  rewrite Hm in H. injection H as ->. exact Hall.
Qed.

Lemma support_le_resistance_rolling (cs : list Candle) (t : nat) (s r : Q) :
  Forall (fun c => low c <= high c) cs ->
  rolling Config.MA_default_period fminimum (col low cs) !! t = Some (Fin s) ->
  rolling Config.MA_default_period fmaximum (col high cs) !! t = Some (Fin r) ->
  s <= r.
Proof.
  intros Hwf Hs Hr.
  assert (Ht : (t < length cs)%nat).
  { apply lookup_lt_Some in Hs. rewrite length_rolling, length_col in Hs. exact Hs. }
  destruct (support_defined cs t s Hs) as [Hp Hlow].
  destruct (resistance_defined cs t r Hr) as [_ Hhigh].
  destruct (lookup_lt_is_Some_2 cs t Ht) as [c Hc].
  pose proof (window_rows_last Config.MA_default_period t cs c) as Hlast.
  assert (Hin : window_rows Config.MA_default_period t cs
                  !! (Config.MA_default_period - 1)%nat = Some c).
  { apply Hlast; [unfold Config.MA_default_period; lia|exact Hp|exact Hc]. }
  rewrite Forall_lookup in Hlow, Hhigh, Hwf.
  specialize (Hlow _ _ Hin). specialize (Hhigh _ _ Hin).
  specialize (Hwf _ _ Hc). simpl in *. lra.
Qed.

(** C10. When every candle has [low <= high], the support (rolling
    minimum of the lows) is at most the resistance (rolling maximum of
    the highs over the same window) at every row where both are defined. *)
Theorem support_le_resistance
    (sqrtQ : Q -> Q) (cs : list Candle) (t : nat) (s r : Q) :
  Forall (fun c => low c <= high c) cs ->
  support (calculate_technical_indicators sqrtQ cs) !! t = Some (Fin s) ->
  resistance (calculate_technical_indicators sqrtQ cs) !! t = Some (Fin r) ->
  s <= r.
Proof.
  rewrite support_calc, resistance_calc.
  apply support_le_resistance_rolling.
Qed.

Lemma twenty_candles_low_le_high : Forall (fun c => low c <= high c) twenty_candles.
Proof.
  unfold twenty_candles. apply Forall_replicate. simpl. lra.
Defined.

Lemma support_le_resistance_witness :
  support (calculate_technical_indicators sqrt_any twenty_candles) !! 19%nat
    = Some (Fin 1)
  /\ resistance (calculate_technical_indicators sqrt_any twenty_candles) !! 19%nat
     = Some (Fin 2)
  /\ 1 <= 2.
Proof.
  assert (Hs : support (calculate_technical_indicators sqrt_any twenty_candles)
                 !! 19%nat = Some (Fin 1)) by (vm_compute; reflexivity).
  assert (Hr : resistance (calculate_technical_indicators sqrt_any twenty_candles)
                 !! 19%nat = Some (Fin 2)) by (vm_compute; reflexivity).
  split; [exact Hs|]. split; [exact Hr|].
  exact (support_le_resistance sqrt_any twenty_candles 19 1 2
           twenty_candles_low_le_high Hs Hr).
Defined.

(** ** Finite columns *)

Lemma col_fins (f : Candle -> Q) (cs : list Candle) : col f cs = fins (f <$> cs).
Proof.
  unfold col, fins. rewrite map_fmap, <- list_fmap_compose. reflexivity.
Qed.

Lemma length_fins (qs : list Q) : length (fins qs) = length qs.
Proof. unfold fins. apply length_fmap. Qed.

Lemma fins_no_nan (qs : list Q) :
  forallb (fun x => negb (is_nan x)) (fins qs) = true.
Proof. induction qs as [|q qs IH]; simpl; auto. Qed.

Lemma window_fins (p i : nat) (qs : list Q) :
  window p i (fins qs) = fins (take p (drop (i + 1 - p) qs)).
Proof. unfold window, fins. rewrite fmap_take, fmap_drop. reflexivity. Qed.

Lemma lookup_rolling_fins (p : nat) (F : Series -> float) (qs : list Q) (i : nat) :
  (i < length qs)%nat ->
  rolling p F (fins qs) !! i =
  Some (if (p <=? i + 1)%nat
        then F (fins (take p (drop (i + 1 - p) qs))) else NaN).
Proof.
  intros Hi. rewrite lookup_rolling by (rewrite length_fins; exact Hi).
  rewrite window_fins, fins_no_nan, andb_true_r. reflexivity.
Qed.

Lemma length_take_drop_window {A} (p i : nat) (l : list A) :
  (p <= i + 1)%nat -> (i < length l)%nat ->
  length (take p (drop (i + 1 - p) l)) = p.
Proof. intros Hp Hi. rewrite length_take, length_drop. lia. Qed.

Lemma fsum_fins (qs : list Q) : fsum (fins qs) = Fin (Qsum qs).
Proof.
  induction qs as [|q qs IH]; [reflexivity|].
  change (fsum (fins (q :: qs))) with (fadd (Fin q) (fsum (fins qs))).
  rewrite IH. reflexivity.
Qed.

Lemma fmean_fins (qs : list Q) :
  qs <> [] ->
  fmean (fins qs) = Fin (Qsum qs / inject_Z (Z.of_nat (length qs))).
Proof.
  intros Hq. unfold fmean. rewrite fsum_fins, length_fins. simpl.
  rewrite inject_nat_nonzero; [reflexivity|].
  destruct qs; [congruence|simpl; lia].
Qed.

Lemma Qsum_nonneg (qs : list Q) : Forall (fun q => 0 <= q) qs -> 0 <= Qsum qs.
Proof.
  induction 1 as [|q qs Hq _ IH]; simpl; [apply Qle_refl|].
  unfold Qsum in *. simpl. lra.
Qed.

Lemma Qdiv_nonneg (a b : Q) : 0 <= a -> 0 < b -> 0 <= a / b.
Proof.
  intros Ha Hb. apply Qle_shift_div_l; [exact Hb|]. lra.
Qed.

(** ** Undefined prefixes *)

Lemma leading_nan_spec (s : Series) (k : nat) :
  (forall i x, s !! i = Some x -> (is_nan x = true <-> (i < k)%nat)) ->
  leading_nan s = Nat.min k (length s).
Proof.
  revert k. induction s as [|x s IH]; intros k H; simpl.
  - lia.
  - pose proof (H 0%nat x eq_refl) as H0.
    destruct (is_nan x) eqn:E.
    + destruct k as [|k]; [destruct H0 as [H0 _]; specialize (H0 eq_refl); lia|].
      rewrite (IH k); [reflexivity|].
      intros i y Hy. specialize (H (S i) y Hy). rewrite H. lia.
    + destruct k as [|k]; [reflexivity|].
      destruct H0 as [_ H0]. discriminate H0. lia.
Qed.

(** A rolling statistic that is defined on every full window of a
    finite column is undefined exactly on the rows before the first full
    window. *)
Lemma rolling_fins_nan_iff (p : nat) (F : Series -> float) (qs : list Q) :
  (forall w, length w = p -> is_fin (F (fins w)) = true) ->
  forall i x, rolling p F (fins qs) !! i = Some x ->
              (is_nan x = true <-> (i + 1 < p)%nat).
Proof.
  intros HF i x Hx.
  assert (Hi : (i < length qs)%nat).
  { apply lookup_lt_Some in Hx. rewrite length_rolling, length_fins in Hx. exact Hx. }
  rewrite lookup_rolling_fins in Hx by exact Hi.
  injection Hx as <-.
  destruct (p <=? i + 1)%nat eqn:E.
  - apply Nat.leb_le in E.
    assert (Hf : is_fin (F (fins (take p (drop (i + 1 - p) qs)))) = true).
    { apply HF. apply length_take_drop_window; assumption. }
    destruct (F _); try discriminate. simpl. split; [discriminate|lia].
  - apply Nat.leb_gt in E. simpl. split; [intros _; exact E|reflexivity].
Qed.


Lemma rolling_fins_prefix (p : nat) (F : Series -> float) (qs : list Q) :
  (forall w, length w = p -> is_fin (F (fins w)) = true) ->
  leading_nan (rolling p F (fins qs)) = Nat.min (p - 1) (length qs).
Proof.
  intros HF.
  rewrite (leading_nan_spec _ (p - 1)).
  - rewrite length_rolling, length_fins. reflexivity.
  - intros i x Hx. rewrite (rolling_fins_nan_iff p F qs HF i x Hx). lia.
Qed.








(** ** Shifts, differences, gains and losses *)

Lemma length_shift1 (s : Series) : length (shift1 s) = length s.
Proof. unfold shift1. rewrite length_take. simpl. lia. Qed.

Lemma lookup_shift1_0 (s : Series) :
  s <> [] -> shift1 s !! 0%nat = Some NaN.
Proof.
  intros Hs. unfold shift1. destruct s; [congruence|reflexivity].
Qed.

Lemma lookup_shift1_S (s : Series) (i : nat) :
  (S i < length s)%nat -> shift1 s !! S i = s !! i.
Proof.
  intros Hi. unfold shift1. rewrite lookup_take_lt by exact Hi. reflexivity.
Qed.

Lemma lookup_shift1_inv (s : Series) (i : nat) (y : float) :
  shift1 s !! i = Some y ->
  (i = 0%nat /\ y = NaN) \/ (exists j, i = S j /\ s !! j = Some y).
Proof.
  intros H.
  assert (Hi : (i < length s)%nat).
  { apply lookup_lt_Some in H. rewrite length_shift1 in H. exact H. }
  unfold shift1 in H. rewrite lookup_take_lt in H by exact Hi.
  destruct i as [|j]; simpl in H.
  - left. split; [reflexivity|congruence].
  - right. exists j. split; [reflexivity|exact H].
Qed.

Lemma length_diff (s : Series) : length (diff s) = length s.
Proof.
  unfold diff. rewrite length_zip_with_l_eq; [reflexivity|].
  rewrite length_shift1. reflexivity.
Qed.

Lemma lookup_fins (qs : list Q) (i : nat) : fins qs !! i = Fin <$> qs !! i.
Proof. unfold fins. apply list_lookup_fmap. Qed.

Lemma lookup_fins_inv (qs : list Q) (i : nat) (x : float) :
  fins qs !! i = Some x -> exists q, x = Fin q /\ qs !! i = Some q.
Proof.
  rewrite lookup_fins. destruct (qs !! i) as [q|]; simpl; [|discriminate].
  intros [= <-]. exists q. split; reflexivity.
Qed.

(** A difference of finite closes is undefined (first row) or finite. *)
Lemma lookup_diff_fins (qs : list Q) (i : nat) (d : float) :
  diff (fins qs) !! i = Some d -> d = NaN \/ exists q, d = Fin q.
Proof.
  unfold diff. intros H. apply lookup_zip_with_Some in H.
  destruct H as (x & y & -> & Hx & Hy).
  apply lookup_fins_inv in Hx. destruct Hx as (q & -> & _).
  apply lookup_shift1_inv in Hy.
  destruct Hy as [[_ ->]|(j & _ & Hj)].
  - left. reflexivity.
  - apply lookup_fins_inv in Hj. destruct Hj as (q' & -> & _).
    right. eexists. reflexivity.
Qed.

Lemma length_gains (s : Series) : length (gains s) = length s.
Proof.
  unfold gains, where_. rewrite length_zip_with_l_eq.
  - apply length_diff.
  - rewrite length_map. reflexivity.
Qed.

Lemma length_losses (s : Series) : length (losses s) = length s.
Proof.
  unfold losses, where_. rewrite length_map, length_zip_with_l_eq.
  - apply length_diff.
  - rewrite length_map. reflexivity.
Qed.

Lemma lookup_gains_fins (qs : list Q) (i : nat) (x : float) :
  gains (fins qs) !! i = Some x -> exists q, x = Fin q /\ 0 <= q.
Proof.
  unfold gains, where_. intros H. apply lookup_zip_with_Some in H.
  destruct H as (d & c & -> & Hd & Hc).
  rewrite map_fmap, list_lookup_fmap, Hd in Hc. injection Hc as <-.
  apply lookup_diff_fins in Hd. destruct Hd as [->|[q ->]]; simpl.
  - exists 0. split; [reflexivity|apply Qle_refl].
  - unfold fgtb. simpl. destruct (Qlt_bool 0 q) eqn:E.
    + apply Qlt_bool_iff in E. exists q. split; [reflexivity|lra].
    + exists 0. split; [reflexivity|apply Qle_refl].
Qed.

Lemma lookup_losses_fins (qs : list Q) (i : nat) (x : float) :
  losses (fins qs) !! i = Some x -> exists q, x = Fin q /\ 0 <= q.
Proof.
  unfold losses, where_. rewrite map_fmap, list_lookup_fmap. intros H.
  destruct (zip_with _ _ _ !! i) as [y|] eqn:Hy; simpl in H; [|discriminate].
  injection H as <-.
  apply lookup_zip_with_Some in Hy.
  destruct Hy as (d & c & -> & Hd & Hc).
  rewrite map_fmap, list_lookup_fmap, Hd in Hc. injection Hc as <-.
  apply lookup_diff_fins in Hd. destruct Hd as [->|[q ->]]; simpl.
  - exists (- 0). split; [reflexivity|]. lra.
  - destruct (Qlt_bool q 0) eqn:E.
    + apply Qlt_bool_iff in E. exists (- q). split; [reflexivity|lra].
    + exists (- 0). split; [reflexivity|]. lra.
Qed.

(** Row by row: the first row has neither gain nor loss; afterwards the
    gain is the rise of the close over the previous row, the loss its
    fall, each 0 when the close moved the other way. *)
Lemma lookup_diff_col (cs : list Candle) (i : nat) (c c' : Candle) :
  cs !! i = Some c -> cs !! S i = Some c' ->
  diff (col close cs) !! 0%nat = Some NaN
  /\ diff (col close cs) !! S i = Some (Fin (close c' + - close c)).
Proof.
  intros Hc Hc'.
  assert (Hlen : (S i < length (col close cs))%nat).
  { rewrite length_col. apply lookup_lt_Some in Hc'. exact Hc'. }
  unfold diff. rewrite !lookup_zip_with.
  rewrite lookup_shift1_0 by (intros E; rewrite E in Hlen; simpl in Hlen; lia).
  rewrite lookup_shift1_S by exact Hlen.
  rewrite !lookup_col, Hc, Hc'.
  destruct cs as [|c0 cs]; [discriminate|]. split; reflexivity.
Qed.

Lemma lookup_gains_col (cs : list Candle) (i : nat) (c c' : Candle) :
  cs !! i = Some c -> cs !! S i = Some c' ->
  gains (col close cs) !! 0%nat = Some (Fin 0)
  /\ gains (col close cs) !! S i
     = Some (if Qlt_bool 0 (close c' + - close c)
             then Fin (close c' + - close c) else Fin 0).
Proof.
  intros Hc Hc'. destruct (lookup_diff_col cs i c c' Hc Hc') as [H0 HS].
  unfold gains, where_. rewrite !lookup_zip_with, map_fmap, !list_lookup_fmap.
  rewrite H0, HS. split; reflexivity.
Qed.

Lemma lookup_losses_col (cs : list Candle) (i : nat) (c c' : Candle) :
  cs !! i = Some c -> cs !! S i = Some c' ->
  losses (col close cs) !! 0%nat = Some (Fin (- 0))
  /\ losses (col close cs) !! S i
     = Some (if Qlt_bool (close c' + - close c) 0
             then Fin (- (close c' + - close c)) else Fin (- 0)).
Proof.
  intros Hc Hc'. destruct (lookup_diff_col cs i c c' Hc Hc') as [H0 HS].
  unfold losses, where_.
  rewrite map_fmap, !list_lookup_fmap, !lookup_zip_with, map_fmap, !list_lookup_fmap.
  rewrite H0, HS. simpl.
  split; [reflexivity|]. destruct (Qlt_bool _ 0); reflexivity.
Qed.

Lemma fins_of_lookup (P : Q -> Prop) (s : Series) :
  (forall i x, s !! i = Some x -> exists q, x = Fin q /\ P q) ->
  exists qs, s = fins qs /\ Forall P qs.
Proof.
  induction s as [|x s IH]; intros H.
  - exists []. split; [reflexivity|constructor].
  - destruct (H 0%nat x eq_refl) as (q & -> & Hq).
    destruct IH as (qs & -> & Hqs).
    { intros i y Hy. apply (H (S i) y Hy). }
    exists (q :: qs). split; [reflexivity|constructor; assumption].
Qed.

Lemma gains_fins (qs : list Q) :
  exists gs, gains (fins qs) = fins gs /\ Forall (fun q => 0 <= q) gs.
Proof. apply fins_of_lookup. apply lookup_gains_fins. Qed.

Lemma losses_fins (qs : list Q) :
  exists ls, losses (fins qs) = fins ls /\ Forall (fun q => 0 <= q) ls.
Proof. apply fins_of_lookup. apply lookup_losses_fins. Qed.

(** ** Trend line *)

(** The fitted line of closes that already lie on a line is that line. *)
Example trend_line_of_linear_closes :
  zip_with feqb
    (_calculate_trend_line (fins [1; 3; 5; 7; 9; 11]))
    (fins [1; 3; 5; 7; 9; 11])
  = [true; true; true; true; true; true].
Proof. vm_compute. reflexivity. Qed.

(** Fewer points than the configured minimum: no trend line. *)
Example trend_line_of_short_series :
  _calculate_trend_line (fins [1; 3; 5; 7]) = [NaN; NaN; NaN; NaN].
Proof. vm_compute. reflexivity. Qed.

(** ** Alignment of the derived columns *)




Lemma MA_periods_positive : Forall (fun p => (1 <= p)%nat) Config.MA_periods.
Proof. unfold Config.MA_periods. repeat constructor; lia. Qed.

Lemma length_trend_line (prices : Series) :
  length (_calculate_trend_line prices) = length prices.
Proof.
  unfold _calculate_trend_line.
  destruct (length prices <? Config.TREND_min_points)%nat.
  - apply length_replicate.
  - unfold arange. rewrite !length_map, length_seq. reflexivity.
Qed.

Lemma length_zip_with_n {A B C} (f : A -> B -> C) (l : list A) (k : list B) (n : nat) :
  length l = n -> length k = n -> length (zip_with f l k) = n.
Proof.
  intros Hl Hk. rewrite length_zip_with_l_eq; congruence.
Qed.

Lemma length_up_break (df : DataFrame) :
  aligned df -> length (up_break df) = len df.
Proof.
  intros [_ Hr]. unfold up_break.
  repeat apply length_zip_with_n;
    rewrite ?length_map, ?length_shift1, ?length_col; auto.
Qed.

Lemma length_down_break (df : DataFrame) :
  aligned df -> length (down_break df) = len df.
Proof.
  intros [Hs _]. unfold down_break.
  repeat apply length_zip_with_n;
    rewrite ?length_map, ?length_shift1, ?length_col; auto.
Qed.

Lemma length_detect_trend_breaks (df : DataFrame) :
  aligned df -> length (_detect_trend_breaks df) = len df.
Proof.
  intros Ha. unfold _detect_trend_breaks, mask_assign, nan_series.
  apply length_zip_with_n; [apply length_zip_with_n|].
  - apply length_replicate.
  - apply length_up_break, Ha.
  - apply length_down_break, Ha.
Qed.

Lemma MA_calc (sqrtQ : Q -> Q) (cs : list Candle) :
  MA (calculate_technical_indicators sqrtQ cs) =
  (fun period => (period, rolling period fmean (col close cs))) <$> Config.MA_periods.
Proof. reflexivity. Qed.

Lemma trend_line_calc (sqrtQ : Q -> Q) (cs : list Candle) :
  trend_line (calculate_technical_indicators sqrtQ cs) =
  _calculate_trend_line (col close cs).
Proof. reflexivity. Qed.




Lemma RSI_calc (sqrtQ : Q -> Q) (cs : list Candle) :
  RSI (calculate_technical_indicators sqrtQ cs) =
  map rsi_of_rs (zip_with fdiv (rsi_gain cs) (rsi_loss cs)).
Proof. reflexivity. Qed.

Lemma trend_break_calc (sqrtQ : Q -> Q) (cs : list Candle) :
  trend_break (calculate_technical_indicators sqrtQ cs) =
  _detect_trend_breaks (calculate_technical_indicators sqrtQ cs).
Proof. reflexivity. Qed.

Lemma aligned_calc (sqrtQ : Q -> Q) (cs : list Candle) :
  aligned (calculate_technical_indicators sqrtQ cs).
Proof.
  unfold aligned, len. rewrite support_calc, resistance_calc, rows_calc.
  rewrite !length_rolling, !length_col. split; reflexivity.
Qed.

Lemma length_rsi_gain (cs : list Candle) : length (rsi_gain cs) = length cs.
Proof. unfold rsi_gain. rewrite length_rolling, length_gains. apply length_col. Qed.

Lemma length_rsi_loss (cs : list Candle) : length (rsi_loss cs) = length cs.
Proof. unfold rsi_loss. rewrite length_rolling, length_losses. apply length_col. Qed.







(** ** Relative strength index *)

Lemma rsi_of_positive_loss (a b : Q) :
  0 <= a -> 0 < b ->
  exists q, rsi_of_rs (fdiv (Fin a) (Fin b)) = Fin q
            /\ q == 100 - 100 / (1 + a / b) /\ 0 <= q /\ q <= 100.
Proof.
  intros Ha Hb.
  assert (Hr : 0 <= a / b) by (apply Qdiv_nonneg; assumption).
  assert (Hd : 0 < 1 + a / b) by lra.
  unfold rsi_of_rs. simpl.
  destruct (Qeq_bool b 0) eqn:Eb.
  { apply Qeq_bool_iff in Eb. rewrite Eb in Hb. exfalso. apply (Qlt_irrefl 0 Hb). }
  simpl.
  destruct (Qeq_bool (1 + a / b) 0) eqn:Ed.
  { apply Qeq_bool_iff in Ed. rewrite Ed in Hd. exfalso. apply (Qlt_irrefl 0 Hd). }
  simpl. eexists. split; [reflexivity|]. split; [reflexivity|].
  assert (H0 : 0 <= 100 / (1 + a / b)) by (apply Qdiv_nonneg; [lra|exact Hd]).
  assert (H1 : 100 / (1 + a / b) <= 100).
  { apply Qle_shift_div_r; [exact Hd|]. lra. }
  split; lra.
Qed.

Lemma rsi_of_zero_loss_gain (a b : Q) :
  0 < a -> b == 0 ->
  exists q, rsi_of_rs (fdiv (Fin a) (Fin b)) = Fin q /\ q == 100.
Proof.
  intros Ha Hb. unfold rsi_of_rs. simpl.
  apply Qeq_bool_iff in Hb. rewrite Hb.
  destruct (Qeq_bool a 0) eqn:Ea.
  { apply Qeq_bool_iff in Ea. rewrite Ea in Ha. exfalso. apply (Qlt_irrefl 0 Ha). }
  unfold Qneg_bool.
  destruct (Qlt_bool a 0) eqn:En.
  { apply Qlt_bool_iff in En. lra. }
  simpl. eexists. split; [reflexivity|]. lra.
Qed.

Lemma rsi_of_zero_loss_zero_gain (a b : Q) :
  a == 0 -> b == 0 -> rsi_of_rs (fdiv (Fin a) (Fin b)) = NaN.
Proof.
  intros Ha Hb. unfold rsi_of_rs. simpl.
  apply Qeq_bool_iff in Ha, Hb. rewrite Ha, Hb. reflexivity.
Qed.

(** The rolling mean of a finite non-negative column, at a full window. *)
Lemma rolling_mean_nonneg (p : nat) (qs : list Q) (i : nat) (g : float) :
  (1 <= p)%nat -> Forall (fun q => 0 <= q) qs ->
  rolling p fmean (fins qs) !! i = Some g ->
  ((i + 1 < p)%nat /\ g = NaN) \/
  ((p <= i + 1)%nat /\
   exists w, w = take p (drop (i + 1 - p) qs) /\ length w = p /\
             g = Fin (Qsum w / inject_Z (Z.of_nat p)) /\
             0 <= Qsum w / inject_Z (Z.of_nat p)).
Proof.
  intros Hp Hpos Hg.
  assert (Hi : (i < length qs)%nat).
  { apply lookup_lt_Some in Hg. rewrite length_rolling, length_fins in Hg. exact Hg. }
  rewrite lookup_rolling_fins in Hg by exact Hi. injection Hg as <-.
  destruct (p <=? i + 1)%nat eqn:E.
  - apply Nat.leb_le in E. right. split; [exact E|].
    exists (take p (drop (i + 1 - p) qs)).
    assert (Hlen : length (take p (drop (i + 1 - p) qs)) = p)
      by (apply length_take_drop_window; assumption).
    split; [reflexivity|]. split; [exact Hlen|].
    rewrite fmean_fins by (intros Hnil; rewrite Hnil in Hlen; simpl in Hlen; lia).
    rewrite Hlen. split; [reflexivity|].
    apply Qdiv_nonneg; [|apply inject_nat_pos; lia].
    apply Qsum_nonneg. apply Forall_take, Forall_drop. exact Hpos.
  - apply Nat.leb_gt in E. left. split; [exact E|reflexivity].
Qed.

(** C5 (amended). Each RSI entry is [100 - 100 / (1 + RS)] with
    [RS = avgGain / avgLoss], the two averages being simple rolling means
    of the gains and of the losses over the configured period.  Before
    the window is full the entry is undefined.  On a full window both
    averages are finite and non-negative and: when [avgLoss > 0] the
    entry is finite and lies in [[0, 100]]; when [avgLoss = 0] and
    [avgGain > 0] the division gives an infinity and the entry is 100;
    when both are 0 the entry is [NaN].  No entry is infinite. *)
Theorem rsi_simple_average_bounds
    (sqrtQ : Q -> Q) (cs : list Candle) (i : nat) (x : float) :
  RSI (calculate_technical_indicators sqrtQ cs) !! i = Some x ->
  let p := Config.RSI_period in
  exists g l,
    rsi_gain cs !! i = Some g /\ rsi_loss cs !! i = Some l
    /\ x = rsi_of_rs (fdiv g l)
    /\ (((i + 1 < p)%nat /\ x = NaN)
        \/ ((p <= i + 1)%nat /\
            exists gs ls,
              gains (col close cs) = fins gs /\ losses (col close cs) = fins ls /\
              let a := Qsum (take p (drop (i + 1 - p) gs)) / inject_Z (Z.of_nat p) in
              let b := Qsum (take p (drop (i + 1 - p) ls)) / inject_Z (Z.of_nat p) in
              g = Fin a /\ l = Fin b /\ 0 <= a /\ 0 <= b /\
              ((0 < b /\ exists q, x = Fin q /\ q == 100 - 100 / (1 + a / b)
                                   /\ 0 <= q /\ q <= 100)
               \/ (b == 0 /\ 0 < a /\ exists q, x = Fin q /\ q == 100)
               \/ (b == 0 /\ a == 0 /\ x = NaN)))).
Proof.
  intros H p. rewrite RSI_calc, map_fmap, list_lookup_fmap in H.
  destruct (zip_with fdiv (rsi_gain cs) (rsi_loss cs) !! i) as [rs|] eqn:Hz;
    simpl in H; [|discriminate].
  injection H as <-.
  apply lookup_zip_with_Some in Hz. destruct Hz as (g & l & -> & Hg & Hl).
  exists g, l. split; [exact Hg|]. split; [exact Hl|]. split; [reflexivity|].
  unfold rsi_gain in Hg. unfold rsi_loss in Hl. rewrite col_fins in *.
  destruct (gains_fins (close <$> cs)) as (gs & Hgs & Hgpos).
  destruct (losses_fins (close <$> cs)) as (ls & Hls & Hlpos).
  rewrite Hgs in Hg. rewrite Hls in Hl.
  assert (Hp : (1 <= Config.RSI_period)%nat) by (unfold Config.RSI_period; lia).
  destruct (rolling_mean_nonneg _ _ _ _ Hp Hgpos Hg)
    as [[Hlt ->]|(Hle & wg & -> & _ & -> & Ha)];
    destruct (rolling_mean_nonneg _ _ _ _ Hp Hlpos Hl)
    as [[Hlt' ->]|(Hle' & wl & -> & _ & -> & Hb)]; try (exfalso; lia).
  - left. split; [exact Hlt|reflexivity].
  - right. split; [exact Hle|]. exists gs, ls.
    split; [exact Hgs|]. split; [exact Hls|]. cbv zeta. fold p.
    set (a := Qsum (take p (drop (i + 1 - p) gs)) / inject_Z (Z.of_nat p)) in *.
    set (b := Qsum (take p (drop (i + 1 - p) ls)) / inject_Z (Z.of_nat p)) in *.
    split; [reflexivity|]. split; [reflexivity|].
    split; [exact Ha|]. split; [exact Hb|].
    destruct (Qlt_le_dec 0 b) as [Hbpos|Hb0].
    + left. split; [exact Hbpos|]. apply rsi_of_positive_loss; assumption.
    + assert (Hbz : b == 0) by (apply Qle_antisym; assumption).
      right. destruct (Qlt_le_dec 0 a) as [Hapos|Ha0].
      * left. split; [exact Hbz|]. split; [exact Hapos|].
        apply rsi_of_zero_loss_gain; assumption.
      * assert (Haz : a == 0) by (apply Qle_antisym; assumption).
        right. split; [exact Hbz|]. split; [exact Haz|].
        apply rsi_of_zero_loss_zero_gain; assumption.
Qed.

Lemma rsi_simple_average_bounds_witness :
  RSI (calculate_technical_indicators sqrt_any rising_candles) !! 14%nat
    = Some (Fin 100)
  /\ exists g l,
       rsi_gain rising_candles !! 14%nat = Some g
       /\ rsi_loss rising_candles !! 14%nat = Some l
       /\ Fin 100 = rsi_of_rs (fdiv g l).
Proof.
  assert (H : RSI (calculate_technical_indicators sqrt_any rising_candles) !! 14%nat
              = Some (Fin 100)) by (vm_compute; reflexivity).
  split; [exact H|].
  destruct (rsi_simple_average_bounds sqrt_any rising_candles 14 (Fin 100) H)
    as (g & l & Hg & Hl & Hx & _).
  exists g, l. split; [exact Hg|]. split; [exact Hl|exact Hx].
Defined.

(** C5, as stated, fails when the closes do not move: the average loss
    is zero, yet the RSI is not clamped to 100 but left undefined. *)
Lemma rsi_flat_series_is_nan :
  rsi_loss flat_candles !! 14%nat = Some (Fin (0 # 14))
  /\ rsi_gain flat_candles !! 14%nat = Some (Fin (0 # 14))
  /\ RSI (calculate_technical_indicators sqrt_any flat_candles) !! 14%nat
     = Some NaN.
Proof.
  split; [vm_compute; reflexivity|]. split; vm_compute; reflexivity.
Qed.

(** ** Breakout events *)

Lemma lookup_shift1 (s : Series) (t : nat) :
  (t < length s)%nat ->
  shift1 s !! t = match t with O => Some NaN | S t' => s !! t' end.
Proof.
  intros Ht. unfold shift1. rewrite lookup_take_lt by exact Ht.
  destruct t; reflexivity.
Qed.

Lemma lookup_up_break (df : DataFrame) (t : nat) :
  aligned df -> (t < len df)%nat ->
  up_break df !! t = Some (up_trigger df t).
Proof.
  intros [_ Hr] Ht. unfold len in *. unfold up_break, up_trigger.
  rewrite !lookup_zip_with, map_fmap, list_lookup_fmap.
  rewrite !lookup_shift1 by (rewrite ?length_col; lia).
  destruct (lookup_lt_is_Some_2 (rows df) t Ht) as [c Hc].
  destruct t as [|t'].
  - rewrite !lookup_col, Hc. reflexivity.
  - destruct (lookup_lt_is_Some_2 (rows df) t') as [c' Hc']; [lia|].
    destruct (lookup_lt_is_Some_2 (resistance df) t') as [r Hres]; [lia|].
    rewrite !lookup_col, Hc, Hc', Hres. reflexivity.
Qed.

Lemma lookup_down_break (df : DataFrame) (t : nat) :
  aligned df -> (t < len df)%nat ->
  down_break df !! t = Some (down_trigger df t).
Proof.
  intros [Hs _] Ht. unfold len in *. unfold down_break, down_trigger.
  rewrite !lookup_zip_with, map_fmap, list_lookup_fmap.
  rewrite !lookup_shift1 by (rewrite ?length_col; lia).
  destruct (lookup_lt_is_Some_2 (rows df) t Ht) as [c Hc].
  destruct t as [|t'].
  - rewrite !lookup_col, Hc. reflexivity.
  - destruct (lookup_lt_is_Some_2 (rows df) t') as [c' Hc']; [lia|].
    destruct (lookup_lt_is_Some_2 (support df) t') as [s Hsup]; [lia|].
    rewrite !lookup_col, Hc, Hc', Hsup. reflexivity.
Qed.

(** The event written at a row: the down assignment is made last and
    overrides the up assignment. *)
Lemma lookup_detect_trend_breaks (df : DataFrame) (t : nat) :
  aligned df -> (t < len df)%nat ->
  _detect_trend_breaks df !! t =
  Some (if down_trigger df t then Fin (-1)
        else if up_trigger df t then Fin 1 else NaN).
Proof.
  intros Ha Ht. unfold _detect_trend_breaks, mask_assign, nan_series.
  rewrite !lookup_zip_with.
  rewrite lookup_replicate_2 by exact Ht.
  rewrite lookup_up_break, lookup_down_break by assumption.
  reflexivity.
Qed.







(** ** Fake-breakout check *)

Lemma default_Some {A} (d x : A) : default d (Some x) = x.
Proof. reflexivity. Qed.

Lemma up_fake_iff (r : float) (h0 c1 c2 : Q) :
  fgtb (Fin h0) r && fgtb (Fin c1) r && fltb (Fin c2) r = true <->
  exists q, r = Fin q /\ q < h0 /\ q < c1 /\ c2 < q.
Proof.
  unfold fgtb. destruct r as [|s|q]; simpl.
  - split; [discriminate|]. intros (q & Hq & _). discriminate.
  - split.
    + destruct s; simpl; discriminate.
    + intros (q & Hq & _). discriminate.
  - rewrite !andb_true_iff, !Qlt_bool_iff. split.
    + intros [[H1 H2] H3]. exists q. auto.
    + intros (q' & [= <-] & H1 & H2 & H3). auto.
Qed.

Lemma down_fake_iff (s : float) (l0 c1 c2 : Q) :
  fltb (Fin l0) s && fltb (Fin c1) s && fgtb (Fin c2) s = true <->
  exists q, s = Fin q /\ l0 < q /\ c1 < q /\ q < c2.
Proof.
  unfold fgtb. destruct s as [|sg|q]; simpl.
  - split; [discriminate|]. intros (q & Hq & _). discriminate.
  - split.
    + destruct sg; simpl; discriminate.
    + intros (q & Hq & _). discriminate.
  - rewrite !andb_true_iff, !Qlt_bool_iff. split.
    + intros [[H1 H2] H3]. exists q. auto.
    + intros (q' & [= <-] & H1 & H2 & H3). auto.
Qed.

Lemma last_three_split {A} (l : list A) :
  (3 <= length l)%nat ->
  exists pre b0 b1 b2, l = pre ++ [b0; b1; b2] /\ length pre = (length l - 3)%nat.
Proof.
  intros H. exists (take (length l - 3) l).
  assert (Hd : length (drop (length l - 3) l) = 3%nat) by (rewrite length_drop; lia).
  destruct (drop (length l - 3) l) as [|b0 [|b1 [|b2 [|? ?]]]] eqn:E;
    try discriminate.
  exists b0, b1, b2. split.
  - rewrite <- E. symmetry. apply take_drop.
  - rewrite length_take. lia.
Qed.

Lemma iloc_neg_lookup {A} (k : nat) (s : list A) :
  (1 <= k)%nat -> (k <= length s)%nat ->
  iloc_neg k s = s !! (length s - k)%nat.
Proof.
  intros Hk Hs. unfold iloc_neg.
  destruct (k =? 0)%nat eqn:E; [apply Nat.eqb_eq in E; lia|].
  destruct (length s <? k)%nat eqn:E2; [apply Nat.ltb_lt in E2; lia|].
  reflexivity.
Qed.

(** The body of the check on a frame of at least three rows. *)
Lemma check_fake_breakout_body_eq
      (df : DataFrame) (pre : list Candle) (b0 b1 b2 : Candle) (r s : float) :
  aligned df ->
  rows df = pre ++ [b0; b1; b2] ->
  resistance df !! length pre = Some r ->
  support df !! length pre = Some s ->
  _check_fake_breakout_body df =
  Some (fgtb (Fin (high b0)) r && fgtb (Fin (close b1)) r && fltb (Fin (close b2)) r
        || fltb (Fin (low b0)) s && fltb (Fin (close b1)) s && fgtb (Fin (close b2)) s).
Proof.
  intros [Hs Hr] Hrows Hres Hsup. unfold _check_fake_breakout_body, len in *.
  assert (Hlen : length (rows df) = (length pre + 3)%nat).
  { rewrite Hrows, length_app. reflexivity. }
  destruct (length (rows df) <? 3)%nat eqn:E; [apply Nat.ltb_lt in E; lia|].
  rewrite !iloc_neg_lookup by lia.
  rewrite Hr, Hs, Hlen.
  replace (length pre + 3 - 3)%nat with (length pre) by lia.
  rewrite Hres, Hsup, Hrows.
  rewrite drop_app_length. simpl.
  match goal with |- (if ?a then _ else _) = _ => destruct a end;
    simpl; [reflexivity|].
  match goal with |- (if ?a then _ else _) = _ => destruct a end;
    reflexivity.
Qed.

Lemma check_fake_breakout_short (df : DataFrame) :
  (len df < 3)%nat -> _check_fake_breakout_body df = Some false.
Proof.
  intros H. unfold _check_fake_breakout_body.
  apply Nat.ltb_lt in H. rewrite H. reflexivity.
Qed.

Lemma check_fake_breakout_no_exception (df : DataFrame) :
  aligned df -> _check_fake_breakout_body df = Some (_check_fake_breakout df).
Proof.
  intros Ha. destruct (Nat.lt_ge_cases (len df) 3) as [H|H].
  - unfold _check_fake_breakout. rewrite (check_fake_breakout_short df H).
    reflexivity.
  - destruct (last_three_split (rows df) H) as (pre & b0 & b1 & b2 & Hrows & Hpre).
    pose proof Ha as [Hs Hr]. unfold len in *.
    destruct (lookup_lt_is_Some_2 (resistance df) (length pre)) as [r Hres]; [lia|].
    destruct (lookup_lt_is_Some_2 (support df) (length pre)) as [s Hsup]; [lia|].
    unfold _check_fake_breakout.
    rewrite (check_fake_breakout_body_eq df pre b0 b1 b2 r s Ha Hrows Hres Hsup).
    reflexivity.
Qed.

Lemma check_fake_breakout_pattern_iff (df : DataFrame) :
  aligned df -> (_check_fake_breakout df = true <-> fake_breakout_pattern df).
Proof.
  intros Ha. destruct (Nat.lt_ge_cases (len df) 3) as [H|H].
  - unfold _check_fake_breakout. rewrite (check_fake_breakout_short df H). simpl.
    split; [discriminate|].
    intros (pre & b0 & b1 & b2 & Hrows & _). unfold len in H.
    rewrite Hrows, length_app in H. simpl in H. lia.
  - destruct (last_three_split (rows df) H) as (pre & b0 & b1 & b2 & Hrows & Hpre).
    pose proof Ha as [Hs Hr]. unfold len in *.
    destruct (lookup_lt_is_Some_2 (resistance df) (length pre)) as [r Hres]; [lia|].
    destruct (lookup_lt_is_Some_2 (support df) (length pre)) as [s Hsup]; [lia|].
    unfold _check_fake_breakout.
    rewrite (check_fake_breakout_body_eq df pre b0 b1 b2 r s Ha Hrows Hres Hsup).
    rewrite default_Some, orb_true_iff, up_fake_iff, down_fake_iff. split.
    + intros [(q & -> & Hq)|(q & -> & Hq)]; exists pre, b0, b1, b2;
        (split; [exact Hrows|]); [left|right]; exists q; auto.
    + intros (pre' & b0' & b1' & b2' & Hrows' & Hpat).
      rewrite Hrows in Hrows'.
      apply app_inj_2 in Hrows'; [|reflexivity].
      destruct Hrows' as [<- [= <- <- <-]].
      destruct Hpat as [(q & Hq & H1)|(q & Hq & H1)].
      * left. exists q. split; [congruence|exact H1].
      * right. exists q. split; [congruence|exact H1].
Qed.

(** C4. On a frame whose columns share its index, the fake-breakout
    check raises nothing and returns true exactly when the last three
    rows show the up-fake pattern against the resistance recorded three
    rows back, or the down-fake pattern against the support recorded
    there; it returns false on fewer than three rows; and it does not
    read the breakout-event column. *)
Theorem check_fake_breakout_spec (df : DataFrame) :
  aligned df ->
  _check_fake_breakout_body df = Some (_check_fake_breakout df)
  /\ (_check_fake_breakout df = true <-> fake_breakout_pattern df)
  /\ ((len df < 3)%nat -> _check_fake_breakout df = false)
  /\ (forall breaks,
        _check_fake_breakout (set_trend_break breaks df) = _check_fake_breakout df).
Proof.
  intros Ha. split_and!.
  - apply check_fake_breakout_no_exception, Ha.
  - apply check_fake_breakout_pattern_iff, Ha.
  - intros H. unfold _check_fake_breakout.
    rewrite (check_fake_breakout_short df H). reflexivity.
  - intros breaks. reflexivity.
Qed.

Lemma check_fake_breakout_spec_witness :
  aligned fake_frame /\ _check_fake_breakout fake_frame = true
  /\ fake_breakout_pattern fake_frame.
Proof.
  assert (Ha : aligned fake_frame) by (split; reflexivity).
  assert (Ht : _check_fake_breakout fake_frame = true) by (vm_compute; reflexivity).
  split; [exact Ha|]. split; [exact Ht|].
  apply (check_fake_breakout_spec fake_frame Ha). exact Ht.
Defined.

(** On the frames the engine builds, the reference levels are taken at
    the row of the first of the three bars, so they already include that
    bar's own high and low: neither pattern can occur and the check
    returns false. *)
Lemma check_fake_breakout_engine_frames (sqrtQ : Q -> Q) (cs : list Candle) :
  _check_fake_breakout (calculate_technical_indicators sqrtQ cs) = false.
Proof.
  destruct (_check_fake_breakout _) eqn:E; [exfalso|reflexivity].
  apply check_fake_breakout_pattern_iff in E; [|apply aligned_calc].
  destruct E as (pre & b0 & b1 & b2 & Hrows & Hpat).
  rewrite rows_calc in Hrows. rewrite resistance_calc, support_calc in Hpat.
  assert (Hb0 : cs !! length pre = Some b0).
  { rewrite Hrows. rewrite lookup_app_r by lia.
    rewrite Nat.sub_diag. reflexivity. }
  assert (Hin : forall t, (Config.MA_default_period <= t + 1)%nat ->
                          cs !! t = Some b0 ->
                          window_rows Config.MA_default_period t cs
                            !! (Config.MA_default_period - 1)%nat = Some b0).
  { intros t Hp Ht. apply window_rows_last;
      [unfold Config.MA_default_period; lia|exact Hp|exact Ht]. }
  destruct Hpat as [(r & Hr & Hhigh & _)|(s & Hs & Hlow & _)].
  - destruct (resistance_defined cs (length pre) r Hr) as [Hp Hall].
    rewrite Forall_lookup in Hall.
    specialize (Hall _ _ (Hin _ Hp Hb0)). simpl in Hall. lra.
  - destruct (support_defined cs (length pre) s Hs) as [Hp Hall].
    rewrite Forall_lookup in Hall.
    specialize (Hall _ _ (Hin _ Hp Hb0)). simpl in Hall. lra.
Qed.

(** ** Criticality classifier *)




Lemma volume_clause_body_nonempty (df : DataFrame) :
  rows df <> [] ->
  volume_clause_body df =
  (current_volume ← iloc_neg 1 (col volume (rows df));
   avg ← iloc_neg 1 (rolling 20 fmean (col volume (rows df)));
   Some (fgtb current_volume (fmul avg (Fin 2)))).
Proof.
  intros H. unfold volume_clause_body.
  destruct (rows df); [congruence|reflexivity].
Qed.

Lemma window_rows_tail (p n : nat) (cs : list Candle) :
  length cs = n -> (1 <= p)%nat -> (p <= n)%nat ->
  window_rows p (n - 1) cs = drop (n - p) cs.
Proof.
  intros Hn Hp1 Hp. unfold window_rows.
  replace (n - 1 + 1 - p)%nat with (n - p)%nat by lia.
  apply take_ge. rewrite length_drop. lia.
Qed.

Lemma volume_clause_spec (df : DataFrame) :
  exists b, volume_clause_body df = Some b /\ (b = true <-> volume_fires df).
Proof.
  unfold volume_fires. cbv zeta.
  destruct (rows df) as [|c0 cs'] eqn:Hrows.
  - exists false. split.
    + unfold volume_clause_body. rewrite Hrows. reflexivity.
    + split; [discriminate|]. intros (v & Hlast & _). discriminate.
  - rewrite <- Hrows.
    assert (Hne : rows df <> []) by (rewrite Hrows; discriminate).
    set (n := length (rows df)).
    assert (Hn : (1 <= n)%nat) by (unfold n; rewrite Hrows; simpl; lia).
    rewrite volume_clause_body_nonempty by exact Hne.
    rewrite !iloc_neg_lookup by (rewrite ?length_rolling, ?length_col; fold n; lia).
    rewrite length_rolling, length_col. fold n.
    destruct (lookup_lt_is_Some_2 (rows df) (n - 1)) as [cl Hcl]; [fold n; lia|].
    rewrite lookup_col, Hcl.
    rewrite lookup_rolling_col by (fold n; lia).
    replace (n - 1 + 1)%nat with n by lia.
    rewrite last_lookup, length_fmap, list_lookup_fmap. fold n.
    replace (Init.Nat.pred n) with (n - 1)%nat by lia. rewrite Hcl.
    destruct (20 <=? n)%nat eqn:E.
    + apply Nat.leb_le in E.
      rewrite (window_rows_tail 20 n (rows df) eq_refl) by lia.
      rewrite fmean_col
        by (intros Hnil; apply (f_equal length) in Hnil;
            rewrite length_drop in Hnil; fold n in Hnil; simpl in Hnil; lia).
      rewrite length_drop. fold n.
      replace (n - (n - 20))%nat with 20%nat by lia.
      rewrite map_fmap, fmap_drop.
      change (inject_Z (Z.of_nat 20)) with 20.
      eexists. split; [reflexivity|].
      unfold fgtb. simpl. rewrite Qlt_bool_iff.
      split.
      * intros H. exists (volume cl). split; [reflexivity|]. split; [exact E|exact H].
      * intros (v & [= <-] & _ & H). exact H.
    + apply Nat.leb_gt in E. eexists. split; [reflexivity|].
      unfold fgtb. simpl. split; [discriminate|].
      intros (v & _ & Hle & _). lia.
Qed.

Lemma is_critical_moment_body_eq
      (df : DataFrame) (cp : float) (tl sup res rsi : option float) (v : bool) :
  volume_clause_body df = Some v ->
  _is_critical_moment_body df cp tl sup res rsi =
  Some (trend_break_clause cp tl || support_resistance_clause cp sup res
        || rsi_clause rsi || v || _check_fake_breakout df).
Proof.
  intros Hv. unfold _is_critical_moment_body. rewrite Hv. reflexivity.
Qed.








(** ** Fetch *)

Section Fetch.

Variable now : Z.
Variable get_historical_klines : string -> string -> Z -> string + list Candle.

Lemma is_valid_symbol_iff (symbol : string) :
  Config.is_valid_symbol symbol = true <-> symbol ∈ Config.SYMBOLS_TO_MONITOR.
Proof. unfold Config.is_valid_symbol. apply bool_decide_eq_true. Qed.



End Fetch.







Lemma btcusdt_monitored : "BTCUSDT"%string ∈ Config.SYMBOLS_TO_MONITOR.
Proof.
  refine (bool_decide_eq_true_1 ("BTCUSDT"%string ∈ Config.SYMBOLS_TO_MONITOR) _).
  vm_compute. reflexivity.
Defined.



(** ** Orchestrator *)



(** ** Alert ledger *)

Section Ledger.

Import Agent.

Lemma last5_eq {A} (l : list A) :
  (if (5 <? length l)%nat then drop (length l - 5) l else l) = last5 l.
Proof.
  unfold last5. destruct (5 <? length l)%nat eqn:E; [reflexivity|].
  apply Nat.ltb_ge in E. replace (length l - 5)%nat with 0%nat by lia.
  reflexivity.
Qed.

Lemma length_last5 {A} (l : list A) : (length (last5 l) <= 5)%nat.
Proof. unfold last5. rewrite length_drop. lia. Qed.


Lemma add_alert_seen (now : Z) (msg aid : string) (st : State) :
  aid ∈ processed_alerts st -> add_alert now msg aid st = st.
Proof.
  intros H. unfold add_alert. rewrite bool_decide_eq_true_2 by exact H.
  reflexivity.
Qed.

Lemma add_alert_new (now : Z) (msg aid : string) (st : State) :
  aid ∉ processed_alerts st ->
  add_alert now msg aid st =
  let kept := last5 (alerts st ++ [mkAlert msg now aid]) in
  mkState kept
          (if (1000 <? size ({[aid]} ∪ processed_alerts st))%nat
           then list_to_set (id <$> kept)
           else {[aid]} ∪ processed_alerts st).
Proof.
  intros H. unfold add_alert. rewrite bool_decide_eq_false_2 by exact H.
  cbv zeta. rewrite last5_eq. reflexivity.
Qed.

Lemma ledger_inv_init : ledger_inv init.
Proof.
  unfold ledger_inv, init. cbn [alerts processed_alerts]. split_and!.
  - simpl. lia.
  - constructor.
  - intros x Hx. inversion Hx.
  - rewrite size_empty. lia.
Qed.

Lemma sublist_last5 {A} (l : list A) : last5 l `sublist_of` l.
Proof. unfold last5. apply sublist_drop. Qed.

Lemma ledger_inv_add_alert (now : Z) (msg aid : string) (st : State) :
  ledger_inv st -> ledger_inv (add_alert now msg aid st).
Proof.
  intros (Hlen & Hnd & Hsub & Hsize).
  destruct (decide (aid ∈ processed_alerts st)) as [Hin|Hnin].
  { rewrite add_alert_seen by exact Hin. unfold ledger_inv. auto. }
  rewrite add_alert_new by exact Hnin. cbv zeta.
  set (kept := last5 (alerts st ++ [mkAlert msg now aid])).
  assert (Hnd' : NoDup (id <$> kept)).
  { apply (sublist_NoDup (id <$> kept) (id <$> (alerts st ++ [mkAlert msg now aid]))).
    - rewrite fmap_app. simpl. apply NoDup_app. split; [exact Hnd|]. split.
      + intros x Hx Hx'. apply list_elem_of_singleton in Hx'. subst x.
        apply Hnin, Hsub, Hx.
      + apply NoDup_singleton.
    - apply fmap_sublist, sublist_last5. }
  assert (Hsub' : forall x, x ∈ id <$> kept -> x ∈ ({[aid]} ∪ processed_alerts st : gset string)).
  { intros x Hx.
    assert (Hx' : x ∈ id <$> (alerts st ++ [mkAlert msg now aid])).
    { eapply elem_of_sublist; [exact Hx|]. apply fmap_sublist, sublist_last5. }
    rewrite fmap_app in Hx'. apply elem_of_app in Hx'. destruct Hx' as [Hx'|Hx'].
    - apply elem_of_union_r, Hsub, Hx'.
    - simpl in Hx'. apply list_elem_of_singleton in Hx'. subst x.
      apply elem_of_union_l, elem_of_singleton. reflexivity. }
  unfold ledger_inv. simpl. split_and!.
  - apply length_last5.
  - exact Hnd'.
  - intros x Hx. destruct (1000 <? _)%nat.
    + apply elem_of_list_to_set. exact Hx.
    + apply Hsub', Hx.
  - destruct (1000 <? size ({[aid]} ∪ processed_alerts st))%nat eqn:E.
    + rewrite size_list_to_set by exact Hnd'. rewrite length_fmap.
      pose proof (length_last5 (alerts st ++ [mkAlert msg now aid])). fold kept in H.
      lia.
    + apply Nat.ltb_ge in E. exact E.
Qed.





End Ledger.

Section LedgerRuns.

Import Agent.


End LedgerRuns.




(** * Further properties of the modelled code *)

(** ** Support and resistance as an envelope *)

Lemma foldl_fmin2_attained (f : Candle -> Q) (w : list Candle) (a : Q) :
  exists m, foldl fmin2 (Fin a) (col f w) = Fin m /\
            (m = a \/ exists c, c ∈ w /\ f c = m).
Proof.
  revert a. induction w as [|c w IH]; intros a.
  - exists a. split; [reflexivity|left; reflexivity].
  - simpl. unfold fmin2 at 2. simpl.
    destruct (Qlt_bool (f c) a).
    + destruct (IH (f c)) as (m & Hm & [->|(c' & Hc' & <-)]).
      * exists (f c). split; [exact Hm|]. right. exists c.
        split; [apply elem_of_cons; left; reflexivity|reflexivity].
      * exists (f c'). split; [exact Hm|]. right. exists c'.
        split; [apply elem_of_cons; right; exact Hc'|reflexivity].
    + destruct (IH a) as (m & Hm & [->|(c' & Hc' & <-)]).
      * exists a. split; [exact Hm|]. left. reflexivity.
      * exists (f c'). split; [exact Hm|]. right. exists c'.
        split; [apply elem_of_cons; right; exact Hc'|reflexivity].
Qed.

Lemma foldl_fmax2_attained (f : Candle -> Q) (w : list Candle) (a : Q) :
  exists m, foldl fmax2 (Fin a) (col f w) = Fin m /\
            (m = a \/ exists c, c ∈ w /\ f c = m).
Proof.
  revert a. induction w as [|c w IH]; intros a.
  - exists a. split; [reflexivity|left; reflexivity].
  - simpl. unfold fmax2 at 2. simpl.
    destruct (Qlt_bool a (f c)).
    + destruct (IH (f c)) as (m & Hm & [->|(c' & Hc' & <-)]).
      * exists (f c). split; [exact Hm|]. right. exists c.
        split; [apply elem_of_cons; left; reflexivity|reflexivity].
      * exists (f c'). split; [exact Hm|]. right. exists c'.
        split; [apply elem_of_cons; right; exact Hc'|reflexivity].
    + destruct (IH a) as (m & Hm & [->|(c' & Hc' & <-)]).
      * exists a. split; [exact Hm|]. left. reflexivity.
      * exists (f c'). split; [exact Hm|]. right. exists c'.
        split; [apply elem_of_cons; right; exact Hc'|reflexivity].
Qed.

Lemma fminimum_attained (f : Candle -> Q) (w : list Candle) (m : Q) :
  fminimum (col f w) = Fin m -> exists c, c ∈ w /\ f c = m.
Proof.
  destruct w as [|c w]; [discriminate|]. simpl. intros H.
  destruct (foldl_fmin2_attained f w (f c)) as (m' & Hm & Hcase).
  rewrite Hm in H. injection H as <-.
  destruct Hcase as [->|(c' & Hc' & <-)].
  - exists c. split; [apply elem_of_cons; left; reflexivity|reflexivity].
  - exists c'. split; [apply elem_of_cons; right; exact Hc'|reflexivity].
Qed.

Lemma fmaximum_attained (f : Candle -> Q) (w : list Candle) (m : Q) :
  fmaximum (col f w) = Fin m -> exists c, c ∈ w /\ f c = m.
Proof.
  destruct w as [|c w]; [discriminate|]. simpl. intros H.
  destruct (foldl_fmax2_attained f w (f c)) as (m' & Hm & Hcase).
  rewrite Hm in H. injection H as <-.
  destruct Hcase as [->|(c' & Hc' & <-)].
  - exists c. split; [apply elem_of_cons; left; reflexivity|reflexivity].
  - exists c'. split; [apply elem_of_cons; right; exact Hc'|reflexivity].
Qed.

(** X1. Wherever the support and the resistance of a row are defined,
    the row has at least 20 rows of history (itself included), the
    support is the least low and the resistance the greatest high of
    those 20 rows: they bound every low and high of the window, the
    row's own among them, and each is attained by some row of the
    window. *)
Theorem support_resistance_envelope
    (sqrtQ : Q -> Q) (cs : list Candle) (t : nat) (s r : Q) (c : Candle) :
  support (calculate_technical_indicators sqrtQ cs) !! t = Some (Fin s) ->
  resistance (calculate_technical_indicators sqrtQ cs) !! t = Some (Fin r) ->
  cs !! t = Some c ->
  let w := window_rows Config.MA_default_period t cs in
  (20 <= t + 1)%nat
  /\ length w = 20%nat
  /\ (s <= low c /\ high c <= r)
  /\ Forall (fun c' => s <= low c' /\ high c' <= r) w
  /\ (exists c', c' ∈ w /\ low c' = s)
  /\ (exists c', c' ∈ w /\ high c' = r).
Proof.
  rewrite support_calc, resistance_calc. intros Hs Hr Hc w.
  destruct (support_defined cs t s Hs) as [Hp Hlow].
  destruct (resistance_defined cs t r Hr) as [_ Hhigh].
  assert (Ht : (t < length cs)%nat) by (apply lookup_lt_Some in Hc; exact Hc).
  assert (Hlast : w !! (Config.MA_default_period - 1)%nat = Some c).
  { apply window_rows_last; [unfold Config.MA_default_period; lia|exact Hp|exact Hc]. }
  assert (Hall : Forall (fun c' => s <= low c' /\ high c' <= r) w).
  { apply Forall_lookup. intros i c' Hi. rewrite Forall_lookup in Hlow, Hhigh.
    split; [apply (Hlow i c' Hi)|apply (Hhigh i c' Hi)]. }
  split_and!.
  - exact Hp.
  - apply length_window_rows; assumption.
  - rewrite Forall_lookup in Hall. apply (Hall _ _ Hlast).
  - rewrite Forall_lookup in Hall. apply (Hall _ _ Hlast).
  - exact Hall.
  - apply fminimum_attained.
    rewrite lookup_rolling_col in Hs by exact Ht.
    apply Nat.leb_le in Hp. rewrite Hp in Hs. injection Hs as Hs. exact Hs.
  - apply fmaximum_attained.
    rewrite lookup_rolling_col in Hr by exact Ht.
    apply Nat.leb_le in Hp. rewrite Hp in Hr. injection Hr as Hr. exact Hr.
Qed.

Lemma support_resistance_envelope_witness :
  (20 <= 19 + 1)%nat /\ 1 <= low (bar 0 1 2 1) /\ high (bar 0 1 2 1) <= 2.
Proof.
  assert (Hs : support (calculate_technical_indicators sqrt_any twenty_candles)
                 !! 19%nat = Some (Fin 1)) by (vm_compute; reflexivity).
  assert (Hr : resistance (calculate_technical_indicators sqrt_any twenty_candles)
                 !! 19%nat = Some (Fin 2)) by (vm_compute; reflexivity).
  assert (Hc : twenty_candles !! 19%nat = Some (bar 0 1 2 1)) by reflexivity.
  destruct (support_resistance_envelope sqrt_any twenty_candles 19 1 2 _ Hs Hr Hc)
    as (H1 & _ & [H2 H3] & _).
  split; [exact H1|]. split; [exact H2|exact H3].
Defined.

(** ** Moving averages and Bollinger bands *)

Lemma Qsum_bounds (a b : Q) (l : list Q) :
  Forall (fun q => a <= q /\ q <= b) l ->
  inject_Z (Z.of_nat (length l)) * a <= Qsum l
  /\ Qsum l <= inject_Z (Z.of_nat (length l)) * b.
Proof.
  induction 1 as [|q l [Hq1 Hq2] _ [IH1 IH2]].
  - change (inject_Z (Z.of_nat (length (@nil Q)))) with 0.
    change (Qsum []) with 0. lra.
  - change (Qsum (q :: l)) with (q + Qsum l).
    assert (E : inject_Z (Z.of_nat (length (q :: l)))
                == inject_Z (Z.of_nat (length l)) + 1).
    { simpl length. rewrite Nat2Z.inj_succ. unfold Z.succ.
      rewrite inject_Z_plus. reflexivity. }
    rewrite E. split; lra.
Qed.

Lemma mean_bounds (a b : Q) (l : list Q) :
  l <> [] ->
  Forall (fun q => a <= q /\ q <= b) l ->
  a <= Qsum l / inject_Z (Z.of_nat (length l))
  /\ Qsum l / inject_Z (Z.of_nat (length l)) <= b.
Proof.
  intros Hne Hall. destruct (Qsum_bounds a b l Hall) as [H1 H2].
  assert (Hp : 0 < inject_Z (Z.of_nat (length l))).
  { apply inject_nat_pos. destruct l; [congruence|simpl; lia]. }
  split.
  - apply Qle_shift_div_l; [exact Hp|]. lra.
  - apply Qle_shift_div_r; [exact Hp|]. lra.
Qed.

(** X2. Each moving-average column belongs to one of the configured
    periods [p]; at a row with fewer than [p] rows of history it is
    undefined, and otherwise it is the arithmetic mean of the last [p]
    closes, hence within any bounds that hold for those closes. *)
Theorem moving_average_window_mean
    (sqrtQ : Q -> Q) (cs : list Candle) (p : nat) (s : Series) (t : nat) :
  (p, s) ∈ MA (calculate_technical_indicators sqrtQ cs) ->
  (t < length cs)%nat ->
  p ∈ Config.MA_periods
  /\ (((t + 1 < p)%nat /\ s !! t = Some NaN)
      \/ ((p <= t + 1)%nat /\
          let w := close <$> window_rows p t cs in
          length w = p
          /\ s !! t = Some (Fin (Qsum w / inject_Z (Z.of_nat p)))
          /\ forall a b, Forall (fun q => a <= q /\ q <= b) w ->
                         a <= Qsum w / inject_Z (Z.of_nat p)
                         /\ Qsum w / inject_Z (Z.of_nat p) <= b)).
Proof.
  rewrite MA_calc. intros Hin Ht.
  apply list_elem_of_fmap in Hin. destruct Hin as (period & [= -> ->] & Hper).
  split; [exact Hper|].
  assert (Hpos : (1 <= period)%nat).
  { pose proof MA_periods_positive as Hall. rewrite Forall_forall in Hall.
    apply Hall, Hper. }
  rewrite lookup_rolling_col by exact Ht.
  destruct (period <=? t + 1)%nat eqn:E.
  - apply Nat.leb_le in E. right. split; [exact E|]. cbv zeta.
    assert (Hlen : length (window_rows period t cs) = period)
      by (apply length_window_rows; assumption).
    assert (Hne : window_rows period t cs <> []).
    { intros Hnil. rewrite Hnil in Hlen. simpl in Hlen. lia. }
    split; [rewrite length_fmap; exact Hlen|].
    split.
    + rewrite fmean_col by exact Hne. rewrite Hlen, map_fmap. reflexivity.
    + intros a b Hall.
      assert (Hne' : close <$> window_rows period t cs <> []).
      { intros Hnil. apply (f_equal length) in Hnil.
        rewrite length_fmap, Hlen in Hnil. simpl in Hnil. lia. }
      pose proof (mean_bounds a b _ Hne' Hall) as Hb.
      rewrite length_fmap, Hlen in Hb. exact Hb.
  - apply Nat.leb_gt in E. left. split; [exact E|reflexivity].
Qed.

Lemma moving_average_window_mean_witness :
  exists s, MA (calculate_technical_indicators sqrt_any twenty_candles) !! 0%nat
            = Some (5%nat, s)
            /\ (5 <= 19 + 1)%nat
            /\ s !! 19%nat
               = Some (Fin (Qsum (close <$> window_rows 5 19 twenty_candles)
                            / inject_Z (Z.of_nat 5))).
Proof.
  destruct (MA (calculate_technical_indicators sqrt_any twenty_candles) !! 0%nat)
    as [[p s]|] eqn:E; [|vm_compute in E; discriminate].
  assert (Hp : p = 5%nat).
  { rewrite MA_calc, list_lookup_fmap in E. simpl in E. congruence. }
  subst p. exists s. split; [reflexivity|]. split; [lia|].
  assert (Hin : (5%nat, s) ∈ MA (calculate_technical_indicators sqrt_any twenty_candles)).
  { apply list_elem_of_lookup. exists 0%nat. exact E. }
  assert (Ht : (19 < length twenty_candles)%nat) by (simpl; lia).
  destruct (moving_average_window_mean sqrt_any twenty_candles 5 s 19 Hin Ht)
    as (_ & [[Hlt _]|(_ & _ & H & _)]); [lia|exact H].
Defined.




(** ** Breakout events during warm-up *)

Lemma triggers_warm_up (sqrtQ : Q -> Q) (cs : list Candle) (t : nat) :
  (t < Config.MA_default_period)%nat ->
  up_trigger (calculate_technical_indicators sqrtQ cs) t = false
  /\ down_trigger (calculate_technical_indicators sqrtQ cs) t = false.
Proof.
  intros Ht. unfold up_trigger, down_trigger.
  rewrite rows_calc, resistance_calc, support_calc.
  destruct t as [|t']; [split; reflexivity|].
  destruct (cs !! S t') as [c|] eqn:Hc; [|split; reflexivity].
  destruct (cs !! t') as [c'|] eqn:Hc'; [|split; reflexivity].
  assert (Hlt : (t' < length cs)%nat) by (apply lookup_lt_Some in Hc'; exact Hc').
  rewrite !lookup_rolling_col by exact Hlt.
  assert (E : (Config.MA_default_period <=? t' + 1)%nat = false)
    by (apply Nat.leb_gt; lia).
  rewrite E. split; reflexivity.
Qed.

(** X4. The breakout-event column holds nothing but 1 (up), -1 (down)
    and undefined entries, and it is undefined on the first 20 rows:
    the levels of the previous row do not exist before row 20, so no
    breakout can be reported on a series of 20 rows or fewer. *)
Theorem breakout_events_after_warm_up
    (sqrtQ : Q -> Q) (cs : list Candle) (t : nat) (x : float) :
  trend_break (calculate_technical_indicators sqrtQ cs) !! t = Some x ->
  (x = NaN \/ x = Fin 1 \/ x = Fin (-1))
  /\ ((t < 20)%nat -> x = NaN)
  /\ ((length cs <= 20)%nat -> x = NaN).
Proof.
  intros H.
  assert (Ht : (t < length cs)%nat).
  { apply lookup_lt_Some in H.
    rewrite trend_break_calc, length_detect_trend_breaks in H by apply aligned_calc.
    unfold len in H. rewrite rows_calc in H. exact H. }
  rewrite trend_break_calc, lookup_detect_trend_breaks in H;
    [|apply aligned_calc|unfold len; rewrite rows_calc; exact Ht].
  injection H as <-.
  assert (Hwarm : (t < 20)%nat ->
                  (if down_trigger (calculate_technical_indicators sqrtQ cs) t
                   then Fin (-1)
                   else if up_trigger (calculate_technical_indicators sqrtQ cs) t
                        then Fin 1 else NaN) = NaN).
  { intros Hlt. destruct (triggers_warm_up sqrtQ cs t Hlt) as [-> ->]. reflexivity. }
  split_and!.
  - destruct (down_trigger _ t); [right; right; reflexivity|].
    destruct (up_trigger _ t); [right; left; reflexivity|left; reflexivity].
  - exact Hwarm.
  - intros Hlen. apply Hwarm. lia.
Qed.

Lemma breakout_events_after_warm_up_witness :
  trend_break (calculate_technical_indicators sqrt_any breakout_candles) !! 20%nat
    = Some (Fin 1)
  /\ (Fin 1 = NaN \/ Fin 1 = Fin 1 \/ Fin 1 = Fin (-1)).
Proof.
  assert (H : trend_break (calculate_technical_indicators sqrt_any breakout_candles)
                !! 20%nat = Some (Fin 1)) by (vm_compute; reflexivity).
  split; [exact H|].
  apply (breakout_events_after_warm_up sqrt_any breakout_candles 20 (Fin 1) H).
Defined.

(** ** The fake-breakout clause on engine frames *)


(** ** RSI of one-way markets *)

Lemma Qsum_pos (l : list Q) (k : nat) (q : Q) :
  Forall (fun x => 0 <= x) l -> l !! k = Some q -> 0 < q -> 0 < Qsum l.
Proof.
  intros Hall. revert k. induction Hall as [|x l Hx Hall IH]; intros k Hk Hq.
  - discriminate.
  - change (Qsum (x :: l)) with (x + Qsum l).
    pose proof (Qsum_nonneg l Hall) as Hl.
    destruct k as [|k]; simpl in Hk.
    + injection Hk as ->. lra.
    + specialize (IH k Hk Hq). lra.
Qed.

Lemma Qsum_zero (l : list Q) : Forall (fun x => x == 0) l -> Qsum l == 0.
Proof.
  induction 1 as [|x l Hx _ IH]; [reflexivity|].
  change (Qsum (x :: l)) with (x + Qsum l). rewrite Hx, IH. reflexivity.
Qed.

Lemma lookup_fins_eq (s : Series) (qs : list Q) (i : nat) (q : Q) :
  s = fins qs -> s !! i = Some (Fin q) -> qs !! i = Some q.
Proof.
  intros -> H. apply lookup_fins_inv in H. destruct H as (q' & [= <-] & H).
  exact H.
Qed.

(** The averages of gains and losses at a full window, with the rows
    they are taken from. *)
Lemma rsi_window_averages (sqrtQ : Q -> Q) (cs : list Candle) (t : nat) :
  (t < length cs)%nat -> (Config.RSI_period <= t + 1)%nat ->
  exists gs ls,
    gains (col close cs) = fins gs /\ losses (col close cs) = fins ls
    /\ Forall (fun q => 0 <= q) gs /\ Forall (fun q => 0 <= q) ls
    /\ let p := Config.RSI_period in
       let a := Qsum (take p (drop (t + 1 - p) gs)) / inject_Z (Z.of_nat p) in
       let b := Qsum (take p (drop (t + 1 - p) ls)) / inject_Z (Z.of_nat p) in
       RSI (calculate_technical_indicators sqrtQ cs) !! t
       = Some (rsi_of_rs (fdiv (Fin a) (Fin b))).
Proof.
  intros Ht Hp.
  destruct (gains_fins (close <$> cs)) as (gs & Hgs & Hgpos).
  destruct (losses_fins (close <$> cs)) as (ls & Hls & Hlpos).
  rewrite <- col_fins in Hgs, Hls.
  exists gs, ls. split; [exact Hgs|]. split; [exact Hls|].
  split; [exact Hgpos|]. split; [exact Hlpos|]. cbv zeta.
  assert (Hlg : length gs = length cs).
  { rewrite <- (length_fins gs), <- Hgs, length_gains. apply length_col. }
  assert (Hll : length ls = length cs).
  { rewrite <- (length_fins ls), <- Hls, length_losses. apply length_col. }
  rewrite RSI_calc, map_fmap, list_lookup_fmap, lookup_zip_with.
  unfold rsi_gain, rsi_loss. rewrite Hgs, Hls.
  rewrite !lookup_rolling_fins by lia.
  apply Nat.leb_le in Hp. rewrite Hp. apply Nat.leb_le in Hp.
  rewrite !fmean_fins
    by (intros Hnil; apply (f_equal length) in Hnil;
        rewrite length_take_drop_window in Hnil by lia;
        unfold Config.RSI_period in Hnil; discriminate).
  rewrite !length_take_drop_window by lia. reflexivity.
Qed.

Lemma rsi_one_way_values
    (sqrtQ : Q -> Q) (cs : list Candle) (t : nat) :
  (t < length cs)%nat -> (Config.RSI_period <= t + 1)%nat ->
  ((forall i c c', cs !! i = Some c -> cs !! S i = Some c' -> close c < close c') ->
   exists q, RSI (calculate_technical_indicators sqrtQ cs) !! t = Some (Fin q)
             /\ q == 100)
  /\ ((forall i c c', cs !! i = Some c -> cs !! S i = Some c' -> close c' < close c) ->
      exists q, RSI (calculate_technical_indicators sqrtQ cs) !! t = Some (Fin q)
                /\ q == 0).
Proof.
  intros Ht Hp.
  destruct (rsi_window_averages sqrtQ cs t Ht Hp)
    as (gs & ls & Hgs & Hls & Hgpos & Hlpos & Hrsi).
  cbv zeta in Hrsi.
  set (p := Config.RSI_period) in *.
  set (a := Qsum (take p (drop (t + 1 - p) gs)) / inject_Z (Z.of_nat p)) in *.
  set (b := Qsum (take p (drop (t + 1 - p) ls)) / inject_Z (Z.of_nat p)) in *.
  assert (Hp14 : 0 < inject_Z (Z.of_nat p)) by (apply inject_nat_pos; unfold p, Config.RSI_period; lia).
  assert (Hp1 : (1 <= p)%nat) by (unfold p, Config.RSI_period; lia).
  (* the last row of the window is row [t], which has a predecessor *)
  destruct t as [|t']; [unfold p, Config.RSI_period in Hp; lia|].
  destruct (lookup_lt_is_Some_2 cs t') as [c Hc]; [lia|].
  destruct (lookup_lt_is_Some_2 cs (S t')) as [c' Hc']; [lia|].
  assert (Hlastix : forall (l : list Q),
             take p (drop (S t' + 1 - p) l) !! (p - 1)%nat = l !! S t').
  { intros l. rewrite lookup_take_lt by lia. rewrite lookup_drop. f_equal. lia. }
  assert (Hzero : forall (l : list Q),
             Forall (fun x => x == 0) l ->
             Qsum (take p (drop (S t' + 1 - p) l)) / inject_Z (Z.of_nat p) == 0).
  { intros l Hl. rewrite Qsum_zero; [|apply Forall_take, Forall_drop, Hl].
    unfold Qdiv. apply Qmult_0_l. }
  assert (Hposs : forall (l : list Q) q,
             Forall (fun x => 0 <= x) l -> l !! S t' = Some q -> 0 < q ->
             0 < Qsum (take p (drop (S t' + 1 - p) l)) / inject_Z (Z.of_nat p)).
  { intros l q Hl Hq Hq0.
    apply Qlt_shift_div_l; [exact Hp14|]. rewrite Qmult_0_l.
    apply (Qsum_pos _ (p - 1) q); [apply Forall_take, Forall_drop, Hl| |exact Hq0].
    rewrite Hlastix. exact Hq. }
  split.
  - intros Hrise.
    assert (Hg : gs !! S t' = Some (close c' + - close c)).
    { apply (lookup_fins_eq _ _ _ _ Hgs).
      destruct (lookup_gains_col cs t' c c' Hc Hc') as [_ H]. rewrite H.
      assert (E : Qlt_bool 0 (close c' + - close c) = true).
      { apply Qlt_bool_iff. specialize (Hrise _ _ _ Hc Hc'). lra. }
      rewrite E. reflexivity. }
    assert (Hl0 : Forall (fun x => x == 0) ls).
    { apply Forall_lookup. intros i x Hx.
      assert (Hx' : losses (col close cs) !! i = Some (Fin x)).
      { rewrite Hls, lookup_fins, Hx. reflexivity. }
      destruct i as [|i].
      - destruct (lookup_losses_col cs t' c c' Hc Hc') as [H0 _].
        rewrite H0 in Hx'. injection Hx' as <-. reflexivity.
      - destruct (lookup_lt_is_Some_2 cs i) as [d Hd].
        { apply lookup_lt_Some in Hx'. rewrite length_losses, length_col in Hx'. lia. }
        destruct (lookup_lt_is_Some_2 cs (S i)) as [d' Hd'].
        { apply lookup_lt_Some in Hx'. rewrite length_losses, length_col in Hx'. lia. }
        destruct (lookup_losses_col cs i d d' Hd Hd') as [_ HS].
        rewrite HS in Hx'.
        assert (E : Qlt_bool (close d' + - close d) 0 = false).
        { apply Qlt_bool_false_iff. specialize (Hrise _ _ _ Hd Hd'). lra. }
        rewrite E in Hx'. injection Hx' as <-. reflexivity. }
    assert (Ha : 0 < a).
    { apply (Hposs gs _ Hgpos Hg). specialize (Hrise _ _ _ Hc Hc'). lra. }
    assert (Hb : b == 0) by (apply Hzero, Hl0).
    destruct (rsi_of_zero_loss_gain a b Ha Hb) as (q & Hq & Hq100).
    exists q. split; [rewrite Hrsi, Hq; reflexivity|exact Hq100].
  - intros Hfall.
    assert (Hl : ls !! S t' = Some (- (close c' + - close c))).
    { apply (lookup_fins_eq _ _ _ _ Hls).
      destruct (lookup_losses_col cs t' c c' Hc Hc') as [_ H]. rewrite H.
      assert (E : Qlt_bool (close c' + - close c) 0 = true).
      { apply Qlt_bool_iff. specialize (Hfall _ _ _ Hc Hc'). lra. }
      rewrite E. reflexivity. }
    assert (Hg0 : Forall (fun x => x == 0) gs).
    { apply Forall_lookup. intros i x Hx.
      assert (Hx' : gains (col close cs) !! i = Some (Fin x)).
      { rewrite Hgs, lookup_fins, Hx. reflexivity. }
      destruct i as [|i].
      - destruct (lookup_gains_col cs t' c c' Hc Hc') as [H0 _].
        rewrite H0 in Hx'. injection Hx' as <-. reflexivity.
      - destruct (lookup_lt_is_Some_2 cs i) as [d Hd].
        { apply lookup_lt_Some in Hx'. rewrite length_gains, length_col in Hx'. lia. }
        destruct (lookup_lt_is_Some_2 cs (S i)) as [d' Hd'].
        { apply lookup_lt_Some in Hx'. rewrite length_gains, length_col in Hx'. lia. }
        destruct (lookup_gains_col cs i d d' Hd Hd') as [_ HS].
        rewrite HS in Hx'.
        assert (E : Qlt_bool 0 (close d' + - close d) = false).
        { apply Qlt_bool_false_iff. specialize (Hfall _ _ _ Hd Hd'). lra. }
        rewrite E in Hx'. injection Hx' as <-. reflexivity. }
    assert (Hb : 0 < b).
    { apply (Hposs ls _ Hlpos Hl). specialize (Hfall _ _ _ Hc Hc'). lra. }
    assert (Ha : a == 0) by (apply Hzero, Hg0).
    assert (Ha0 : 0 <= a) by (rewrite Ha; apply Qle_refl).
    destruct (rsi_of_positive_loss a b Ha0 Hb) as (q & Hq & Hqv & _).
    exists q. split; [rewrite Hrsi, Hq; reflexivity|].
    rewrite Hqv, Ha. field. intros Hb0. rewrite Hb0 in Hb.
    apply (Qlt_irrefl 0 Hb).
Qed.

(** X6. In a market whose closes rise strictly from each row to the
    next, the RSI is 100 at every row with a full window; when they fall
    strictly it is 0.  Either way the reading is extreme. *)
Theorem rsi_of_one_way_market
    (sqrtQ : Q -> Q) (cs : list Candle) (t : nat) :
  (t < length cs)%nat -> (Config.RSI_period <= t + 1)%nat ->
  ((forall i c c', cs !! i = Some c -> cs !! S i = Some c' -> close c < close c') ->
   exists q, RSI (calculate_technical_indicators sqrtQ cs) !! t = Some (Fin q)
             /\ q == 100)
  /\ ((forall i c c', cs !! i = Some c -> cs !! S i = Some c' -> close c' < close c) ->
      exists q, RSI (calculate_technical_indicators sqrtQ cs) !! t = Some (Fin q)
                /\ q == 0).
Proof. exact (rsi_one_way_values sqrtQ cs t). Qed.

Lemma rsi_of_one_way_market_witness :
  (14 < length rising_candles)%nat
  /\ exists q, RSI (calculate_technical_indicators sqrt_any rising_candles) !! 14%nat
               = Some (Fin q) /\ q == 100.
Proof.
  assert (Ht : (14 < length rising_candles)%nat) by (simpl; lia).
  assert (Hp : (Config.RSI_period <= 14 + 1)%nat) by (unfold Config.RSI_period; lia).
  split; [exact Ht|].
  apply (rsi_of_one_way_market sqrt_any rising_candles 14 Ht Hp).
  intros i c c' Hc Hc'.
  assert (Hi : (i < 14)%nat).
  { apply lookup_lt_Some in Hc'. simpl in Hc'. lia. }
  do 14 (destruct i as [|i]; [vm_compute in Hc, Hc'; injection Hc as <-;
                               injection Hc' as <-; reflexivity|]).
  lia.
Defined.

(** ** The trend line is the least-squares line *)



















(** ** The orchestrator after a successful fetch *)

Section Orchestrator.

Variable sqrtQ : Q -> Q.
Variable ai_generate : string -> gmap string pyval -> DataFrame -> option string.
Variables fmt1 fmt2 repr_float : float -> string.

Lemma iloc_last_Some {A} (l : list A) :
  l <> [] -> exists x, iloc_neg 1 l = Some x /\ last l = Some x.
Proof.
  intros Hl.
  assert (Hlen : (1 <= length l)%nat) by (destruct l; [congruence|simpl; lia]).
  rewrite iloc_neg_lookup by lia. rewrite last_lookup.
  replace (Init.Nat.pred (length l)) with (length l - 1)%nat by lia.
  destruct (lookup_lt_is_Some_2 l (length l - 1)) as [x Hx]; [lia|].
  exists x. split; exact Hx.
Qed.

Lemma nonempty_of_length {A} (l : list A) (n : nat) :
  length l = n -> (1 <= n)%nat -> l <> [].
Proof. intros Hl Hn ->. simpl in Hl. lia. Qed.

(** On a non-empty series every reading of the last row exists, and the
    orchestrator returns the assembled snapshot. *)
Lemma analyze_frame_nonempty (symbol : string) (cs : list Candle) :
  cs <> [] ->
  let df := calculate_technical_indicators sqrtQ cs in
  exists c tl s r rsi,
    last cs = Some c
    /\ last (trend_line df) = Some tl /\ last (support df) = Some s
    /\ last (resistance df) = Some r /\ last (RSI df) = Some rsi
    /\ let crit := _is_critical_moment df (Fin (close c)) (Some tl) (Some s)
                                       (Some r) (Some rsi) in
       let td := snapshot (Fin (close c)) tl s r rsi (break_analysis_of df) crit in
       analyze_frame sqrtQ ai_generate fmt1 fmt2 repr_float symbol cs
       = inr (mkAnalysisResult td
                (if crit
                 then _perform_ai_analysis ai_generate fmt1 fmt2 repr_float symbol td df
                 else _generate_basic_analysis fmt1 fmt2 repr_float td)).
Proof.
  intros Hne. cbv zeta.
  assert (Hn : (1 <= length cs)%nat) by (destruct cs; [congruence|simpl; lia]).
  set (df := calculate_technical_indicators sqrtQ cs).
  destruct (iloc_last_Some cs Hne) as (c & Hc & Hlc).
  destruct (iloc_last_Some (trend_line df)) as (tl & Htl & Hltl).
  { apply (nonempty_of_length _ (length cs)); [|exact Hn].
    unfold df. rewrite trend_line_calc, length_trend_line. apply length_col. }
  destruct (iloc_last_Some (support df)) as (s & Hs & Hls).
  { apply (nonempty_of_length _ (length cs)); [|exact Hn].
    unfold df. rewrite support_calc, length_rolling. apply length_col. }
  destruct (iloc_last_Some (resistance df)) as (r & Hr & Hlr).
  { apply (nonempty_of_length _ (length cs)); [|exact Hn].
    unfold df. rewrite resistance_calc, length_rolling. apply length_col. }
  destruct (iloc_last_Some (RSI df)) as (rsi & Hrsi & Hlrsi).
  { apply (nonempty_of_length _ (length cs)); [|exact Hn].
    unfold df. rewrite RSI_calc, length_map.
    apply length_zip_with_n; [apply length_rsi_gain|apply length_rsi_loss]. }
  exists c, tl, s, r, rsi. split_and!; try assumption.
  unfold analyze_frame. fold df.
  assert (Hcp : iloc_neg 1 (col close (rows df)) = Some (Fin (close c))).
  { unfold df. rewrite rows_calc.
    rewrite iloc_neg_lookup in Hc by lia.
    rewrite iloc_neg_lookup by (rewrite ?length_col; lia).
    rewrite length_col, lookup_col, Hc. reflexivity. }
  rewrite Hcp, Htl, Hs, Hr, Hrsi. reflexivity.
Qed.

End Orchestrator.

Section Narrative.

Variables fmt1 fmt2 repr_float : float -> string.

Lemma snapshot_lookups (cp tl s r rsi : float) (ba : string) (crit : bool) :
  let td := snapshot cp tl s r rsi ba crit in
  td !! "current_price"%string = Some (PyFloat cp)
  /\ td !! "trend_line"%string = Some (PyFloat tl)
  /\ td !! "support"%string = Some (PyFloat s)
  /\ td !! "resistance"%string = Some (PyFloat r)
  /\ td !! "rsi"%string = Some (PyFloat rsi)
  /\ td !! "break_analysis"%string = Some (PyStr ba)
  /\ td !! "is_critical"%string = Some (PyBool crit).
Proof.
  cbv zeta. unfold snapshot. split_and!; by simplify_map_eq.
Qed.

(** The templated narrative of an assembled snapshot: never the
    fallback text. *)
Lemma generate_basic_analysis_snapshot
      (cp tl s r rsi : float) (ba : string) (crit : bool) :
  _generate_basic_analysis fmt1 fmt2 repr_float (snapshot cp tl s r rsi ba crit)
  = join_lines
      (["當前趨勢: " +:+ ba;
        if fgeb rsi (Fin 70)
        then "RSI (" +:+ fmt1 rsi +:+ ") 顯示市場處於超買狀態"
        else if fleb rsi (Fin 30)
        then "RSI (" +:+ fmt1 rsi +:+ ") 顯示市場處於超賣狀態"
        else "RSI (" +:+ fmt1 rsi +:+ ") 處於正常區間"]
       ++ (if truthy s && truthy r
           then ["支撐位: $" +:+ fmt2 s; "阻力位: $" +:+ fmt2 r]
           else [])).
Proof.
  destruct (snapshot_lookups cp tl s r rsi ba crit)
    as (Hcp & _ & Hs & Hr & Hrsi & Hba & _).
  unfold _generate_basic_analysis, _generate_basic_analysis_body.
  rewrite Hba, Hrsi, Hcp, Hs, Hr. cbn [mbind option_bind py_str].
  destruct (truthy s && truthy r); [reflexivity|].
  rewrite app_nil_r. reflexivity.
Qed.

End Narrative.

(** ** The orchestrator end to end *)

Section AnalyzeTrends.

Variable sqrtQ : Q -> Q.
Variable now : Z.
Variable get_historical_klines : string -> string -> Z -> string + list Candle.
Variable ai_generate : string -> gmap string pyval -> DataFrame -> option string.
Variables fmt1 fmt2 repr_float : float -> string.
Variables symbol interval : string.
Variable days : Z.

Let fetched := get_historical_data now get_historical_klines symbol
                                   (Some interval) (Some days).

Lemma analyze_trends_fetched (cs : list Candle) :
  fetched.1 = Some cs ->
  analyze_trends sqrtQ now get_historical_klines ai_generate fmt1 fmt2 repr_float
                 symbol interval days
  = match analyze_frame sqrtQ ai_generate fmt1 fmt2 repr_float symbol cs with
    | inr res => (res, fetched.2)
    | inl e => (error_result e, fetched.2 ++ [Logged ("分析過程出錯: " +:+ e)])
    end.
Proof.
  unfold fetched, analyze_trends.
  destruct (get_historical_data now get_historical_klines symbol
                                (Some interval) (Some days)) as [[cs'|] ev];
    simpl; [|discriminate].
  intros [= ->]. reflexivity.
Qed.

End AnalyzeTrends.



(** X9. When the exchange answers with an empty series the orchestrator
    does not fail: reading the last row raises, the error is caught and
    logged, and the result is the error snapshot, with every reading
    [None], the breakout summary ['Error'], the verdict [False] and a
    narrative that starts with the error marker. *)
Theorem analyze_trends_empty_series
    (sqrtQ : Q -> Q) (now : Z)
    (get_historical_klines : string -> string -> Z -> string + list Candle)
    (ai_generate : string -> gmap string pyval -> DataFrame -> option string)
    (fmt1 fmt2 repr_float : float -> string)
    (symbol interval : string) (days : Z) :
  (get_historical_data now get_historical_klines symbol (Some interval) (Some days)).1
  = Some [] ->
  let out := analyze_trends sqrtQ now get_historical_klines ai_generate
                            fmt1 fmt2 repr_float symbol interval days in
  exists e,
    out.1 = error_result e
    /\ analysis out.1 = "分析錯誤: " +:+ e
    /\ technical_data out.1 !! "break_analysis"%string = Some (PyStr "Error")
    /\ technical_data out.1 !! "current_price"%string = Some PyNone
    /\ technical_data out.1 !! "trend_line"%string = Some PyNone
    /\ technical_data out.1 !! "support"%string = Some PyNone
    /\ technical_data out.1 !! "resistance"%string = Some PyNone
    /\ technical_data out.1 !! "rsi"%string = Some PyNone
    /\ technical_data out.1 !! "is_critical"%string = Some (PyBool false)
    /\ out.2 = (get_historical_data now get_historical_klines symbol
                                    (Some interval) (Some days)).2
               ++ [Logged ("分析過程出錯: " +:+ e)].
Proof.
  intros Hf. cbv zeta.
  rewrite (analyze_trends_fetched _ _ _ _ _ _ _ _ _ _ [] Hf).
  assert (Hframe : exists e, analyze_frame sqrtQ ai_generate fmt1 fmt2 repr_float
                                           symbol [] = inl e).
  { eexists. reflexivity. }
  destruct Hframe as [e ->]. exists e. simpl.
  split_and!; try reflexivity; unfold error_result; simpl; by simplify_map_eq.
Qed.

Lemma analyze_trends_empty_series_witness :
  (get_historical_data 0 empty_exchange "BTCUSDT" (Some "1d"%string) (Some 30%Z)).1
  = Some []
  /\ get_is_critical
       (technical_data
          (analyze_trends sqrt_any 0 empty_exchange no_generator
                          fmt_blank fmt_blank fmt_blank "BTCUSDT" "1d" 30).1)
     = PyBool false.
Proof.
  assert (Hf : (get_historical_data 0 empty_exchange "BTCUSDT"
                                    (Some "1d"%string) (Some 30%Z)).1 = Some [])
    by (vm_compute; reflexivity).
  split; [exact Hf|].
  destruct (analyze_trends_empty_series sqrt_any 0 empty_exchange no_generator
              fmt_blank fmt_blank fmt_blank "BTCUSDT" "1d" 30 Hf)
    as (e & _ & _ & _ & _ & _ & _ & _ & _ & Hcrit & _).
  unfold get_is_critical. rewrite Hcrit. reflexivity.
Defined.

Lemma get_is_critical_snapshot (cp tl s r rsi : float) (ba : string) (crit : bool) :
  get_is_critical (snapshot cp tl s r rsi ba crit) = PyBool crit.
Proof.
  destruct (snapshot_lookups cp tl s r rsi ba crit) as (_ & _ & _ & _ & _ & _ & H).
  unfold get_is_critical. rewrite H. reflexivity.
Qed.

Lemma is_critical_moment_orb
      (df : DataFrame) (cp : float) (tl sup res rsi : option float) :
  exists v, _is_critical_moment df cp tl sup res rsi
            = trend_break_clause cp tl || support_resistance_clause cp sup res
              || rsi_clause rsi || v || _check_fake_breakout df.
Proof.
  destruct (volume_clause_spec df) as (v & Hv & _). exists v.
  unfold _is_critical_moment.
  rewrite (is_critical_moment_body_eq df cp tl sup res rsi v Hv). reflexivity.
Qed.

Lemma length_RSI_calc (sqrtQ : Q -> Q) (cs : list Candle) :
  length (RSI (calculate_technical_indicators sqrtQ cs)) = length cs.
Proof.
  rewrite RSI_calc, length_map.
  apply length_zip_with_n; [apply length_rsi_gain|apply length_rsi_loss].
Qed.

Section Verdicts.

Variable sqrtQ : Q -> Q.
Variable now : Z.
Variable get_historical_klines : string -> string -> Z -> string + list Candle.
Variables fmt1 fmt2 repr_float : float -> string.
Variables symbol interval : string.
Variable days : Z.
Variable cs : list Candle.

Hypothesis fetch_ok :
  (get_historical_data now get_historical_klines symbol (Some interval) (Some days)).1
  = Some cs.
Hypothesis series_nonempty : cs <> [].

Let run (ai : string -> gmap string pyval -> DataFrame -> option string) :=
  analyze_trends sqrtQ now get_historical_klines ai fmt1 fmt2 repr_float
                 symbol interval days.

(** The result for any generator, in terms of the readings of the last
    row. *)
Lemma run_result :
  exists cp tl s r rsi ba crit,
    crit = _is_critical_moment (calculate_technical_indicators sqrtQ cs) cp
                               (Some tl) (Some s) (Some r) (Some rsi)
    /\ last (RSI (calculate_technical_indicators sqrtQ cs)) = Some rsi
    /\ forall ai,
         (run ai).1
         = mkAnalysisResult
             (snapshot cp tl s r rsi ba crit)
             (if crit
              then _perform_ai_analysis ai fmt1 fmt2 repr_float symbol
                     (snapshot cp tl s r rsi ba crit)
                     (calculate_technical_indicators sqrtQ cs)
              else _generate_basic_analysis fmt1 fmt2 repr_float
                     (snapshot cp tl s r rsi ba crit))
         /\ (run ai).2
            = (get_historical_data now get_historical_klines symbol
                                   (Some interval) (Some days)).2.
Proof.
  destruct (analyze_frame_nonempty sqrtQ (fun _ _ _ => None) fmt1 fmt2 repr_float
              symbol cs series_nonempty)
    as (c & tl & s & r & rsi & Hc & Htl & Hs & Hr & Hrsi & _).
  exists (Fin (close c)), tl, s, r, rsi,
    (break_analysis_of (calculate_technical_indicators sqrtQ cs)).
  eexists. split; [reflexivity|]. split; [exact Hrsi|].
  intros ai. unfold run.
  rewrite (analyze_trends_fetched _ _ _ _ _ _ _ _ _ _ cs fetch_ok).
  destruct (analyze_frame_nonempty sqrtQ ai fmt1 fmt2 repr_float
              symbol cs series_nonempty)
    as (c' & tl' & s' & r' & rsi' & Hc' & Htl' & Hs' & Hr' & Hrsi' & Hres).
  cbv zeta in Hres. rewrite Hres.
  assert (c' = c) by congruence. assert (tl' = tl) by congruence.
  assert (s' = s) by congruence. assert (r' = r) by congruence.
  assert (rsi' = rsi) by congruence. subst.
  split; reflexivity.
Qed.

End Verdicts.



(** X11. On a non-critical snapshot the narrative is never the fallback
    text and never reports an overbought or oversold market: it is the
    trend line, then the RSI line of the normal range, then either
    nothing or the support and resistance lines. *)
Theorem noncritical_narrative_reports_normal_rsi
    (sqrtQ : Q -> Q) (now : Z)
    (get_historical_klines : string -> string -> Z -> string + list Candle)
    (ai_generate : string -> gmap string pyval -> DataFrame -> option string)
    (fmt1 fmt2 repr_float : float -> string)
    (symbol interval : string) (days : Z) (cs : list Candle) :
  (get_historical_data now get_historical_klines symbol (Some interval) (Some days)).1
  = Some cs ->
  cs <> [] ->
  let out := analyze_trends sqrtQ now get_historical_klines ai_generate
                            fmt1 fmt2 repr_float symbol interval days in
  get_is_critical (technical_data out.1) = PyBool false ->
  exists rsi ba rest,
    technical_data out.1 !! "rsi"%string = Some (PyFloat rsi)
    /\ technical_data out.1 !! "break_analysis"%string = Some (PyStr ba)
    /\ analysis out.1
       = join_lines (["當前趨勢: " +:+ ba;
                      "RSI (" +:+ fmt1 rsi +:+ ") 處於正常區間"] ++ rest)
    /\ (rest = []
        \/ exists s r,
             technical_data out.1 !! "support"%string = Some (PyFloat s)
             /\ technical_data out.1 !! "resistance"%string = Some (PyFloat r)
             /\ rest = ["支撐位: $" +:+ fmt2 s; "阻力位: $" +:+ fmt2 r]).
Proof.
  intros Hf Hne. cbv zeta.
  destruct (run_result sqrtQ now get_historical_klines fmt1 fmt2 repr_float
              symbol interval days cs Hf Hne)
    as (cp & tl & s & r & rsi & ba & crit & Hcrit & _ & Hrun).
  destruct (Hrun ai_generate) as [H1 _].
  rewrite H1. cbn [technical_data analysis]. rewrite get_is_critical_snapshot.
  intros [= ->].
  destruct (snapshot_lookups cp tl s r rsi ba false)
    as (_ & _ & Hs & Hr & Hrsi & Hba & _).
  exists rsi, ba.
  exists (if truthy s && truthy r
          then ["支撐位: $" +:+ fmt2 s; "阻力位: $" +:+ fmt2 r] else []).
  split; [exact Hrsi|]. split; [exact Hba|].
  assert (Hclause : rsi_clause (Some rsi) = false).
  { destruct (is_critical_moment_orb (calculate_technical_indicators sqrtQ cs)
                cp (Some tl) (Some s) (Some r) (Some rsi)) as [v Hv].
    rewrite <- Hcrit in Hv. symmetry in Hv.
    apply orb_false_iff in Hv. destruct Hv as [Hv _].
    apply orb_false_iff in Hv. destruct Hv as [Hv _].
    apply orb_false_iff in Hv. destruct Hv as [_ Hv]. exact Hv. }
  unfold rsi_clause in Hclause.
  apply orb_false_iff in Hclause. destruct Hclause as [E1 E2].
  split.
  - rewrite generate_basic_analysis_snapshot, E1, E2. reflexivity.
  - destruct (truthy s && truthy r); [right|left; reflexivity].
    exists s, r. split; [exact Hs|]. split; [exact Hr|reflexivity].
Qed.

Lemma noncritical_narrative_reports_normal_rsi_witness :
  (get_historical_data 0 quiet_exchange "BTCUSDT" (Some "1d"%string) (Some 30%Z)).1
  = Some three_candles
  /\ get_is_critical
       (technical_data
          (analyze_trends sqrt_any 0 quiet_exchange no_generator
                          fmt_blank fmt_blank fmt_blank "BTCUSDT" "1d" 30).1)
     = PyBool false
  /\ exists rsi,
       technical_data
         (analyze_trends sqrt_any 0 quiet_exchange no_generator
                         fmt_blank fmt_blank fmt_blank "BTCUSDT" "1d" 30).1
       !! "rsi"%string = Some (PyFloat rsi).
Proof.
  assert (Hf : (get_historical_data 0 quiet_exchange "BTCUSDT"
                                    (Some "1d"%string) (Some 30%Z)).1
               = Some three_candles) by (vm_compute; reflexivity).
  assert (Hne : three_candles <> []) by discriminate.
  assert (Hq : get_is_critical
                 (technical_data
                    (analyze_trends sqrt_any 0 quiet_exchange no_generator
                                    fmt_blank fmt_blank fmt_blank "BTCUSDT" "1d" 30).1)
               = PyBool false) by (vm_compute; reflexivity).
  split; [exact Hf|]. split; [exact Hq|].
  destruct (noncritical_narrative_reports_normal_rsi sqrt_any 0 quiet_exchange
              no_generator fmt_blank fmt_blank fmt_blank "BTCUSDT" "1d" 30
              three_candles Hf Hne Hq) as (rsi & _ & _ & Hrsi & _).
  exists rsi. exact Hrsi.
Defined.

(** X12. A market that only rises, or only falls, is always a critical
    moment: when the closes of a series of at least 14 rows move
    strictly one way from each row to the next, the verdict of
    [analyze_trends] is true (the RSI of the last row is 100 or 0). *)
Theorem one_way_market_is_critical
    (sqrtQ : Q -> Q) (now : Z)
    (get_historical_klines : string -> string -> Z -> string + list Candle)
    (ai_generate : string -> gmap string pyval -> DataFrame -> option string)
    (fmt1 fmt2 repr_float : float -> string)
    (symbol interval : string) (days : Z) (cs : list Candle) :
  (get_historical_data now get_historical_klines symbol (Some interval) (Some days)).1
  = Some cs ->
  (Config.RSI_period <= length cs)%nat ->
  ((forall i c c', cs !! i = Some c -> cs !! S i = Some c' -> close c < close c')
   \/ (forall i c c', cs !! i = Some c -> cs !! S i = Some c' -> close c' < close c)) ->
  get_is_critical
    (technical_data
       (analyze_trends sqrtQ now get_historical_klines ai_generate
                       fmt1 fmt2 repr_float symbol interval days).1)
  = PyBool true.
Proof.
  intros Hf Hlen Hway.
  assert (Hne : cs <> []).
  { intros ->. unfold Config.RSI_period in Hlen. simpl in Hlen. lia. }
  destruct (run_result sqrtQ now get_historical_klines fmt1 fmt2 repr_float
              symbol interval days cs Hf Hne)
    as (cp & tl & s & r & rsi & ba & crit & Hcrit & Hlast & Hrun).
  destruct (Hrun ai_generate) as [H1 _].
  rewrite H1. cbn [technical_data]. rewrite get_is_critical_snapshot.
  f_equal. rewrite Hcrit.
  destruct (is_critical_moment_orb (calculate_technical_indicators sqrtQ cs)
              cp (Some tl) (Some s) (Some r) (Some rsi)) as [v ->].
  assert (Hrsi : rsi_clause (Some rsi) = true).
  { rewrite last_lookup, length_RSI_calc in Hlast.
    assert (Ht : (Init.Nat.pred (length cs) < length cs)%nat)
      by (unfold Config.RSI_period in Hlen; lia).
    assert (Hp : (Config.RSI_period <= Init.Nat.pred (length cs) + 1)%nat) by lia.
    destruct (rsi_one_way_values sqrtQ cs _ Ht Hp) as [Hup Hdown].
    destruct Hway as [Hrise|Hfall].
    - destruct (Hup Hrise) as (q & Hq & Hq100).
      rewrite Hq in Hlast. injection Hlast as <-. simpl. unfold fgeb. simpl.
      apply orb_true_iff. left. apply Qle_bool_iff. rewrite Hq100. discriminate.
    - destruct (Hdown Hfall) as (q & Hq & Hq0).
      rewrite Hq in Hlast. injection Hlast as <-. simpl.
      apply orb_true_iff. right. apply Qle_bool_iff. rewrite Hq0. discriminate. }
  rewrite Hrsi. rewrite orb_true_r. reflexivity.
Qed.

Lemma rising_candles_rise (i : nat) (c c' : Candle) :
  rising_candles !! i = Some c -> rising_candles !! S i = Some c' ->
  close c < close c'.
Proof.
  intros Hc Hc'.
  assert (Hi : (i < 14)%nat).
  { apply lookup_lt_Some in Hc'. simpl in Hc'. lia. }
  do 14 (destruct i as [|i]; [vm_compute in Hc, Hc'; injection Hc as <-;
                               injection Hc' as <-; reflexivity|]).
  lia.
Defined.

Lemma one_way_market_is_critical_witness :
  (get_historical_data 0 rising_exchange "BTCUSDT" (Some "1d"%string) (Some 30%Z)).1
  = Some rising_candles
  /\ (Config.RSI_period <= length rising_candles)%nat
  /\ get_is_critical
       (technical_data
          (analyze_trends sqrt_any 0 rising_exchange no_generator
                          fmt_blank fmt_blank fmt_blank "BTCUSDT" "1d" 30).1)
     = PyBool true.
Proof.
  assert (Hf : (get_historical_data 0 rising_exchange "BTCUSDT"
                                    (Some "1d"%string) (Some 30%Z)).1
               = Some rising_candles) by (vm_compute; reflexivity).
  assert (Hlen : (Config.RSI_period <= length rising_candles)%nat)
    by (unfold Config.RSI_period; simpl; lia).
  split; [exact Hf|]. split; [exact Hlen|].
  apply (one_way_market_is_critical sqrt_any 0 rising_exchange no_generator
           fmt_blank fmt_blank fmt_blank "BTCUSDT" "1d" 30 rising_candles Hf Hlen).
  left. exact rising_candles_rise.
Defined.

(** ** Outcomes of a fetch *)


(** ** Moving-average period of the configuration *)

(** X14. [Config.get_ma_periods] always answers with one of the
    configured periods: a configured period is returned as given, and
    anything else, an absent period and 0 included, gives the default
    20, so the answer is never 0.  Answering again on the answer changes
    nothing. *)
Theorem get_ma_periods_configured (period : option nat) :
  let p := Config.get_ma_periods period in
  p ∈ Config.MA_periods
  /\ p <> 0%nat
  /\ (forall n, period = Some n -> n ∈ Config.MA_periods -> p = n)
  /\ (forall n, period = Some n -> n ∉ Config.MA_periods -> p = 20%nat)
  /\ (period = None -> p = 20%nat)
  /\ Config.get_ma_periods (Some p) = p.
Proof.
  cbv zeta.
  assert (Hd : Config.MA_default_period ∈ Config.MA_periods).
  { refine (bool_decide_eq_true_1 (Config.MA_default_period ∈ Config.MA_periods) _).
    vm_compute. reflexivity. }
  assert (Hz : 0%nat ∉ Config.MA_periods).
  { refine (bool_decide_eq_false_1 (0%nat ∈ Config.MA_periods) _).
    vm_compute. reflexivity. }
  assert (Hfix : forall n, n ∈ Config.MA_periods -> Config.get_ma_periods (Some n) = n).
  { intros n Hn. unfold Config.get_ma_periods.
    rewrite (bool_decide_eq_true_2 _ Hn).
    destruct (n =? 0)%nat eqn:E; [|reflexivity].
    apply Nat.eqb_eq in E. subst n. contradiction. }
  assert (Hin : Config.get_ma_periods period ∈ Config.MA_periods).
  { unfold Config.get_ma_periods. destruct period as [n|]; [|exact Hd].
    destruct (negb (n =? 0)%nat && bool_decide (n ∈ Config.MA_periods)) eqn:E;
      [|exact Hd].
    apply andb_true_iff in E. destruct E as [_ E].
    apply bool_decide_eq_true in E. exact E. }
  split_and!.
  - exact Hin.
  - intros E. rewrite E in Hin. contradiction.
  - intros n -> Hn. apply Hfix, Hn.
  - intros n -> Hn. unfold Config.get_ma_periods.
    rewrite (bool_decide_eq_false_2 _ Hn), andb_false_r. reflexivity.
  - intros ->. reflexivity.
  - apply Hfix, Hin.
Qed.


Lemma get_ma_periods_configured_witness :
  (7%nat ∉ Config.MA_periods) /\ Config.get_ma_periods (Some 7%nat) = 20%nat.
Proof.
  assert (H : 7%nat ∉ Config.MA_periods).
  { refine (bool_decide_eq_false_1 (7%nat ∈ Config.MA_periods) _).
    vm_compute. reflexivity. }
  split; [exact H|].
  exact (proj1 (proj2 (proj2 (proj2 (get_ma_periods_configured (Some 7%nat)))))
               7%nat eq_refl H).
Defined.

(** ** The monitoring agent *)

Lemma add_alert_records_id (now : Z) (msg aid : string) (st : Agent.State) :
  aid ∈ Agent.processed_alerts (Agent.add_alert now msg aid st).
Proof.
  destruct (decide (aid ∈ Agent.processed_alerts st)) as [Hin|Hnin].
  - rewrite add_alert_seen by exact Hin. exact Hin.
  - rewrite add_alert_new by exact Hnin. cbv zeta. simpl.
    destruct (1000 <? _)%nat.
    + apply elem_of_list_to_set. unfold Agent.last5.
      rewrite drop_app_le by (rewrite length_app; simpl; lia).
      rewrite fmap_app. apply elem_of_app. right. simpl.
      apply list_elem_of_singleton. reflexivity.
    + apply elem_of_union_l, elem_of_singleton. reflexivity.
Qed.

Lemma add_alert_changes (now : Z) (msg aid : string) (st : Agent.State) :
  aid ∉ Agent.processed_alerts st -> Agent.add_alert now msg aid st <> st.
Proof.
  intros Hnin E. apply Hnin. rewrite <- E at 1. apply add_alert_records_id.
Qed.

Section MonitorFacts.

Import Monitor.

Variables fmt_price fmt_change : float -> string.
Variable minute_stamp : Z -> string.

(** What one call of [check_price_alerts] does, by cases. *)
Lemma check_price_alerts_cases
      (now_id now_alert : Z) (symbol : string) (p : float) (st : Dashboard) :
  let st' := check_price_alerts fmt_price minute_stamp now_id now_alert symbol p st in
  let aid := symbol +:+ "_" +:+ minute_stamp now_id in
  st' = st
  \/ exists a tl msg,
       last_analysis st !! symbol = Some a
       /\ truthy_val (get_is_critical (technical_data a)) = false
       /\ technical_data a !! "trend_line"%string = Some (PyFloat tl)
       /\ truthy tl = true
       /\ (aid ∉ Agent.processed_alerts (ledger st))
       /\ st' = set_ledger (Agent.add_alert now_alert msg aid (ledger st)) st
       /\ ((fgtb p (fmul tl (Fin (1 + Config.TREND_breakout_threshold))) = true
            /\ msg = "🔔 " +:+ symbol +:+ " 向上突破趨勢線！當前價格: $" +:+ fmt_price p)
           \/ (fgtb p (fmul tl (Fin (1 + Config.TREND_breakout_threshold))) = false
               /\ fltb p (fmul tl (Fin (1 - Config.TREND_breakout_threshold))) = true
               /\ msg = "⚠️ " +:+ symbol +:+ " 向下突破趨勢線！當前價格: $" +:+ fmt_price p)).
Proof.
  cbv zeta. unfold check_price_alerts.
  destruct (last_analysis st !! symbol) as [a|] eqn:Ha; [|left; reflexivity].
  destruct (truthy_val (get_is_critical (technical_data a))) eqn:Hc;
    [left; reflexivity|].
  destruct (technical_data a !! "trend_line"%string) as [[|tl| |]|] eqn:Htl;
    try (left; reflexivity).
  destruct (truthy tl) eqn:Ht; [|left; reflexivity].
  destruct (bool_decide (symbol +:+ "_" +:+ minute_stamp now_id
                         ∈ Agent.processed_alerts (ledger st))) eqn:Hseen.
  { rewrite !andb_false_r. left. reflexivity. }
  apply bool_decide_eq_false in Hseen. rewrite !andb_true_r.
  destruct (fgtb p (fmul tl (Fin (1 + Config.TREND_breakout_threshold)))) eqn:Hup.
  { right. eexists a, tl, _. split_and!; try reflexivity; try assumption.
    left. split; [exact Hup|reflexivity]. }
  destruct (fltb p (fmul tl (Fin (1 - Config.TREND_breakout_threshold)))) eqn:Hdn;
    [|left; reflexivity].
  right. eexists a, tl, _. split_and!; try reflexivity; try assumption.
  right. split_and!; [exact Hup|exact Hdn|reflexivity].
Qed.

Lemma check_price_alerts_frame
      (now_id now_alert : Z) (symbol : string) (p : float) (st : Dashboard) :
  let st' := check_price_alerts fmt_price minute_stamp now_id now_alert symbol p st in
  current_prices st' = current_prices st
  /\ price_changes st' = price_changes st
  /\ last_analysis st' = last_analysis st.
Proof.
  cbv zeta.
  destruct (check_price_alerts_cases now_id now_alert symbol p st)
    as [->|(a & tl & msg & _ & _ & _ & _ & _ & -> & _)]; auto.
Qed.

Lemma check_price_alerts_seen
      (now_id now_alert : Z) (symbol : string) (p : float) (st : Dashboard) :
  symbol +:+ "_" +:+ minute_stamp now_id ∈ Agent.processed_alerts (ledger st) ->
  check_price_alerts fmt_price minute_stamp now_id now_alert symbol p st = st.
Proof.
  intros Hseen.
  destruct (check_price_alerts_cases now_id now_alert symbol p st)
    as [H|(a & tl & msg & _ & _ & _ & _ & Hnew & _)]; [exact H|].
  contradiction.
Qed.

Lemma ledger_inv_check_price_alerts
      (now_id now_alert : Z) (symbol : string) (p : float) (st : Dashboard) :
  Agent.ledger_inv (ledger st) ->
  Agent.ledger_inv
    (ledger (check_price_alerts fmt_price minute_stamp now_id now_alert symbol p st)).
Proof.
  intros Hinv.
  destruct (check_price_alerts_cases now_id now_alert symbol p st)
    as [->|(a & tl & msg & _ & _ & _ & _ & _ & -> & _)]; [exact Hinv|].
  apply ledger_inv_add_alert, Hinv.
Qed.

(** X15. A price check raises an alert only on a usable analysis: the
    state changes only if an analysis of the symbol is stored, its
    verdict is not critical, its trend line is a non-zero number and no
    alert with the symbol's id for the current minute has been seen.  So
    a symbol never analysed, a critical snapshot, and each of the three
    snapshots without readings (fetch failed, analysis failed, default)
    silence the price alerts, whatever the price.  The call never touches
    the prices, the percentage changes or the stored analyses. *)
Theorem price_alerts_need_usable_analysis
    (now_id now_alert : Z) (symbol : string) (p : float) (st : Dashboard) :
  let st' := check_price_alerts fmt_price minute_stamp now_id now_alert symbol p st in
  (st' <> st ->
   exists a tl,
     last_analysis st !! symbol = Some a
     /\ truthy_val (get_is_critical (technical_data a)) = false
     /\ technical_data a !! "trend_line"%string = Some (PyFloat tl)
     /\ truthy tl = true
     /\ (symbol +:+ "_" +:+ minute_stamp now_id ∉ Agent.processed_alerts (ledger st)))
  /\ (last_analysis st !! symbol = None -> st' = st)
  /\ (forall a, last_analysis st !! symbol = Some a ->
       truthy_val (get_is_critical (technical_data a)) = true
       \/ a = unavailable_result
       \/ (exists e, a = error_result e)
       \/ a = _get_default_analysis ->
       st' = st)
  /\ current_prices st' = current_prices st
  /\ price_changes st' = price_changes st
  /\ last_analysis st' = last_analysis st.
Proof.
  cbv zeta.
  pose proof (check_price_alerts_cases now_id now_alert symbol p st) as Hcases.
  pose proof (check_price_alerts_frame now_id now_alert symbol p st) as Hframe.
  cbv zeta in Hcases, Hframe.
  split_and!; try apply Hframe.
  - intros Hne.
    destruct Hcases as [H|(a & tl & msg & Ha & Hc & Htl & Ht & Hnew & _)];
      [contradiction|].
    exists a, tl. auto.
  - intros Hnone.
    destruct Hcases as [H|(a & tl & msg & Ha & _)]; [exact H|]. congruence.
  - intros a Ha Hbad.
    destruct Hcases as [H|(a' & tl & msg & Ha' & Hc & Htl & _)]; [exact H|].
    rewrite Ha in Ha'. injection Ha' as <-.
    destruct Hbad as [Hcrit|[->|[[e ->]| ->]]].
    + congruence.
    + vm_compute in Htl. discriminate.
    + unfold error_result in Htl. cbn [technical_data] in Htl.
      rewrite lookup_insert_ne in Htl by discriminate.
      rewrite lookup_insert_ne in Htl by discriminate.
      rewrite lookup_insert_eq in Htl. discriminate.
    + vm_compute in Htl. discriminate.
Qed.


(** X17. At most one price alert per symbol and minute.  Once a price
    check has raised an alert, every later check of the same symbol
    whose clock reads the same minute leaves the whole state as it is,
    whatever the price. *)
Theorem price_alert_once_per_minute
    (now_id now_alert : Z) (symbol : string) (p : float) (st : Dashboard) :
  let st1 := check_price_alerts fmt_price minute_stamp now_id now_alert symbol p st in
  st1 <> st ->
  forall (now_id' now_alert' : Z) (p' : float),
    minute_stamp now_id' = minute_stamp now_id ->
    check_price_alerts fmt_price minute_stamp now_id' now_alert' symbol p' st1 = st1.
Proof.
  cbv zeta. intros Hne now_id' now_alert' p' Hmin.
  apply check_price_alerts_seen. rewrite Hmin.
  destruct (check_price_alerts_cases now_id now_alert symbol p st)
    as [H|(a & tl & msg & _ & _ & _ & _ & _ & -> & _)]; [contradiction|].
  cbn [ledger set_ledger]. apply add_alert_records_id.
Qed.

End MonitorFacts.

(** ** The two loops over the monitored symbols *)

Lemma symbols_distinct : NoDup Config.SYMBOLS_TO_MONITOR.
Proof.
  refine (bool_decide_eq_true_1 (NoDup Config.SYMBOLS_TO_MONITOR) _).
  vm_compute. reflexivity.
Qed.

Lemma elem_of_NoDup_split {A} (l : list A) (x : A) :
  NoDup l -> x ∈ l -> exists l1 l2, l = l1 ++ x :: l2 /\ (x ∉ l1) /\ (x ∉ l2).
Proof.
  intros Hnd Hx. apply list_elem_of_split in Hx. destruct Hx as (l1 & l2 & ->).
  exists l1, l2. split; [reflexivity|].
  apply NoDup_app in Hnd. destruct Hnd as (_ & Hdis & Hnd2).
  apply NoDup_cons in Hnd2. destruct Hnd2 as [Hx2 _].
  split; [|exact Hx2].
  intros Hx1. apply (Hdis x Hx1). apply elem_of_cons. left. reflexivity.
Qed.

Section Folds.

Import Monitor.

Variable f : Dashboard -> string -> Dashboard.

(** A field that no iteration changes. *)
Lemma foldl_field_kept {B} (proj : Dashboard -> B) :
  (forall st s, proj (f st s) = proj st) ->
  forall l st, proj (foldl f st l) = proj st.
Proof.
  intros Hstep l. induction l as [|x l IH]; intros st; [reflexivity|].
  simpl. rewrite IH. apply Hstep.
Qed.

(** A map of which an iteration changes its own key only. *)
Lemma foldl_key_kept {B} (proj : Dashboard -> gmap string B) :
  (forall st s s', s' <> s -> proj (f st s) !! s' = proj st !! s') ->
  forall l st s', s' ∉ l -> proj (foldl f st l) !! s' = proj st !! s'.
Proof.
  intros Hstep l. induction l as [|x l IH]; intros st s' Hs'; [reflexivity|].
  simpl. apply not_elem_of_cons in Hs'. destruct Hs' as [Hne Hs'].
  rewrite IH by exact Hs'. apply Hstep. exact Hne.
Qed.

Lemma foldl_inv (P : Dashboard -> Prop) :
  (forall st s, P st -> P (f st s)) ->
  forall l st, P st -> P (foldl f st l).
Proof.
  intros Hstep l. induction l as [|x l IH]; intros st Hst; [exact Hst|].
  simpl. apply IH, Hstep, Hst.
Qed.

End Folds.

Section MonitorLoops.

Import Monitor.

Variable sqrtQ : Q -> Q.
Variable get_historical_klines : string -> string -> Z -> string + list Candle.
Variable ai_generate : string -> gmap string pyval -> DataFrame -> option string.
Variables fmt1 fmt2 repr_float : float -> string.
Variable get_symbol_ticker : string -> string + float.
Variables fmt_price fmt_change : float -> string.
Variable minute_stamp : Z -> string.

(** The percentage shown after a refresh to price [p]. *)
Lemma update_price_cases (now_price now_id now_alert : Z) (st : Dashboard)
      (symbol : string) :
  let st' := update_price get_symbol_ticker fmt_price fmt_change minute_stamp
                          now_price now_id now_alert st symbol in
  st' = st
  \/ exists p change,
       get_realtime_price get_symbol_ticker symbol = Some p
       /\ truthy p = true
       /\ change = match current_prices st !! symbol with
                   | Some (mkPriceEntry (Some old_price) _) =>
                       if truthy old_price
                       then fmul (fdiv (fsub p old_price) old_price) (Fin 100)
                       else Fin 0
                   | _ => Fin 0
                   end
       /\ (forall e, current_prices st !! symbol = Some e -> price e <> None)
       /\ st' = check_price_alerts fmt_price minute_stamp now_id now_alert symbol p
                  (mkDashboard
                     (<[symbol := mkPriceEntry (Some p) now_price]> (current_prices st))
                     (<[symbol := fmt_change change]> (price_changes st))
                     (last_analysis st) (ledger st)).
Proof.
  cbv zeta. unfold update_price.
  destruct (get_realtime_price get_symbol_ticker symbol) as [p|] eqn:Hp;
    [|left; reflexivity].
  destruct (truthy p) eqn:Ht; [|left; reflexivity].
  destruct (current_prices st !! symbol) as [[[old|] ts]|] eqn:Hold.
  - right. exists p. eexists. split_and!; try reflexivity; try exact Ht.
    intros e [= <-]. discriminate.
  - left. reflexivity.
  - right. exists p. eexists. split_and!; try reflexivity; try exact Ht.
    intros e [=].
Qed.

Lemma update_price_success (now_price now_id now_alert : Z) (st : Dashboard)
      (symbol : string) (p : float) :
  get_realtime_price get_symbol_ticker symbol = Some p ->
  truthy p = true ->
  (forall e, current_prices st !! symbol = Some e -> price e <> None) ->
  update_price get_symbol_ticker fmt_price fmt_change minute_stamp
               now_price now_id now_alert st symbol
  = check_price_alerts fmt_price minute_stamp now_id now_alert symbol p
      (mkDashboard
         (<[symbol := mkPriceEntry (Some p) now_price]> (current_prices st))
         (<[symbol := fmt_change
                        match current_prices st !! symbol with
                        | Some (mkPriceEntry (Some old_price) _) =>
                            if truthy old_price
                            then fmul (fdiv (fsub p old_price) old_price) (Fin 100)
                            else Fin 0
                        | _ => Fin 0
                        end]> (price_changes st))
         (last_analysis st) (ledger st)).
Proof.
  intros Hp Ht Hnum. unfold update_price. rewrite Hp, Ht.
  destruct (current_prices st !! symbol) as [[[old|] ts]|] eqn:Hold;
    try reflexivity.
  exfalso. apply (Hnum _ eq_refl). reflexivity.
Qed.

Lemma update_price_last_analysis (now_price now_id now_alert : Z) (st : Dashboard)
      (symbol : string) :
  last_analysis (update_price get_symbol_ticker fmt_price fmt_change minute_stamp
                              now_price now_id now_alert st symbol)
  = last_analysis st.
Proof.
  destruct (update_price_cases now_price now_id now_alert st symbol)
    as [->|(p & change & _ & _ & _ & _ & ->)]; [reflexivity|].
  match goal with
  | |- context [check_price_alerts _ _ ?a ?b ?c ?d ?e] =>
      destruct (check_price_alerts_frame fmt_price minute_stamp a b c d e)
        as (_ & _ & ->)
  end.
  reflexivity.
Qed.

Lemma update_price_other (now_price now_id now_alert : Z) (st : Dashboard)
      (symbol s' : string) :
  s' <> symbol ->
  let st' := update_price get_symbol_ticker fmt_price fmt_change minute_stamp
                          now_price now_id now_alert st symbol in
  current_prices st' !! s' = current_prices st !! s'
  /\ price_changes st' !! s' = price_changes st !! s'.
Proof.
  intros Hne. cbv zeta.
  destruct (update_price_cases now_price now_id now_alert st symbol)
    as [->|(p & change & _ & _ & _ & _ & ->)]; [auto|].
  match goal with
  | |- context [check_price_alerts _ _ ?a ?b ?c ?d ?e] =>
      destruct (check_price_alerts_frame fmt_price minute_stamp a b c d e)
        as (-> & -> & _)
  end.
  cbn [current_prices price_changes].
  rewrite !lookup_insert_ne by congruence. auto.
Qed.

Lemma ledger_inv_update_price (now_price now_id now_alert : Z) (st : Dashboard)
      (symbol : string) :
  Agent.ledger_inv (ledger st) ->
  Agent.ledger_inv
    (ledger (update_price get_symbol_ticker fmt_price fmt_change minute_stamp
                          now_price now_id now_alert st symbol)).
Proof.
  intros Hinv.
  destruct (update_price_cases now_price now_id now_alert st symbol)
    as [->|(p & change & _ & _ & _ & _ & ->)]; [exact Hinv|].
  apply ledger_inv_check_price_alerts. exact Hinv.
Qed.

Lemma update_prices_kept (clock : string -> Z * Z * Z) (st : Dashboard) (s : string) :
  s ∉ Config.SYMBOLS_TO_MONITOR ->
  let st' := update_prices get_symbol_ticker fmt_price fmt_change minute_stamp
                           clock st in
  current_prices st' !! s = current_prices st !! s
  /\ price_changes st' !! s = price_changes st !! s
  /\ last_analysis st' = last_analysis st.
Proof.
  intros Hs. cbv zeta. unfold update_prices. split_and!.
  - apply (foldl_key_kept _ current_prices); [|exact Hs].
    intros st0 s0 s' Hne. apply update_price_other. exact Hne.
  - apply (foldl_key_kept _ price_changes); [|exact Hs].
    intros st0 s0 s' Hne. apply update_price_other. exact Hne.
  - apply (foldl_field_kept _ last_analysis). intros st0 s0.
    apply update_price_last_analysis.
Qed.

(** X18. One round of [update_prices], symbol by symbol.  The stored
    analyses are never touched.  A symbol that is not monitored, or whose
    price could not be read, or whose price reads as zero, keeps its
    cached price, its time stamp and its percentage: the last valid
    price stays on display.  A monitored symbol with a non-zero price [p]
    gets [p] cached with the time of the reading, and its percentage is
    that of [p] against the price cached before the round, [+0.00] on a
    first reading or after a cached zero; the readings of the other
    symbols in the same round do not enter. *)
Theorem update_prices_per_symbol (clock : string -> Z * Z * Z) (st : Dashboard) :
  let st' := update_prices get_symbol_ticker fmt_price fmt_change minute_stamp
                           clock st in
  last_analysis st' = last_analysis st
  /\ (forall s,
        s ∉ Config.SYMBOLS_TO_MONITOR
        \/ get_realtime_price get_symbol_ticker s = None
        \/ (exists p, get_realtime_price get_symbol_ticker s = Some p
                      /\ truthy p = false) ->
        current_prices st' !! s = current_prices st !! s
        /\ price_changes st' !! s = price_changes st !! s)
  /\ (forall s p,
        s ∈ Config.SYMBOLS_TO_MONITOR ->
        get_symbol_ticker s = inr p ->
        truthy p = true ->
        (forall e, current_prices st !! s = Some e -> price e <> None) ->
        current_prices st' !! s = Some (mkPriceEntry (Some p) (clock s).1.1)
        /\ price_changes st' !! s
           = Some (fmt_change
                     match current_prices st !! s with
                     | Some (mkPriceEntry (Some old_price) _) =>
                         if truthy old_price
                         then fmul (fdiv (fsub p old_price) old_price) (Fin 100)
                         else Fin 0
                     | _ => Fin 0
                     end)).
Proof.
  cbv zeta. unfold update_prices.
  set (f := fun (st : Dashboard) (symbol : string) =>
              update_price get_symbol_ticker fmt_price fmt_change minute_stamp
                           (clock symbol).1.1 (clock symbol).1.2 (clock symbol).2
                           st symbol).
  assert (Hcp : forall st s s', s' <> s ->
                  current_prices (f st s) !! s' = current_prices st !! s').
  { intros st0 s s' Hne. unfold f. apply update_price_other. exact Hne. }
  assert (Hpc : forall st s s', s' <> s ->
                  price_changes (f st s) !! s' = price_changes st !! s').
  { intros st0 s s' Hne. unfold f. apply update_price_other. exact Hne. }
  assert (Hsplit : forall s, s ∈ Config.SYMBOLS_TO_MONITOR ->
            exists st1,
              current_prices st1 !! s = current_prices st !! s
              /\ price_changes st1 !! s = price_changes st !! s
              /\ current_prices (foldl f st Config.SYMBOLS_TO_MONITOR) !! s
                 = current_prices (f st1 s) !! s
              /\ price_changes (foldl f st Config.SYMBOLS_TO_MONITOR) !! s
                 = price_changes (f st1 s) !! s).
  { intros s Hs.
    destruct (elem_of_NoDup_split _ _ symbols_distinct Hs) as (l1 & l2 & -> & H1 & H2).
    exists (foldl f st l1). rewrite foldl_app. cbn [foldl]. split_and!.
    - apply (foldl_key_kept f current_prices Hcp). exact H1.
    - apply (foldl_key_kept f price_changes Hpc). exact H1.
    - apply (foldl_key_kept f current_prices Hcp). exact H2.
    - apply (foldl_key_kept f price_changes Hpc). exact H2. }
  split_and!.
  - apply (foldl_field_kept f last_analysis). intros st0 s. unfold f.
    apply update_price_last_analysis.
  - intros s Hs.
    destruct (decide (s ∈ Config.SYMBOLS_TO_MONITOR)) as [Hin|Hnin].
    + destruct Hs as [Hs|Hs]; [contradiction|].
      destruct (Hsplit s Hin) as (st1 & E1 & E2 & -> & ->).
      rewrite <- E1, <- E2.
      assert (Hst : f st1 s = st1).
      { unfold f, update_price. destruct Hs as [->|(p & -> & ->)]; reflexivity. }
      rewrite Hst. auto.
    + split.
      * apply (foldl_key_kept f current_prices Hcp). exact Hnin.
      * apply (foldl_key_kept f price_changes Hpc). exact Hnin.
  - intros s p Hin Hp Ht Hnum.
    destruct (Hsplit s Hin) as (st1 & E1 & E2 & -> & ->).
    assert (Hrt : get_realtime_price get_symbol_ticker s = Some p).
    { unfold get_realtime_price.
      rewrite (proj2 (is_valid_symbol_iff s) Hin), Hp. reflexivity. }
    unfold f. rewrite (update_price_success _ _ _ _ _ p Hrt Ht).
    2:{ intros e He. rewrite E1 in He. exact (Hnum e He). }
    match goal with
    | |- context [check_price_alerts _ _ ?a ?b ?c ?d ?e] =>
        destruct (check_price_alerts_frame fmt_price minute_stamp a b c d e)
          as (-> & -> & _)
    end.
    cbn [current_prices price_changes]. rewrite !lookup_insert_eq.
    rewrite E1. auto.
Qed.


Lemma foldl_field_kept_on {B} (f : Monitor.Dashboard -> string -> Monitor.Dashboard)
      (proj : Monitor.Dashboard -> B) (l : list string) :
  (forall st s, s ∈ l -> proj (f st s) = proj st) ->
  forall st, proj (foldl f st l) = proj st.
Proof.
  induction l as [|x l IH]; intros Hstep st; [reflexivity|].
  simpl. rewrite IH.
  - apply Hstep. apply elem_of_cons. left. reflexivity.
  - intros st0 s Hs. apply Hstep. apply elem_of_cons. right. exact Hs.
Qed.

Lemma perform_analysis_symbol_fields
      (now_fetch now_id now_alert : Z) (st : Dashboard) (symbol : string) :
  let result :=
    (analyze_trends sqrtQ now_fetch get_historical_klines ai_generate
                    fmt1 fmt2 repr_float symbol "1d" 30).1 in
  let st' := perform_analysis_symbol sqrtQ get_historical_klines ai_generate
               fmt1 fmt2 repr_float minute_stamp now_fetch now_id now_alert
               st symbol in
  last_analysis st' = <[symbol := result]> (last_analysis st)
  /\ current_prices st' = current_prices st
  /\ price_changes st' = price_changes st
  /\ (ledger st' = ledger st
      \/ exists msg aid, ledger st' = Agent.add_alert now_alert msg aid (ledger st))
  /\ (truthy_val (get_is_critical (technical_data result)) = false ->
      ledger st' = ledger st).
Proof.
  cbv zeta. unfold perform_analysis_symbol.
  destruct (truthy_val (get_is_critical (technical_data _))) eqn:Hc;
    cbn [last_analysis current_prices price_changes ledger set_ledger
         set_last_analysis]; split_and!; try reflexivity.
  - right. eexists _, _. reflexivity.
  - discriminate.
  - left. reflexivity.
Qed.

Lemma perform_analysis_kept (clock : string -> Z * Z * Z) (st : Dashboard) (s : string) :
  s ∉ Config.SYMBOLS_TO_MONITOR ->
  let st' := perform_analysis sqrtQ get_historical_klines ai_generate
               fmt1 fmt2 repr_float minute_stamp clock st in
  last_analysis st' !! s = last_analysis st !! s
  /\ current_prices st' = current_prices st
  /\ price_changes st' = price_changes st.
Proof.
  intros Hs. cbv zeta. unfold perform_analysis. split_and!.
  - apply (foldl_key_kept _ last_analysis); [|exact Hs].
    intros st0 s0 s' Hne.
    destruct (perform_analysis_symbol_fields (clock s0).1.1 (clock s0).1.2
                (clock s0).2 st0 s0) as (-> & _).
    apply lookup_insert_ne. congruence.
  - apply (foldl_field_kept _ current_prices). intros st0 s0.
    apply perform_analysis_symbol_fields.
  - apply (foldl_field_kept _ price_changes). intros st0 s0.
    apply perform_analysis_symbol_fields.
Qed.

Lemma perform_analysis_prices (clock : string -> Z * Z * Z) (st : Dashboard) :
  let st' := perform_analysis sqrtQ get_historical_klines ai_generate
               fmt1 fmt2 repr_float minute_stamp clock st in
  current_prices st' = current_prices st /\ price_changes st' = price_changes st.
Proof.
  cbv zeta. unfold perform_analysis. split.
  - apply (foldl_field_kept _ current_prices). intros st0 s0.
    apply perform_analysis_symbol_fields.
  - apply (foldl_field_kept _ price_changes). intros st0 s0.
    apply perform_analysis_symbol_fields.
Qed.

Lemma perform_analysis_result (clock : string -> Z * Z * Z) (st : Dashboard) (s : string) :
  s ∈ Config.SYMBOLS_TO_MONITOR ->
  last_analysis (perform_analysis sqrtQ get_historical_klines ai_generate
                   fmt1 fmt2 repr_float minute_stamp clock st) !! s
  = Some (analyze_trends sqrtQ (clock s).1.1 get_historical_klines ai_generate
                         fmt1 fmt2 repr_float s "1d" 30).1.
Proof.
  intros Hs. unfold perform_analysis.
  set (f := fun (st : Dashboard) (symbol : string) =>
              perform_analysis_symbol sqrtQ get_historical_klines ai_generate
                fmt1 fmt2 repr_float minute_stamp
                (clock symbol).1.1 (clock symbol).1.2 (clock symbol).2 st symbol).
  assert (Hla : forall st s s', s' <> s ->
                  last_analysis (f st s) !! s' = last_analysis st !! s').
  { intros st0 s0 s' Hne. unfold f.
    destruct (perform_analysis_symbol_fields (clock s0).1.1 (clock s0).1.2
                (clock s0).2 st0 s0) as (-> & _).
    apply lookup_insert_ne. congruence. }
  destruct (elem_of_NoDup_split _ _ symbols_distinct Hs) as (l1 & l2 & -> & H1 & H2).
  rewrite foldl_app. cbn [foldl].
  rewrite (foldl_key_kept f last_analysis Hla) by exact H2.
  unfold f at 1.
  destruct (perform_analysis_symbol_fields (clock s).1.1 (clock s).1.2
              (clock s).2 (foldl f st l1) s) as (-> & _).
  apply lookup_insert_eq.
Qed.

(** X19. One round of [perform_analysis].  Afterwards every monitored
    symbol carries the result of its own [analyze_trends] call (daily
    candles, 30 days), whatever happened for the other symbols; entries
    of other symbols, the cached prices and the percentages are
    untouched.  The ledger changes only through the alert of a critical
    result: when no monitored symbol's result is critical the ledger is
    the one before the round. *)
Theorem perform_analysis_per_symbol (clock : string -> Z * Z * Z) (st : Dashboard) :
  let result s :=
    (analyze_trends sqrtQ (clock s).1.1 get_historical_klines ai_generate
                    fmt1 fmt2 repr_float s "1d" 30).1 in
  let st' := perform_analysis sqrtQ get_historical_klines ai_generate
               fmt1 fmt2 repr_float minute_stamp clock st in
  (forall s, s ∈ Config.SYMBOLS_TO_MONITOR ->
             last_analysis st' !! s = Some (result s))
  /\ (forall s, s ∉ Config.SYMBOLS_TO_MONITOR ->
                last_analysis st' !! s = last_analysis st !! s)
  /\ current_prices st' = current_prices st
  /\ price_changes st' = price_changes st
  /\ ((forall s, s ∈ Config.SYMBOLS_TO_MONITOR ->
         truthy_val (get_is_critical (technical_data (result s))) = false) ->
      ledger st' = ledger st).
Proof.
  cbv zeta. split_and!.
  - intros s Hs. apply perform_analysis_result. exact Hs.
  - intros s Hs. apply perform_analysis_kept. exact Hs.
  - apply perform_analysis_prices.
  - apply perform_analysis_prices.
  - intros Hcalm. unfold perform_analysis. apply (foldl_field_kept_on _ ledger).
    intros st0 s Hs.
    apply perform_analysis_symbol_fields. apply Hcalm, Hs.
Qed.

Lemma ledger_inv_perform_analysis_symbol
      (now_fetch now_id now_alert : Z) (st : Dashboard) (symbol : string) :
  Agent.ledger_inv (ledger st) ->
  Agent.ledger_inv
    (ledger (perform_analysis_symbol sqrtQ get_historical_klines ai_generate
               fmt1 fmt2 repr_float minute_stamp now_fetch now_id now_alert
               st symbol)).
Proof.
  intros Hinv.
  destruct (perform_analysis_symbol_fields now_fetch now_id now_alert st symbol)
    as (_ & _ & _ & [->|(msg & aid & ->)] & _); [exact Hinv|].
  apply ledger_inv_add_alert, Hinv.
Qed.

End MonitorLoops.

(** X20. What holds of the agent's state after any sequence of price
    rounds and analysis rounds from the initial state, whatever the
    exchange, the generator and the clock answer: the alert list holds at
    most five alerts with pairwise distinct ids, all of them among the
    seen ids, of which there are never more than 1000; and prices,
    percentages and analyses are stored for monitored symbols only. *)
Theorem monitor_state_invariant
    (sqrtQ : Q -> Q) (fmt1 fmt2 repr_float fmt_price fmt_change : float -> string)
    (minute_stamp : Z -> string) (ticks : list Monitor.Tick) :
  let st := Monitor.run sqrtQ fmt1 fmt2 repr_float fmt_price fmt_change
                        minute_stamp ticks Monitor.init in
  (length (Agent.alerts (Monitor.ledger st)) <= 5)%nat
  /\ NoDup (Agent.id <$> Agent.alerts (Monitor.ledger st))
  /\ (forall x, x ∈ Agent.id <$> Agent.alerts (Monitor.ledger st) ->
                x ∈ Agent.processed_alerts (Monitor.ledger st))
  /\ (size (Agent.processed_alerts (Monitor.ledger st)) <= 1000)%nat
  /\ (forall s, s ∉ Config.SYMBOLS_TO_MONITOR ->
                Monitor.current_prices st !! s = None
                /\ Monitor.price_changes st !! s = None
                /\ Monitor.last_analysis st !! s = None).
Proof.
  cbv zeta.
  set (P := fun st : Monitor.Dashboard =>
              Agent.ledger_inv (Monitor.ledger st)
              /\ forall s, s ∉ Config.SYMBOLS_TO_MONITOR ->
                           Monitor.current_prices st !! s = None
                           /\ Monitor.price_changes st !! s = None
                           /\ Monitor.last_analysis st !! s = None).
  assert (Hrun : forall ticks st,
            P st -> P (Monitor.run sqrtQ fmt1 fmt2 repr_float fmt_price fmt_change
                                   minute_stamp ticks st)).
  { clear ticks. intros ticks. unfold Monitor.run.
    induction ticks as [|t ticks IH]; intros st Hst; [exact Hst|].
    simpl. apply IH. destruct Hst as [Hinv Hdom]. destruct t as [tk clock|kl ai clock].
    - cbn [Monitor.tick]. split.
      + unfold Monitor.update_prices.
        apply (foldl_inv _ (fun st => Agent.ledger_inv (Monitor.ledger st)));
          [|exact Hinv].
        intros st0 s H0. apply ledger_inv_update_price. exact H0.
      + intros s Hs.
        destruct (update_prices_kept tk fmt_price fmt_change minute_stamp
                    clock st s Hs) as (-> & -> & ->).
        apply Hdom, Hs.
    - cbn [Monitor.tick]. split.
      + unfold Monitor.perform_analysis.
        apply (foldl_inv _ (fun st => Agent.ledger_inv (Monitor.ledger st)));
          [|exact Hinv].
        intros st0 s H0. apply ledger_inv_perform_analysis_symbol. exact H0.
      + intros s Hs.
        destruct (perform_analysis_kept sqrtQ kl ai fmt1 fmt2 repr_float
                    minute_stamp clock st s Hs) as (-> & -> & ->).
        apply Hdom, Hs. }
  assert (Hinit : P Monitor.init).
  { split; [exact ledger_inv_init|]. intros s _. unfold Monitor.init.
    cbn [Monitor.current_prices Monitor.price_changes Monitor.last_analysis].
    rewrite !lookup_empty. auto. }
  destruct (Hrun ticks _ Hinit) as [(H1 & H2 & H3 & H4) H5].
  split_and!; assumption.
Qed.

(** ** The rows of the display *)

Section Display.

Import Monitor.

Variables fmt1 repr_float fmt_price : float -> string.
Variable round1 : float -> float.
Variable clock_time : Z -> string.

Lemma degraded_results_rsi (a : AnalysisResult) :
  a = unavailable_result \/ (exists e, a = error_result e)
  \/ a = _get_default_analysis ->
  technical_data a !! "rsi"%string = Some PyNone.
Proof.
  intros [->|[[e ->]| ->]]; unfold unavailable_result, error_result,
    _get_default_analysis; cbn [technical_data]; by simplify_map_eq.
Qed.

Lemma display_row_rsi_none (now now_err : Z) (st : Dashboard) (symbol : string)
      (a : AnalysisResult) :
  last_analysis st !! symbol = Some a ->
  technical_data a !! "rsi"%string = Some PyNone ->
  display_row fmt1 repr_float fmt_price round1 clock_time now now_err st symbol
  = [symbol; "Error"; "Error"; "Error"; "Error"; clock_time now_err]%string.
Proof.
  intros Ha Hrsi. unfold display_row, display_row_body. rewrite Ha.
  cbv zeta. rewrite Hrsi. reflexivity.
Qed.

Lemma display_row_rsi_float (now now_err : Z) (st : Dashboard) (symbol : string)
      (a : AnalysisResult) (rsi : float) :
  last_analysis st !! symbol = Some a ->
  technical_data a !! "rsi"%string = Some (PyFloat rsi) ->
  exists change trend,
    display_row fmt1 repr_float fmt_price round1 clock_time now now_err st symbol
    = [symbol;
       match current_prices st !! symbol with
       | Some (mkPriceEntry (Some p) _) => "$" +:+ fmt_price p
       | _ => "N/A"
       end;
       change; trend;
       if fgtb (round1 rsi) (Fin 70) then "[red]" +:+ fmt1 rsi +:+ "[/]"
       else if fltb (round1 rsi) (Fin 30) then "[green]" +:+ fmt1 rsi +:+ "[/]"
       else fmt1 rsi;
       clock_time match current_prices st !! symbol with
                  | Some e => timestamp e
                  | None => now
                  end]%string.
Proof.
  intros Ha Hrsi. unfold display_row, display_row_body. rewrite Ha.
  cbv zeta. rewrite Hrsi. eexists _, _. reflexivity.
Qed.

(** X21. A snapshot without readings blanks the whole row.  When the
    stored analysis of a symbol has [None] as its RSI, as have the three
    snapshots the agent stores when a fetch failed, when the analysis
    raised and by default, the row of the symbol reads [Error] in every
    cell after the symbol, with the time of the failure: the cached price
    and its percentage are not shown, whatever they are. *)
Theorem degraded_analysis_blanks_row
    (now now_err : Z) (st : Dashboard) (symbol : string) (a : AnalysisResult) :
  last_analysis st !! symbol = Some a ->
  technical_data a !! "rsi"%string = Some PyNone
  \/ a = unavailable_result \/ (exists e, a = error_result e)
  \/ a = _get_default_analysis ->
  display_row fmt1 repr_float fmt_price round1 clock_time now now_err st symbol
  = [symbol; "Error"; "Error"; "Error"; "Error"; clock_time now_err]%string
  /\ forall prices changes,
       display_row fmt1 repr_float fmt_price round1 clock_time now now_err
                   (mkDashboard prices changes (last_analysis st) (ledger st)) symbol
       = display_row fmt1 repr_float fmt_price round1 clock_time now now_err
                     st symbol.
Proof.
  intros Ha Hbad.
  assert (Hrsi : technical_data a !! "rsi"%string = Some PyNone).
  { destruct Hbad as [H|H]; [exact H|]. apply degraded_results_rsi, H. }
  split.
  - apply (display_row_rsi_none now now_err st symbol a Ha Hrsi).
  - intros prices changes.
    rewrite (display_row_rsi_none now now_err st symbol a Ha Hrsi).
    apply (display_row_rsi_none now now_err _ symbol a); [exact Ha|exact Hrsi].
Qed.

End Display.

Section DisplayAfterAnalysis.

Import Monitor.

Variable sqrtQ : Q -> Q.
Variable get_historical_klines : string -> string -> Z -> string + list Candle.
Variable ai_generate : string -> gmap string pyval -> DataFrame -> option string.
Variables fmt1 fmt2 repr_float fmt_price : float -> string.
Variable round1 : float -> float.
Variable minute_stamp : Z -> string.
Variable clock_time : Z -> string.

(** X22. The row of a monitored symbol right after a round of
    [perform_analysis], in terms of what the symbol's fetch returned.
    If the fetch failed or returned no candle the row reads [Error] in
    every cell, the cached price included.  If it returned candles the
    row is built without error: it shows the cached price (['N/A'] when
    none is cached) and the RSI of the last candle, formatted to one
    decimal and marked red above 70 and green below 30 (compared after
    rounding). *)
Theorem row_after_analysis
    (clock : string -> Z * Z * Z) (now now_err : Z) (st : Dashboard) (s : string) :
  s ∈ Config.SYMBOLS_TO_MONITOR ->
  let fetched :=
    (get_historical_data (clock s).1.1 get_historical_klines s
                         (Some "1d"%string) (Some 30%Z)).1 in
  let st' := perform_analysis sqrtQ get_historical_klines ai_generate
               fmt1 fmt2 repr_float minute_stamp clock st in
  let row := display_row fmt1 repr_float fmt_price round1 clock_time now now_err
                         st' s in
  (fetched = None \/ fetched = Some [] ->
   row = [s; "Error"; "Error"; "Error"; "Error"; clock_time now_err]%string)
  /\ (forall cs, fetched = Some cs -> cs <> [] ->
      exists rsi change trend,
        last (RSI (calculate_technical_indicators sqrtQ cs)) = Some rsi
        /\ row
           = [s;
              match current_prices st !! s with
              | Some (mkPriceEntry (Some p) _) => "$" +:+ fmt_price p
              | _ => "N/A"
              end;
              change; trend;
              if fgtb (round1 rsi) (Fin 70) then "[red]" +:+ fmt1 rsi +:+ "[/]"
              else if fltb (round1 rsi) (Fin 30) then "[green]" +:+ fmt1 rsi +:+ "[/]"
              else fmt1 rsi;
              clock_time match current_prices st !! s with
                         | Some e => timestamp e
                         | None => now
                         end]%string).
Proof.
  intros Hs. cbv zeta.
  pose proof (perform_analysis_result sqrtQ get_historical_klines ai_generate
                fmt1 fmt2 repr_float minute_stamp clock st s Hs) as Hres.
  destruct (perform_analysis_prices sqrtQ get_historical_klines ai_generate
              fmt1 fmt2 repr_float minute_stamp clock st) as [Hcp _].
  split.
  - intros Hbad.
    apply (display_row_rsi_none _ _ _ _ _ now now_err _ s _ Hres).
    apply degraded_results_rsi.
    destruct Hbad as [Hnone|Hempty].
    + left. unfold analyze_trends.
      destruct (get_historical_data (clock s).1.1 get_historical_klines s
                                    (Some "1d"%string) (Some 30%Z)) as [[cs|] ev];
        simpl in Hnone |- *; [discriminate|reflexivity].
    + right. left.
      rewrite (analyze_trends_fetched _ _ _ _ _ _ _ _ _ _ [] Hempty).
      eexists. reflexivity.
  - intros cs Hf Hne.
    destruct (run_result sqrtQ (clock s).1.1 get_historical_klines fmt1 fmt2
                repr_float s "1d" 30 cs Hf Hne)
      as (cp & tl & sup & res & rsi & ba & crit & _ & Hlast & Hrun).
    destruct (Hrun ai_generate) as [Hout _].
    rewrite Hout in Hres.
    destruct (display_row_rsi_float fmt1 repr_float fmt_price round1 clock_time
                now now_err _ s _ rsi Hres) as (change & trend & Hrow).
    { cbn [technical_data]. apply snapshot_lookups. }
    exists rsi, change, trend. split; [exact Hlast|].
    rewrite Hrow, Hcp. reflexivity.
Qed.

End DisplayAfterAnalysis.

(** ** Examples for the monitoring agent *)

Lemma price_alerts_need_usable_analysis_witness :
  Monitor.check_price_alerts fmt_blank stamp_any 0 7 "BTCUSDT" (Fin 103) outage_dashboard
  = outage_dashboard.
Proof.
  apply (proj1 (proj2 (proj2
           (price_alerts_need_usable_analysis fmt_blank stamp_any 0 7 "BTCUSDT"
              (Fin 103) outage_dashboard))) unavailable_result).
  - reflexivity.
  - right. left. reflexivity.
Defined.


Lemma price_alert_once_per_minute_witness :
  let st1 := Monitor.check_price_alerts fmt_blank stamp_any 0 7 "BTCUSDT" (Fin 103)
                                        calm_dashboard in
  st1 <> calm_dashboard
  /\ Monitor.check_price_alerts fmt_blank stamp_any 1 8 "BTCUSDT" (Fin 200) st1 = st1.
Proof.
  cbv zeta.
  assert (Hne : Monitor.check_price_alerts fmt_blank stamp_any 0 7 "BTCUSDT" (Fin 103)
                                           calm_dashboard <> calm_dashboard).
  { intros E.
    apply (f_equal (fun st => length (Agent.alerts (Monitor.ledger st)))) in E.
    vm_compute in E. discriminate. }
  split; [exact Hne|].
  apply (price_alert_once_per_minute fmt_blank stamp_any 0 7 "BTCUSDT" (Fin 103)
           calm_dashboard Hne 1 8 (Fin 200)).
  reflexivity.
Defined.

Lemma update_prices_per_symbol_witness :
  Monitor.current_prices
    (Monitor.update_prices steady_ticker fmt_blank fmt_blank stamp_any clock_zero
                           Monitor.init) !! "BTCUSDT"%string
  = Some (Monitor.mkPriceEntry (Some (Fin 103)) 0).
Proof.
  apply (proj2 (proj2 (update_prices_per_symbol steady_ticker fmt_blank fmt_blank
                         stamp_any clock_zero Monitor.init)) "BTCUSDT" (Fin 103)).
  - exact btcusdt_monitored.
  - reflexivity.
  - reflexivity.
  - intros e H. vm_compute in H. discriminate.
Defined.

Lemma perform_analysis_per_symbol_witness :
  Monitor.last_analysis
    (Monitor.perform_analysis sqrt_any failing_exchange no_generator
       fmt_blank fmt_blank fmt_blank stamp_any clock_zero Monitor.init)
    !! "BTCUSDT"%string
  = Some unavailable_result.
Proof.
  exact (proj1 (perform_analysis_per_symbol sqrt_any failing_exchange no_generator
                  fmt_blank fmt_blank fmt_blank stamp_any clock_zero Monitor.init)
               "BTCUSDT"%string btcusdt_monitored).
Defined.

Lemma degraded_analysis_blanks_row_witness :
  Monitor.display_row fmt_blank fmt_blank fmt_blank (fun x => x) stamp_any 0 9
                      outage_dashboard "BTCUSDT"
  = ["BTCUSDT"; "Error"; "Error"; "Error"; "Error"; "m"]%string.
Proof.
  apply (proj1 (degraded_analysis_blanks_row fmt_blank fmt_blank fmt_blank
                  (fun x => x) stamp_any 0 9 outage_dashboard "BTCUSDT"
                  unavailable_result eq_refl
                  (or_intror (or_introl eq_refl)))).
Defined.

Lemma row_after_analysis_witness :
  Monitor.display_row fmt_blank fmt_blank fmt_blank (fun x => x) stamp_any 0 9
    (Monitor.perform_analysis sqrt_any failing_exchange no_generator
       fmt_blank fmt_blank fmt_blank stamp_any clock_zero outage_dashboard)
    "BTCUSDT"
  = ["BTCUSDT"; "Error"; "Error"; "Error"; "Error"; "m"]%string.
Proof.
  apply (proj1 (row_after_analysis sqrt_any failing_exchange no_generator
                  fmt_blank fmt_blank fmt_blank fmt_blank (fun x => x) stamp_any
                  stamp_any clock_zero 0 9 outage_dashboard "BTCUSDT"
                  btcusdt_monitored)).
  left. reflexivity.
Defined.

(** ** Series shorter than the trend line needs *)

Lemma last_nan_series (n : nat) (x : float) :
  last (nan_series n) = Some x -> x = NaN.
Proof.
  intros H. rewrite last_lookup in H. apply list_elem_of_lookup_2 in H.
  unfold nan_series in H. apply elem_of_replicate in H. apply H.
Qed.

Lemma last_rolling_short (p : nat) (F : Series -> float) (s : Series) (x : float) :
  (length s < p)%nat -> last (rolling p F s) = Some x -> x = NaN.
Proof.
  intros Hlen H. rewrite last_lookup, length_rolling in H.
  destruct s as [|y s]; [discriminate|].
  rewrite lookup_rolling in H by (simpl; lia).
  match type of H with
  | Some (if (?q <=? ?i + 1)%nat && _ then _ else _) = _ =>
      assert (E : (q <=? i + 1)%nat = false)
        by (apply Nat.leb_gt; simpl in *; lia)
  end.
  rewrite E in H. simpl in H. congruence.
Qed.

Lemma break_analysis_warm_up (sqrtQ : Q -> Q) (cs : list Candle) :
  (length cs <= 20)%nat ->
  break_analysis_of (calculate_technical_indicators sqrtQ cs) = "無明顯突破"%string.
Proof.
  intros Hlen.
  assert (Hnan : forall x, x ∈ trend_break (calculate_technical_indicators sqrtQ cs) ->
                           x = NaN).
  { intros x Hx. apply list_elem_of_lookup in Hx. destruct Hx as [t Ht].
    pose proof (lookup_lt_Some _ _ _ Ht) as Hlt.
    rewrite trend_break_calc in Ht, Hlt.
    rewrite length_detect_trend_breaks in Hlt by apply aligned_calc.
    rewrite lookup_detect_trend_breaks in Ht; [|apply aligned_calc|exact Hlt].
    unfold len in Hlt. rewrite rows_calc in Hlt.
    destruct (triggers_warm_up sqrtQ cs t) as [Hu Hd].
    { unfold Config.MA_default_period. lia. }
    rewrite Hd, Hu in Ht. congruence. }
  assert (Hkept : filter (fun x => is_nan x = false)
                         (trend_break (calculate_technical_indicators sqrtQ cs)) = []).
  { induction (trend_break (calculate_technical_indicators sqrtQ cs)) as [|y l IH];
      [reflexivity|].
    rewrite filter_cons.
    rewrite (Hnan y) by (apply elem_of_cons; left; reflexivity).
    destruct (decide (is_nan NaN = false)) as [H|_]; [discriminate|].
    apply IH. intros x Hx. apply Hnan. apply elem_of_cons. right. exact Hx. }
  unfold break_analysis_of, recent_breaks. cbv zeta. rewrite Hkept. reflexivity.
Qed.

Lemma rsi_short (sqrtQ : Q -> Q) (cs : list Candle) (x : float) :
  (length cs < Config.RSI_period)%nat ->
  last (RSI (calculate_technical_indicators sqrtQ cs)) = Some x -> x = NaN.
Proof.
  intros Hlen H. rewrite RSI_calc, last_lookup in H.
  rewrite list_lookup_fmap in H.
  destruct (zip_with fdiv (rsi_gain cs) (rsi_loss cs) !! _) as [rs|] eqn:E;
    [|discriminate].
  injection H as <-.
  apply lookup_zip_with_Some in E. destruct E as (g & l & -> & Hg & _).
  assert (Hgn : g = NaN).
  { unfold rsi_gain in Hg.
    pose proof (lookup_lt_Some _ _ _ Hg) as Hlt.
    rewrite length_rolling, length_gains, length_col in Hlt.
    rewrite lookup_rolling in Hg by (rewrite length_gains, length_col; exact Hlt).
    match type of Hg with
    | Some (if (?q <=? ?i + 1)%nat && _ then _ else _) = _ =>
        assert (E : (q <=? i + 1)%nat = false) by (apply Nat.leb_gt; lia)
    end.
    rewrite E in Hg. simpl in Hg. congruence. }
  rewrite Hgn. reflexivity.
Qed.

(** X23. Fewer than five candles.  When the fetch returns between one
    and four candles, [analyze_trends] still reports: the price is the
    last close and trend line, support, resistance and RSI are all NaN,
    no breakout is reported and the verdict is never critical, so the
    generator is not consulted, whatever the candles are.  The templated
    narrative then calls the NaN RSI normal and prints NaN as support
    and as resistance.  On such a snapshot a price check raises no
    alert, whatever the price. *)
Theorem short_series_never_critical
    (sqrtQ : Q -> Q) (now : Z)
    (get_historical_klines : string -> string -> Z -> string + list Candle)
    (ai_generate : string -> gmap string pyval -> DataFrame -> option string)
    (fmt1 fmt2 repr_float : float -> string)
    (symbol interval : string) (days : Z) (cs : list Candle) :
  (get_historical_data now get_historical_klines symbol (Some interval) (Some days)).1
  = Some cs ->
  cs <> [] ->
  (length cs < 5)%nat ->
  let out := analyze_trends sqrtQ now get_historical_klines ai_generate
                            fmt1 fmt2 repr_float symbol interval days in
  exists c,
    last cs = Some c
    /\ technical_data out.1
       = snapshot (Fin (close c)) NaN NaN NaN NaN "無明顯突破" false
    /\ get_is_critical (technical_data out.1) = PyBool false
    /\ analysis out.1
       = join_lines ["當前趨勢: 無明顯突破";
                     "RSI (" +:+ fmt1 NaN +:+ ") 處於正常區間";
                     "支撐位: $" +:+ fmt2 NaN;
                     "阻力位: $" +:+ fmt2 NaN]%string
    /\ forall (fmt_price : float -> string) (minute_stamp : Z -> string)
              (now_id now_alert : Z) (p : float) (st : Monitor.Dashboard),
         Monitor.last_analysis st !! symbol = Some out.1 ->
         Monitor.check_price_alerts fmt_price minute_stamp now_id now_alert
                                    symbol p st = st.
Proof.
  intros Hf Hne Hlen. cbv zeta.
  rewrite (analyze_trends_fetched _ _ _ _ _ _ _ _ _ _ cs Hf).
  destruct (analyze_frame_nonempty sqrtQ ai_generate fmt1 fmt2 repr_float symbol
              cs Hne) as (c & tl & s & r & rsi & Hc & Htl & Hs & Hr & Hrsi & Hframe).
  cbv zeta in Hframe. rewrite Hframe. cbn [fst].
  assert (Etl : tl = NaN).
  { rewrite trend_line_calc in Htl. unfold _calculate_trend_line in Htl.
    rewrite length_col in Htl.
    assert (E : (length cs <? Config.TREND_min_points)%nat = true)
      by (apply Nat.ltb_lt; unfold Config.TREND_min_points; lia).
    rewrite E in Htl. apply last_nan_series in Htl. exact Htl. }
  assert (Es : s = NaN).
  { rewrite support_calc in Hs. apply last_rolling_short in Hs; [exact Hs|].
    rewrite length_col. unfold Config.MA_default_period. lia. }
  assert (Er : r = NaN).
  { rewrite resistance_calc in Hr. apply last_rolling_short in Hr; [exact Hr|].
    rewrite length_col. unfold Config.MA_default_period. lia. }
  assert (Ersi : rsi = NaN).
  { apply (rsi_short sqrtQ cs); [|exact Hrsi]. unfold Config.RSI_period. lia. }
  subst tl s r rsi.
  rewrite (break_analysis_warm_up sqrtQ cs) by lia.
  assert (Ecrit : _is_critical_moment (calculate_technical_indicators sqrtQ cs)
                    (Fin (close c)) (Some NaN) (Some NaN) (Some NaN) (Some NaN)
                  = false).
  { destruct (volume_clause_spec (calculate_technical_indicators sqrtQ cs))
      as (v & Hv & Hviff).
    unfold _is_critical_moment.
    rewrite (is_critical_moment_body_eq _ _ _ _ _ _ v Hv), default_Some.
    rewrite check_fake_breakout_engine_frames.
    assert (Ev : v = false).
    { destruct v; [|reflexivity]. exfalso.
      destruct (proj1 Hviff eq_refl) as (q & _ & Hlen20 & _).
      rewrite rows_calc, length_fmap in Hlen20. lia. }
    rewrite Ev. reflexivity. }
  rewrite Ecrit. cbn [technical_data analysis].
  exists c. split_and!.
  - exact Hc.
  - reflexivity.
  - apply get_is_critical_snapshot.
  - rewrite generate_basic_analysis_snapshot. reflexivity.
  - intros fmt_price minute_stamp now_id now_alert p st Hst.
    unfold Monitor.check_price_alerts. rewrite Hst. cbn [technical_data].
    rewrite get_is_critical_snapshot. cbn [truthy_val].
    destruct (snapshot_lookups (Fin (close c)) NaN NaN NaN NaN "無明顯突破" false)
      as (_ & -> & _).
    cbn [truthy]. unfold fgtb.
    assert (E1 : forall k, fmul NaN (Fin k) = NaN) by reflexivity.
    rewrite !E1.
    assert (E2 : fltb NaN p = false) by reflexivity.
    assert (E3 : fltb p NaN = false) by (destruct p; reflexivity).
    rewrite E2, E3. reflexivity.
Qed.

Lemma short_series_never_critical_witness :
  technical_data
    (analyze_trends sqrt_any 0 quiet_exchange no_generator
                    fmt_blank fmt_blank fmt_blank "BTCUSDT" "1d" 30).1
  !! "is_critical"%string = Some (PyBool false).
Proof.
  destruct (short_series_never_critical sqrt_any 0 quiet_exchange no_generator
              fmt_blank fmt_blank fmt_blank "BTCUSDT" "1d" 30 three_candles)
    as (c & _ & Htd & _).
  - reflexivity.
  - discriminate.
  - simpl. lia.
  - rewrite Htd. apply snapshot_lookups.
Defined.
